(** * CollectionViewer plugin lifecycle manager

    A shallow embedding of [lifecycle_manager.py]: the lifecycle adapter of
    the CollectionViewer plugin.  The Python code talks to two external
    collaborators, a filesystem (through [pathlib] and [shutil]) and a
    database session (through [db.execute], [db.commit], [db.rollback]).
    Both are modelled as explicit state; every external call may raise, which
    is modelled by an oracle carried by the state, and every call is recorded
    in a trace. *)

From Stdlib Require Import String Ascii List Bool Arith Lia.
From stdpp Require Import base option strings list gmap.

Local Open Scope string_scope.
Set Warnings "-register-all".

(** ** Strings and paths *)

(** [s.endswith(suffix)] *)
Definition endswith (s suffix : string) : bool :=
  let n := String.length s in
  let m := String.length suffix in
  (m <=? n)%nat && String.eqb (substring (n - m) m s) suffix.

(** ['*' in pattern] *)
Definition has_star (pattern : string) : bool :=
  existsb (Ascii.eqb "*"%char) (list_ascii_of_string pattern).

(** [pattern.replace('*', '')] *)
Definition remove_star (pattern : string) : string :=
  string_of_list_ascii
    (List.filter (fun c => negb (Ascii.eqb "*"%char c)) (list_ascii_of_string pattern)).

(** A [pathlib.Path] is kept as its tuple of [parts]. *)
Abbreviation path := (list string).

(** [path.name]: the final component, the empty string when there is none. *)
Definition name (p : path) : string := List.last p "".

(** [path.parent] *)
Definition parent (p : path) : path := removelast p.

(** [str(path)] for a relative path. *)
Fixpoint str_path (p : path) : string :=
  match p with
  | [] => "."
  | [x] => x
  | x :: q => x +:+ "/" +:+ str_path q
  end.

(** [', '.join(l)] *)
Fixpoint join_comma (l : list string) : string :=
  match l with
  | [] => ""
  | [x] => x
  | x :: q => x +:+ ", " +:+ join_comma q
  end.

(** [q] lies strictly below the directory [d]. *)
Definition below (d q : path) : bool :=
  bool_decide (take (length d) q = d) && (length d <? length q)%nat.

(** [item.relative_to(source_dir)] for an item below [source_dir]. *)
Definition relative_to (d q : path) : path := drop (length d) q.

(** ** The exclusion filter of the file copy *)

Definition exclude_patterns : list string :=
  ["node_modules"; "package-lock.json"; ".git"; ".gitignore";
   "__pycache__"; "*.pyc"; ".DS_Store"].

Definition should_copy (p : path) : bool :=
  if existsb (fun part => bool_decide (part ∈ exclude_patterns)) p then false
  else if existsb (fun pattern => has_star pattern && endswith (name p) (remove_star pattern))
                  exclude_patterns then false
  else true.


(** ** Exceptions *)

(** The [except] clauses of the source tell apart [json.JSONDecodeError] and
    [FileNotFoundError]; everything else is caught as [Exception].  All that
    the code ever observes of an exception is its class and [str(e)]. *)
Inductive exn_class :=
| JSONDecodeError | FileNotFoundError | FileExistsError | NotADirectoryError
| IsADirectoryError | SameFileError | TypeError | AttributeError | IntegrityError
| OtherError.

Record exn := Exn { class_of : exn_class; str_exn : string }.

Definition is_json_decode_error (e : exn) : bool :=
  match class_of e with JSONDecodeError => true | _ => false end.
Definition is_file_not_found (e : exn) : bool :=
  match class_of e with FileNotFoundError => true | _ => false end.

(** ** JSON values, as [json.load] returns them *)

Inductive json :=
| JNull
| JBool (b : bool)
| JNumber (repr : string)
| JStr (s : string)
| JArr (l : list json)
| JObj (members : list (string * json)).

(** [field in data]: key membership for a dict, element membership for a
    list, substring for a string, [TypeError] otherwise. *)
Definition json_in (field : string) (data : json) : exn + bool :=
  match data with
  | JObj members => inr (existsb (fun kv => String.eqb (fst kv) field) members)
  | JArr l =>
      inr (existsb (fun x => match x with JStr s => String.eqb s field | _ => false end) l)
  | JStr s => inr (match index 0 field s with Some _ => true | None => false end)
  | _ => inl (Exn TypeError "argument is not iterable")
  end.

(** ** The filesystem *)

Inductive node := File (content : string) | Dir.

Inductive fs_call :=
| Rglob (d : path)
| IsFile (p : path)
| IsDir (p : path)
| Exists (p : path)
| Mkdir (p : path)
| Unlink (p : path)
| Copy2 (src dst : path)
| Open (p : path)
| Stat (p : path).

(** The empty path is the current directory, which always exists. *)
Definition node_at (f : gmap path node) (p : path) : option node :=
  match p with [] => Some Dir | _ => f !! p end.

Definition is_file_at (f : gmap path node) (p : path) : bool :=
  match node_at f p with Some (File _) => true | _ => false end.
Definition is_dir_at (f : gmap path node) (p : path) : bool :=
  match node_at f p with Some Dir => true | _ => false end.
Definition exists_at (f : gmap path node) (p : path) : bool :=
  match node_at f p with Some _ => true | None => false end.

(** The non-empty prefixes of a path, shortest first, the path itself last. *)
Definition prefixes (p : path) : list path :=
  List.map (fun n => take n p) (seq 1 (length p)).

(** [p.mkdir(parents=True, exist_ok=True)]: fails when [p] or one of its
    ancestors is a regular file, otherwise creates the missing directories. *)
Definition mkdir_parents (p : path) (f : gmap path node) : (exn + unit) * gmap path node :=
  if is_file_at f p then (inl (Exn FileExistsError "File exists"), f)
  else if existsb (is_file_at f) (prefixes p)
  then (inl (Exn NotADirectoryError "Not a directory"), f)
  else (inr tt,
        fold_left (fun g q => match g !! q with None => <[q := Dir]> g | Some _ => g end)
                  (prefixes p) f).

(** [shutil.copy2(src, dst)]: a directory as destination stands for the
    entry of the source's name inside it; copying a file onto itself is
    refused; the destination's directory must exist. *)
Definition copy2_target (f : gmap path node) (src dst : path) : path :=
  if is_dir_at f dst then (dst ++ [name src])%list else dst.

Definition copy2 (src dst : path) (f : gmap path node) : (exn + unit) * gmap path node :=
  let dst' := copy2_target f src dst in
  match node_at f src with
  | Some (File c) =>
      if bool_decide (src = dst') then (inl (Exn SameFileError "are the same file"), f)
      else if is_dir_at f dst' then (inl (Exn IsADirectoryError "Is a directory"), f)
      else if is_dir_at f (parent dst') then (inr tt, <[dst' := File c]> f)
      else (inl (Exn FileNotFoundError "No such file or directory"), f)
  | Some Dir => (inl (Exn IsADirectoryError "Is a directory"), f)
  | None => (inl (Exn FileNotFoundError "No such file or directory"), f)
  end.

(** [p.unlink()] *)
Definition unlink (p : path) (f : gmap path node) : (exn + unit) * gmap path node :=
  match node_at f p with
  | Some (File _) => (inr tt, delete p f)
  | Some Dir => (inl (Exn IsADirectoryError "Is a directory"), f)
  | None => (inl (Exn FileNotFoundError "No such file or directory"), f)
  end.

(** [open(p, 'r')] followed by reading the whole file. *)
Definition read_file (p : path) (f : gmap path node) : (exn + string) * gmap path node :=
  match node_at f p with
  | Some (File c) => (inr c, f)
  | Some Dir => (inl (Exn IsADirectoryError "Is a directory"), f)
  | None => (inl (Exn FileNotFoundError "No such file or directory"), f)
  end.

(** [d.rglob('*')]: every entry below [d], files and directories alike.
    The listing is taken at once.  [Path.rglob] is a lazy generator: it
    yields these entries as long as no entry is created or removed below [d]
    while it is consumed, that is as long as the copy does not write into
    the source tree; the statements about what is copied carry that
    condition. *)
Definition rglob (d : path) (f : gmap path node) : list path :=
  List.filter (below d) (List.map fst (map_to_list f)).

(** ** The database *)

(** A row of table [plugin]: the columns of the INSERT statement. *)
Record plugin_row := {
  p_id : string; p_name : string; p_description : string; p_version : string;
  p_type : string; p_enabled : bool; p_icon : string; p_category : string;
  p_status : string; p_official : bool; p_author : string; p_last_updated : string;
  p_compatibility : string; p_downloads : nat; p_scope : string;
  p_bundle_method : string; p_bundle_location : string; p_is_local : bool;
  p_long_description : string; p_config_fields : string; p_messages : option string;
  p_dependencies : option string; p_created_at : string; p_updated_at : string;
  p_user_id : string; p_plugin_slug : string; p_source_type : string;
  p_source_url : string; p_update_check_url : string;
  p_last_update_check : option string; p_update_available : bool;
  p_latest_version : option string; p_installation_type : string;
  p_permissions : string }.

(** A row of table [module]. *)
Record module_row := {
  m_id : string; m_plugin_id : string; m_name : string; m_display_name : string;
  m_description : string; m_icon : string; m_category : string; m_enabled : bool;
  m_priority : nat; m_props : string; m_config_fields : string; m_messages : string;
  m_required_services : string; m_dependencies : string; m_layout : string;
  m_tags : string; m_created_at : string; m_updated_at : string; m_user_id : string }.

Record tables := Tables { plugin : list plugin_row; module : list module_row }.

Definition empty_tables : tables := Tables [] [].

Inductive db_call :=
| SelectPlugin (user_id plugin_slug : string)
| InsertPlugin (row : plugin_row)
| InsertModule (row : module_row)
| DeleteModule (plugin_id user_id : string)
| DeletePlugin (plugin_id user_id : string)
| Commit
| Rollback.

(** [WHERE user_id = :user_id AND plugin_slug = :plugin_slug] *)
Definition plugin_matches (user_id plugin_slug : string) (r : plugin_row) : bool :=
  String.eqb (p_user_id r) user_id && String.eqb (p_plugin_slug r) plugin_slug.

(** [WHERE plugin_id = :plugin_id AND user_id = :user_id] on [module] *)
Definition module_matches (plugin_id user_id : string) (r : module_row) : bool :=
  String.eqb (m_plugin_id r) plugin_id && String.eqb (m_user_id r) user_id.

(** [WHERE id = :plugin_id AND user_id = :user_id] on [plugin] *)
Definition plugin_id_matches (plugin_id user_id : string) (r : plugin_row) : bool :=
  String.eqb (p_id r) plugin_id && String.eqb (p_user_id r) user_id.

(** [result.fetchone()] of the SELECT *)
Definition select_plugin (user_id plugin_slug : string) (t : tables)
  : (exn + option plugin_row) * tables :=
  (inr (head (List.filter (plugin_matches user_id plugin_slug) (plugin t))), t).

(** Modelled from the spec: the schema of table [plugin] is owned by the host
    and is not part of the source; the data model gives a plugin record the
    identity [{user_id, plugin_slug}], unique.  An INSERT that would break it
    is refused by the database. *)
Definition insert_plugin (r : plugin_row) (t : tables) : (exn + unit) * tables :=
  if existsb (plugin_matches (p_user_id r) (p_plugin_slug r)) (plugin t)
  then (inl (Exn IntegrityError "UNIQUE constraint failed"), t)
  else (inr tt, Tables (plugin t ++ [r])%list (module t)).

Definition insert_module (r : module_row) (t : tables) : (exn + unit) * tables :=
  (inr tt, Tables (plugin t) (module t ++ [r])%list).

(** The DELETE statements; the value returned is [rowcount]. *)
Definition delete_module (plugin_id user_id : string) (t : tables) : (exn + nat) * tables :=
  (inr (length (List.filter (module_matches plugin_id user_id) (module t))),
   Tables (plugin t)
          (List.filter (fun r => negb (module_matches plugin_id user_id r)) (module t))).

Definition delete_plugin_rows (plugin_id user_id : string) (t : tables) : (exn + nat) * tables :=
  (inr (length (List.filter (plugin_id_matches plugin_id user_id) (plugin t))),
   Tables (List.filter (fun r => negb (plugin_id_matches plugin_id user_id r)) (plugin t))
          (module t)).

(** ** The world: filesystem, database session, failure oracles, trace *)

Inductive event := FsEv (c : fs_call) | DbEv (c : db_call).

(** [pending] is what the session sees (the committed rows and the changes of
    the open transaction), [committed] what is durable.  [fs_raises] and
    [db_raises] tell which external calls fail, and with which exception. *)
Record World := mkWorld {
  files : gmap path node;
  committed : tables;
  pending : tables;
  fs_raises : fs_call -> option exn;
  db_raises : db_call -> option exn;
  clock : string;
  trace : list event }.

Definition set_files (f : gmap path node) (w : World) : World :=
  mkWorld f (committed w) (pending w) (fs_raises w) (db_raises w) (clock w) (trace w).
Definition set_pending (t : tables) (w : World) : World :=
  mkWorld (files w) (committed w) t (fs_raises w) (db_raises w) (clock w) (trace w).
Definition set_committed (t : tables) (w : World) : World :=
  mkWorld (files w) t (pending w) (fs_raises w) (db_raises w) (clock w) (trace w).
Definition log (e : event) (w : World) : World :=
  mkWorld (files w) (committed w) (pending w) (fs_raises w) (db_raises w) (clock w)
          (trace w ++ [e])%list.
(** The environment between two operations: other failures, another time. *)
Definition with_env (fr : fs_call -> option exn) (dr : db_call -> option exn)
    (now : string) (w : World) : World :=
  mkWorld (files w) (committed w) (pending w) fr dr now (trace w).

(** ** The monad of the code: state and exceptions *)

Definition M (A : Type) : Type := World -> (exn + A) * World.

Definition ret {A} (a : A) : M A := fun w => (inr a, w).
Definition raise {A} (e : exn) : M A := fun w => (inl e, w).
Definition bind {A B} (m : M A) (k : A -> M B) : M B := fun w =>
  match m w with
  | (inr a, w') => k a w'
  | (inl e, w') => (inl e, w')
  end.
(** [try: body except Exception as e: handler] *)
Definition try_except {A} (body : M A) (handler : exn -> M A) : M A := fun w =>
  match body w with
  | (inl e, w') => handler e w'
  | r => r
  end.
(** [try: body except (C1, C2) as e: handler] *)
Definition try_except_only {A} (catches : exn -> bool) (body : M A) (handler : exn -> M A)
  : M A :=
  try_except body (fun e => if catches e then handler e else raise e).

#[global] Instance M_ret : MRet M := @ret.
#[global] Instance M_bind : MBind M := fun A B k m => bind m k.

(** [let! x := m in k] runs [m], binds its value and goes on with [k];
    [m ;; k] drops the value. *)
Notation "'let!' x := m 'in' k" := (bind m (fun x => k))
  (at level 10, x name, m at level 100, k at level 200).

(** An external call: recorded, then failed by the oracle or carried out. *)
Definition fs_prim {A} (c : fs_call)
    (sem : gmap path node -> (exn + A) * gmap path node) : M A := fun w =>
  let w1 := log (FsEv c) w in
  match fs_raises w c with
  | Some e => (inl e, w1)
  | None => let '(r, f) := sem (files w) in (r, set_files f w1)
  end.

Definition db_prim {A} (c : db_call) (sem : tables -> (exn + A) * tables) : M A := fun w =>
  let w1 := log (DbEv c) w in
  match db_raises w c with
  | Some e => (inl e, w1)
  | None => let '(r, t) := sem (pending w) in (r, set_pending t w1)
  end.

Definition path_rglob (d : path) : M (list path) :=
  fs_prim (Rglob d) (fun f => (inr (rglob d f), f)).
Definition path_is_file (p : path) : M bool :=
  fs_prim (IsFile p) (fun f => (inr (is_file_at f p), f)).
Definition path_is_dir (p : path) : M bool :=
  fs_prim (IsDir p) (fun f => (inr (is_dir_at f p), f)).
Definition path_exists (p : path) : M bool :=
  fs_prim (Exists p) (fun f => (inr (exists_at f p), f)).
Definition path_mkdir (p : path) : M unit := fs_prim (Mkdir p) (mkdir_parents p).
Definition path_unlink (p : path) : M unit := fs_prim (Unlink p) (unlink p).
Definition shutil_copy2 (src dst : path) : M unit := fs_prim (Copy2 src dst) (copy2 src dst).
Definition open_read (p : path) : M string := fs_prim (Open p) (read_file p).

Definition db_select_plugin (user_id plugin_slug : string) : M (option plugin_row) :=
  db_prim (SelectPlugin user_id plugin_slug) (select_plugin user_id plugin_slug).
Definition db_insert_plugin (r : plugin_row) : M unit :=
  db_prim (InsertPlugin r) (insert_plugin r).
Definition db_insert_module (r : module_row) : M unit :=
  db_prim (InsertModule r) (insert_module r).
Definition db_delete_module (plugin_id user_id : string) : M nat :=
  db_prim (DeleteModule plugin_id user_id) (delete_module plugin_id user_id).
Definition db_delete_plugin (plugin_id user_id : string) : M nat :=
  db_prim (DeletePlugin plugin_id user_id) (delete_plugin_rows plugin_id user_id).
(** [db.commit()] makes the pending rows durable; [db.rollback()] drops the
    changes of the open transaction.  A call that raises changes nothing. *)
Definition db_commit : M unit := fun w =>
  let w1 := log (DbEv Commit) w in
  match db_raises w Commit with
  | Some e => (inl e, w1)
  | None => (inr tt, set_committed (pending w) w1)
  end.
Definition db_rollback : M unit := fun w =>
  let w1 := log (DbEv Rollback) w in
  match db_raises w Rollback with
  | Some e => (inl e, w1)
  | None => (inr tt, set_pending (committed w) w1)
  end.

(** ** [pathlib] on POSIX *)

(** The parts of [Path(s)]: the string is cut at the slashes, empty and [.]
    components vanish, and a leading slash becomes the root component. *)
Fixpoint split_slash (cs : list ascii) (cur : list ascii) : list string :=
  match cs with
  | [] => [string_of_list_ascii (rev cur)]
  | c :: cs' =>
      if Ascii.eqb c "/"%char
      then string_of_list_ascii (rev cur) :: split_slash cs' []
      else split_slash cs' (c :: cur)
  end.

Definition is_absolute (s : string) : bool :=
  match s with String c _ => Ascii.eqb c "/"%char | EmptyString => false end.

(** The root of a POSIX path: one leading slash, or any number of them but
    two, is the root [/]; exactly two leading slashes are kept as [//]. *)
Definition root_of (s : string) : option string :=
  match s with
  | String c1 s1 =>
      if Ascii.eqb c1 "/"%char then
        match s1 with
        | String c2 s2 =>
            if Ascii.eqb c2 "/"%char then
              match s2 with
              | String c3 _ => if Ascii.eqb c3 "/"%char then Some "/" else Some "//"
              | EmptyString => Some "//"
              end
            else Some "/"
        | EmptyString => Some "/"
        end
      else None
  | EmptyString => None
  end.

Definition Path (s : string) : path :=
  let comps :=
    List.filter (fun x => negb (String.eqb x "") && negb (String.eqb x "."))
                (split_slash (list_ascii_of_string s) []) in
  match root_of s with Some root => root :: comps | None => comps end.

(** [p / s] *)
Definition path_div (p : path) (s : string) : path :=
  if is_absolute s then Path s else (p ++ Path s)%list.

Infix "</>" := path_div (at level 40, left associativity).


(** ** What the host provides *)

(** [file_dir] is [Path(__file__).parent], the directory the plugin is
    loaded from; [json_load] and [json_dumps] are the [json] module;
    [dir_size] is the [st_size] the filesystem reports for a directory. *)
Class Host := {
  file_dir : path;
  json_load : string -> exn + json;
  json_dumps : json -> string;
  dir_size : nat }.

(** [p.stat().st_size] *)
Definition stat_size `{Host} (p : path) (f : gmap path node)
  : (exn + nat) * gmap path node :=
  match node_at f p with
  | Some (File c) => (inr (String.length c), f)
  | Some Dir => (inr dir_size, f)
  | None => (inl (Exn FileNotFoundError "No such file or directory"), f)
  end.
Definition path_stat_size `{Host} (p : path) : M nat := fs_prim (Stat p) (stat_size p).

(** [datetime.now()] in the base class, where [datetime] is the class. *)
Definition now : M string := fun w => (inr (clock w), w).

(** [datetime.datetime.now()] in [_create_database_records] (line 391).  The
    only [BaseLifecycleManager] of the source is its minimal implementation,
    and the branch that defines it runs [from datetime import datetime]
    (line 40): from then on the global [datetime] of the module is the class,
    which has no attribute [datetime], so the expression raises before the
    clock is read. *)
Definition attribute_error : exn :=
  Exn AttributeError "type object 'datetime.datetime' has no attribute 'datetime'".
Definition datetime_datetime_now : M string := raise attribute_error.

(** [for x in l: s = body x s] *)
Fixpoint for_each {A S : Type} (l : list A) (body : A -> S -> M S) (s : S) : M S :=
  match l with
  | [] => mret s
  | x :: l' => let! s' := body x s in for_each l' body s'
  end.

(** ** The static metadata *)

Record PluginData := {
  pd_name : string; pd_description : string; pd_version : string; pd_type : string;
  pd_icon : string; pd_category : string; pd_official : bool; pd_author : string;
  pd_compatibility : string; pd_scope : string; pd_bundle_method : string;
  pd_bundle_location : string; pd_is_local : bool; pd_long_description : string;
  pd_plugin_slug : string; pd_source_type : string; pd_source_url : string;
  pd_update_check_url : string; pd_last_update_check : option string;
  pd_update_available : bool; pd_latest_version : option string;
  pd_installation_type : string; pd_permissions : list string }.

Definition plugin_data : PluginData := {|
  pd_name := "CollectionViewer";
  pd_description := "View and browse your document collections";
  pd_version := "1.0.0";
  pd_type := "frontend";
  pd_icon := "folder_open";
  pd_category := "Data Management";
  pd_official := false;
  pd_author := "BrainDrive Team";
  pd_compatibility := "1.0.0";
  pd_scope := "CollectionViewer";
  pd_bundle_method := "webpack";
  pd_bundle_location := "dist/remoteEntry.js";
  pd_is_local := false;
  pd_long_description := "A simple, functional React component plugin that fetches and displays collections from your BrainDrive instance. Built with modern React hooks and TypeScript.";
  pd_plugin_slug := "CollectionViewer";
  pd_source_type := "local";
  pd_source_url := "";
  pd_update_check_url := "";
  pd_last_update_check := None;
  pd_update_available := false;
  pd_latest_version := None;
  pd_installation_type := "remote";
  pd_permissions := ["api.access"] |}.

Record ModuleData := {
  md_name : string; md_display_name : string; md_description : string;
  md_icon : string; md_category : string; md_priority : nat; md_props : json;
  md_config_fields : json; md_messages : json; md_required_services : json;
  md_dependencies : json; md_layout : json; md_tags : json }.

Definition module_data : list ModuleData := [
  {| md_name := "CollectionViewer";
     md_display_name := "Collection Viewer";
     md_description := "View all your document collections with details";
     md_icon := "folder_open";
     md_category := "Data Management";
     md_priority := 1;
     md_props := JObj [];
     md_config_fields := JObj [];
     md_messages := JObj [];
     md_required_services := JObj [];
     md_dependencies := JArr [];
     md_layout := JObj [("minWidth", JNumber "4"); ("minHeight", JNumber "4");
                        ("defaultWidth", JNumber "8"); ("defaultHeight", JNumber "6")];
     md_tags := JArr [JStr "collections"; JStr "viewer"; JStr "documents"; JStr "data"] |} ].

(** ** The manager object *)

(** The fields the base class sets up.  [plugin_data] and [module_data] are
    never assigned after construction and stay the constants above. *)
Record Manager := mkManager {
  plugin_slug : string;
  version : string;
  shared_path : path;
  active_users : gset string;
  instance_id : string;
  created_at : string;
  last_used : string }.

(** What an operation returns: the dictionaries with a [success] key. *)
Inductive result :=
| Failure (error : string)
| CopyOk (copied_files : list string)
| CreateOk (plugin_id : string) (modules_created : list string)
| InstallOk (plugin_id plugin_slug plugin_name : string) (modules_created : list string)
| DeleteOk (deleted_modules : nat)
| UninstallOk (plugin_id : string) (deleted_modules : nat).

Definition success (r : result) : bool :=
  match r with Failure _ => false | _ => true end.

(** The dictionary of [_check_existing_plugin]. *)
Record check_result := {
  exists_ : bool;
  found_plugin_id : option string;
  plugin_info : option (string * string * string * bool);
  check_error : option string }.

(** The dictionary of [_validate_installation_impl]. *)
Record validation := { valid : bool; validation_error : option string }.

(** The dictionary of [_get_plugin_health_impl]. *)
Record health_info := {
  bundle_exists : bool; bundle_size : nat; package_json_valid : bool }.
Inductive health_details := HealthInfo (i : health_info) | HealthError (error : string).
Record health := { healthy : bool; details : health_details }.

(** ** The lifecycle manager *)

Section LifecycleManager.
Context `{Host}.

(** [CollectionViewerLifecycleManager.__init__], with the constructor of the
    base class it ends in. *)
Definition __init__ (plugins_base_dir : option string) (w : World) : Manager :=
  let shared_path :=
    match plugins_base_dir with
    | Some d =>
        if negb (String.eqb d "")
        then Path d </> "shared" </> pd_plugin_slug plugin_data
                    </> ("v" +:+ pd_version plugin_data)
        else file_dir
    | None => file_dir
    end in
  {| plugin_slug := pd_plugin_slug plugin_data;
     version := pd_version plugin_data;
     shared_path := shared_path;
     active_users := ∅;
     instance_id := pd_plugin_slug plugin_data +:+ "_" +:+ pd_version plugin_data;
     created_at := clock w;
     last_used := clock w |}.

(** The suite of the [try] statement of [_check_existing_plugin]. *)
Definition _check_existing_plugin_try (user_id : string) : M check_result :=
  let! plugin_row := db_select_plugin user_id (pd_plugin_slug plugin_data) in
  match plugin_row with
  | Some r =>
      mret {| exists_ := true;
              found_plugin_id := Some (p_id r);
              plugin_info := Some (p_id r, p_name r, p_version r, p_enabled r);
              check_error := None |}
  | None =>
      mret {| exists_ := false; found_plugin_id := None; plugin_info := None;
              check_error := None |}
  end.

Definition _check_existing_plugin (user_id : string) : M check_result :=
  try_except (_check_existing_plugin_try user_id)
    (fun e =>
       mret {| exists_ := false; found_plugin_id := None; plugin_info := None;
               check_error := Some (str_exn e) |}).

Definition new_plugin_row (plugin_id user_id current_time : string) : plugin_row := {|
  p_id := plugin_id;
  p_name := pd_name plugin_data;
  p_description := pd_description plugin_data;
  p_version := pd_version plugin_data;
  p_type := pd_type plugin_data;
  p_enabled := true;
  p_icon := pd_icon plugin_data;
  p_category := pd_category plugin_data;
  p_status := "activated";
  p_official := pd_official plugin_data;
  p_author := pd_author plugin_data;
  p_last_updated := current_time;
  p_compatibility := pd_compatibility plugin_data;
  p_downloads := 0;
  p_scope := pd_scope plugin_data;
  p_bundle_method := pd_bundle_method plugin_data;
  p_bundle_location := pd_bundle_location plugin_data;
  p_is_local := pd_is_local plugin_data;
  p_long_description := pd_long_description plugin_data;
  p_config_fields := json_dumps (JObj []);
  p_messages := None;
  p_dependencies := None;
  p_created_at := current_time;
  p_updated_at := current_time;
  p_user_id := user_id;
  p_plugin_slug := pd_plugin_slug plugin_data;
  p_source_type := pd_source_type plugin_data;
  p_source_url := pd_source_url plugin_data;
  p_update_check_url := pd_update_check_url plugin_data;
  p_last_update_check := pd_last_update_check plugin_data;
  p_update_available := pd_update_available plugin_data;
  p_latest_version := pd_latest_version plugin_data;
  p_installation_type := pd_installation_type plugin_data;
  p_permissions := json_dumps (JArr (List.map JStr (pd_permissions plugin_data))) |}.

Definition new_module_row (module_id plugin_id user_id current_time : string)
    (md : ModuleData) : module_row := {|
  m_id := module_id;
  m_plugin_id := plugin_id;
  m_name := md_name md;
  m_display_name := md_display_name md;
  m_description := md_description md;
  m_icon := md_icon md;
  m_category := md_category md;
  m_enabled := true;
  m_priority := md_priority md;
  m_props := json_dumps (md_props md);
  m_config_fields := json_dumps (md_config_fields md);
  m_messages := json_dumps (md_messages md);
  m_required_services := json_dumps (md_required_services md);
  m_dependencies := json_dumps (md_dependencies md);
  m_layout := json_dumps (md_layout md);
  m_tags := json_dumps (md_tags md);
  m_created_at := current_time;
  m_updated_at := current_time;
  m_user_id := user_id |}.

(** The suite of the [try] statement of [_create_database_records]. *)
Definition _create_database_records_try (user_id : string) : M result :=
  let! current_time := datetime_datetime_now in
  let plugin_slug := pd_plugin_slug plugin_data in
  let plugin_id := user_id +:+ "_" +:+ plugin_slug in
  db_insert_plugin (new_plugin_row plugin_id user_id current_time);;
  let! modules_created :=
    for_each module_data
      (fun md modules_created =>
         let module_id := user_id +:+ "_" +:+ plugin_slug +:+ "_" +:+ md_name md in
         db_insert_module (new_module_row module_id plugin_id user_id current_time md);;
         mret (modules_created ++ [module_id])%list)
      [] in
  db_commit;;
  mret (CreateOk plugin_id modules_created).

Definition _create_database_records (user_id : string) : M result :=
  try_except (_create_database_records_try user_id)
    (fun e => db_rollback;; mret (Failure (str_exn e))).

(** The suite of the [try] statement of [_delete_database_records]. *)
Definition _delete_database_records_try (user_id plugin_id : string) : M result :=
  let! deleted_modules := db_delete_module plugin_id user_id in
  let! plugin_rowcount := db_delete_plugin plugin_id user_id in
  if (plugin_rowcount =? 0)%nat
  then db_rollback;; mret (Failure "Plugin not found")
  else db_commit;; mret (DeleteOk deleted_modules).

Definition _delete_database_records (user_id plugin_id : string) : M result :=
  try_except (_delete_database_records_try user_id plugin_id)
    (fun e => db_rollback;; mret (Failure (str_exn e))).

(** The suite of the [try] statement of [_perform_user_installation]. *)
Definition _perform_user_installation_try (user_id : string) (shared_plugin_path : path)
  : M result :=
  let! db_result := _create_database_records user_id in
  match db_result with
  | CreateOk plugin_id modules_created =>
      mret (InstallOk plugin_id (pd_plugin_slug plugin_data) (pd_name plugin_data)
                      modules_created)
  | _ => mret db_result
  end.

Definition _perform_user_installation (user_id : string) (shared_plugin_path : path)
  : M result :=
  try_except (_perform_user_installation_try user_id shared_plugin_path)
    (fun e => mret (Failure (str_exn e))).

(** The suite of the [try] statement of [_perform_user_uninstallation]. *)
Definition _perform_user_uninstallation_try (user_id : string) : M result :=
  let! existing_check := _check_existing_plugin user_id in
  match exists_ existing_check, found_plugin_id existing_check with
  | true, Some plugin_id =>
      let! delete_result := _delete_database_records user_id plugin_id in
      match delete_result with
      | DeleteOk deleted_modules => mret (UninstallOk plugin_id deleted_modules)
      | _ => mret delete_result
      end
  | _, _ => mret (Failure "Plugin not found for user")
  end.

Definition _perform_user_uninstallation (user_id : string) : M result :=
  try_except (_perform_user_uninstallation_try user_id)
    (fun e => mret (Failure (str_exn e))).

(** The base class [BaseLifecycleManager] (the minimal implementation of the
    source): the entry points that keep the set of active users.  The manager
    is changed only by the last statements, after which nothing can raise. *)
Definition install_for_user (self : Manager) (user_id : string) (shared_plugin_path : path)
  : M (result * Manager) :=
  if bool_decide (user_id ∈ active_users self)
  then mret (Failure "Plugin already installed for user", self)
  else
    let! result := _perform_user_installation user_id shared_plugin_path in
    if success result
    then let! t := now in
         mret (result,
               mkManager (plugin_slug self) (version self) (shared_path self)
                         (active_users self ∪ {[user_id]}) (instance_id self)
                         (created_at self) t)
    else mret (result, self).

Definition uninstall_for_user (self : Manager) (user_id : string) : M (result * Manager) :=
  if negb (bool_decide (user_id ∈ active_users self))
  then mret (Failure "Plugin not installed for user", self)
  else
    let! result := _perform_user_uninstallation user_id in
    if success result
    then let! t := now in
         mret (result,
               mkManager (plugin_slug self) (version self) (shared_path self)
                         (active_users self ∖ {[user_id]}) (instance_id self)
                         (created_at self) t)
    else mret (result, self).

(** The body of the loop of [_copy_plugin_files_impl]. *)
Definition copy_item (source_dir target_dir : path) (update : bool)
    (item : path) (copied_files : list string) : M (list string) :=
  if String.eqb (name item) "lifecycle_manager.py"
     && bool_decide (item = file_dir </> "lifecycle_manager.py")
  then mret copied_files
  else
    let relative_path := relative_to source_dir item in
    if negb (should_copy relative_path) then mret copied_files
    else
      let target_path := (target_dir ++ relative_path)%list in
      try_except
        (let! is_file := path_is_file item in
         if is_file then
           path_mkdir (parent target_path);;
           (if update
            then let! target_exists := path_exists target_path in
                 if target_exists then path_unlink target_path else mret tt
            else mret tt);;
           shutil_copy2 item target_path;;
           mret (copied_files ++ [str_path relative_path])%list
         else
           let! is_dir := path_is_dir item in
           if is_dir then path_mkdir target_path;; mret copied_files
           else mret copied_files)
        (fun e => mret copied_files).

(** The suite of the [try] statement of [_copy_plugin_files_impl]. *)
Definition _copy_plugin_files_impl_try (user_id : string) (target_dir : path) (update : bool)
  : M result :=
  let source_dir := file_dir in
  let! items := path_rglob source_dir in
  let! copied_files := for_each items (copy_item source_dir target_dir update) [] in
  let lifecycle_manager_source := source_dir </> "lifecycle_manager.py" in
  let lifecycle_manager_target := target_dir </> "lifecycle_manager.py" in
  let! source_exists := path_exists lifecycle_manager_source in
  if source_exists then
    path_mkdir (parent lifecycle_manager_target);;
    (if update
     then let! target_exists := path_exists lifecycle_manager_target in
          if target_exists then path_unlink lifecycle_manager_target else mret tt
     else mret tt);;
    shutil_copy2 lifecycle_manager_source lifecycle_manager_target;;
    mret (CopyOk (copied_files ++ ["lifecycle_manager.py"])%list)
  else mret (CopyOk copied_files).

Definition _copy_plugin_files_impl (user_id : string) (target_dir : path) (update : bool)
  : M result :=
  try_except (_copy_plugin_files_impl_try user_id target_dir update)
    (fun e => mret (Failure (str_exn e))).

Definition required_files : list string := ["package.json"; "dist/remoteEntry.js"].
Definition required_fields : list string := ["name"; "version"].

(** The loop over [required_fields]: the first missing field ends it. *)
Fixpoint check_required_fields (fields : list string) (package_data : json)
  : M (option validation) :=
  match fields with
  | [] => mret None
  | field :: rest =>
      match json_in field package_data with
      | inl e => raise e
      | inr true => check_required_fields rest package_data
      | inr false =>
          mret (Some {| valid := false;
                        validation_error :=
                          Some ("package.json missing required field: " +:+ field) |})
      end
  end.

(** The suite of the [try] statement of [_validate_installation_impl]. *)
Definition _validate_installation_impl_try (user_id : string) (plugin_dir : path)
  : M validation :=
  let! missing_files :=
    for_each required_files
      (fun file_path missing_files =>
         let! file_exists := path_exists (plugin_dir </> file_path) in
         if negb file_exists then mret (missing_files ++ [file_path])%list
         else mret missing_files)
      [] in
  match missing_files with
  | _ :: _ =>
      mret {| valid := false;
              validation_error :=
                Some ("Missing required files: " +:+ join_comma missing_files) |}
  | [] =>
      let package_json_path := plugin_dir </> "package.json" in
      let! early :=
        try_except_only (fun e => is_json_decode_error e || is_file_not_found e)
          (let! content := open_read package_json_path in
           match json_load content with
           | inl e => raise e
           | inr package_data => check_required_fields required_fields package_data
           end)
          (fun e =>
             mret (Some {| valid := false;
                           validation_error :=
                             Some ("Invalid package.json: " +:+ str_exn e) |})) in
      match early with
      | Some v => mret v
      | None =>
          let bundle_path := plugin_dir </> "dist" </> "remoteEntry.js" in
          let! size := path_stat_size bundle_path in
          if (size =? 0)%nat
          then mret {| valid := false; validation_error := Some "Bundle file is empty" |}
          else mret {| valid := true; validation_error := None |}
      end
  end.

Definition _validate_installation_impl (user_id : string) (plugin_dir : path)
  : M validation :=
  try_except (_validate_installation_impl_try user_id plugin_dir)
    (fun e => mret {| valid := false; validation_error := Some (str_exn e) |}).

(** The suite of the [try] statement of [_get_plugin_health_impl]. *)
Definition _get_plugin_health_impl_try (user_id : string) (plugin_dir : path) : M health :=
  let bundle_path := plugin_dir </> "dist" </> "remoteEntry.js" in
  let! be := path_exists bundle_path in
  let! bundle := (if be then let! size := path_stat_size bundle_path in mret (true, size)
            else mret (false, 0)) in
  let package_json_path := plugin_dir </> "package.json" in
  let! pe := path_exists package_json_path in
  let! pv := (if pe
        then try_except_only is_json_decode_error
               (let! content := open_read package_json_path in
                match json_load content with
                | inl e => raise e
                | inr _ => mret true
                end)
               (fun e => mret false)
        else mret false) in
  let info := {| bundle_exists := fst bundle; bundle_size := snd bundle;
                 package_json_valid := pv |} in
  let is_healthy := fst bundle && (0 <? snd bundle)%nat && pv in
  mret {| healthy := is_healthy; details := HealthInfo info |}.

Definition _get_plugin_health_impl (user_id : string) (plugin_dir : path) : M health :=
  try_except (_get_plugin_health_impl_try user_id plugin_dir)
    (fun e => mret {| healthy := false; details := HealthError (str_exn e) |}).

(** The compatibility methods. *)
(** The suite of the [try] statement of [install_plugin]. *)
Definition install_plugin_try (self : Manager) (user_id : string) : M (result * Manager) :=
  let! existing_check := _check_existing_plugin user_id in
  if exists_ existing_check
  then mret (Failure "Plugin already installed", self)
  else
    let shared_path := shared_path self in
    path_mkdir shared_path;;
    let! copy_result := _copy_plugin_files_impl user_id shared_path false in
    if negb (success copy_result) then mret (copy_result, self)
    else install_for_user self user_id shared_path.

Definition install_plugin (self : Manager) (user_id : string) : M (result * Manager) :=
  try_except (install_plugin_try self user_id)
    (fun e => mret (Failure (str_exn e), self)).

Definition delete_plugin (self : Manager) (user_id : string) : M (result * Manager) :=
  uninstall_for_user self user_id.

(** The standalone functions of the module. *)
Definition install_plugin_standalone (user_id : string) (plugins_base_dir : option string)
  : M (result * Manager) :=
  fun w => install_plugin (__init__ plugins_base_dir w) user_id w.

Definition delete_plugin_standalone (user_id : string) (plugins_base_dir : option string)
  : M (result * Manager) :=
  fun w => delete_plugin (__init__ plugins_base_dir w) user_id w.

End LifecycleManager.

(** ** Vocabulary of the properties *)

(** An operation that never lets an exception escape. *)
Definition returns {A} (m : M A) : Prop :=
  forall w, exists a w', m w = (inr a, w').

(** Every external call an operation makes, that is every event it adds to
    the trace, satisfies [P]. *)
Definition emits {A} (P : event -> Prop) (m : M A) : Prop :=
  forall w, exists evs, trace (snd (m w)) = (trace w ++ evs)%list /\ Forall P evs.

(** An operation relates the world it starts in to the one it ends in. *)
Definition preserves {A} (R : World -> World -> Prop) (m : M A) : Prop :=
  forall w, R w (snd (m w)).

(** The failure oracles and the clock belong to the environment: no
    operation changes them. *)
Definition same_env (w w' : World) : Prop :=
  db_raises w' = db_raises w /\ fs_raises w' = fs_raises w /\ clock w' = clock w.

(** The events an operation added to the trace. *)
Definition new_events (w w' : World) : list event := drop (length (trace w)) (trace w').

Definition is_copy2 (ev : event) : bool :=
  match ev with FsEv (Copy2 _ _) => true | _ => false end.
Definition is_db_write (ev : event) : bool :=
  match ev with
  | DbEv (InsertPlugin _) | DbEv (InsertModule _) | DbEv (DeleteModule _ _)
  | DbEv (DeletePlugin _ _) | DbEv Commit => true
  | _ => false
  end.

(** A file copy reads an entry below [source_dir] and writes it to the same
    relative path below [target_dir]. *)
Definition copies_from_to (source_dir target_dir : path) (ev : event) : Prop :=
  forall src dst, ev = FsEv (Copy2 src dst) ->
    below source_dir src = true /\ dst = (target_dir ++ relative_to source_dir src)%list.

(** The answers of the duplicate check. *)
Definition check_not_found (error : option string) : check_result :=
  {| exists_ := false; found_plugin_id := None; plugin_info := None; check_error := error |}.

Definition check_found (r : plugin_row) : check_result :=
  {| exists_ := true; found_plugin_id := Some (p_id r);
     plugin_info := Some (p_id r, p_name r, p_version r, p_enabled r);
     check_error := None |}.

(** A failed validation. *)
Definition invalid (error : string) : validation :=
  {| valid := false; validation_error := Some error |}.

(** Whether an operation came back with a success result. *)
Definition success_of {X} (r : exn + result * X) : bool :=
  match r with inr (res, _) => success res | inl _ => false end.


(** On a filesystem nothing lies below a regular file. *)
Definition wf_fs (f : gmap path node) : Prop :=
  forall q c q', f !! q = Some (File c) -> below q q' = true -> f !! q' = None.

(** Nothing exists below the directory [d] yet. *)
Definition nothing_below (d : path) (f : gmap path node) : Prop :=
  forall q, below d q = true -> f !! q = None.

(** Neither [d] nor one of its ancestors is a regular file. *)
Definition no_file_on_the_way (d : path) (f : gmap path node) : Prop :=
  forall q c, q `prefix_of` d -> f !! q <> Some (File c).

(** The three conditions, as checks over the entries of the filesystem. *)
Definition wf_fs_check (f : gmap path node) : bool :=
  forallb (fun e => match e.2 with
                    | File _ => forallb (fun q' => negb (below e.1 q')) (map_to_list f).*1
                    | Dir => true
                    end) (map_to_list f).
Definition nothing_below_check (d : path) (f : gmap path node) : bool :=
  forallb (fun q => negb (below d q)) (map_to_list f).*1.
Definition no_file_on_the_way_check (d : path) (f : gmap path node) : bool :=
  forallb (fun e => match e.2 with
                    | File _ => negb (bool_decide (e.1 `prefix_of` d))
                    | Dir => true
                    end) (map_to_list f).

(** The state of the copy loop: [f0] is the filesystem it started on, [f]
    the current one, [processed] the entries dealt with so far and [acc] the
    list [copied_files].  Nothing that was there has changed; every new file
    is the copy of a processed source file; every new directory leads to the
    target of a source entry; every processed file that was to be copied is
    in place and listed. *)
Record copy_inv (source_dir target_dir : path) (f0 : gmap path node)
    (processed : list path) (acc : list string) (f : gmap path node) : Prop := {
  ci_mono : f0 ⊆ f;
  ci_files : forall q c, f !! q = Some (File c) ->
    f0 !! q = Some (File c)
    \/ exists item, In item processed
          /\ below source_dir item = true
          /\ item <> (source_dir ++ ["lifecycle_manager.py"])%list
          /\ q = (target_dir ++ relative_to source_dir item)%list
          /\ f0 !! item = Some (File c)
          /\ should_copy (relative_to source_dir item) = true;
  ci_dirs : forall q, f !! q = Some Dir ->
    f0 !! q = Some Dir
    \/ exists rel, f0 !! (source_dir ++ rel)%list <> None
          /\ q `prefix_of` (target_dir ++ rel)%list
          /\ (forall c, f0 !! (source_dir ++ rel)%list = Some (File c) ->
                        q <> (target_dir ++ rel)%list);
  ci_copied : forall item c, In item processed ->
    f0 !! item = Some (File c) ->
    should_copy (relative_to source_dir item) = true ->
    item <> (source_dir ++ ["lifecycle_manager.py"])%list ->
    f !! (target_dir ++ relative_to source_dir item)%list = Some (File c)
    /\ In (str_path (relative_to source_dir item)) acc }.

(** No filesystem call fails. *)
Definition fs_quiet (w : World) : Prop := forall c, fs_raises w c = None.

(** The slug and the row identifier the plugin is installed under. *)
Definition slug : string := pd_plugin_slug plugin_data.
Definition plugin_id_of (user_id : string) : string := user_id +:+ "_" +:+ slug.

(** The rows of a user for this plugin. *)
Definition plugin_rows_of (user_id : string) (t : tables) : list plugin_row :=
  List.filter (plugin_matches user_id slug) (plugin t).
Definition module_rows_of (user_id : string) (t : tables) : list module_row :=
  List.filter (module_matches (plugin_id_of user_id) user_id) (module t).

(** Consistency of the two tables as far as this plugin goes. *)
Record db_inv (t : tables) : Prop := {
  inv_plugin_id : forall r, In r (plugin t) -> p_plugin_slug r = slug ->
                    p_id r = plugin_id_of (p_user_id r);
  inv_module_parent : forall u, module_rows_of u t <> [] -> plugin_rows_of u t <> [];
  inv_plugin_unique : forall u, (length (plugin_rows_of u t) <= 1)%nat;
  inv_module_unique : forall u, (length (module_rows_of u t) <= 1)%nat }.

(** A database in which the plugin has never been installed. *)
Definition never_installed (t : tables) : Prop :=
  (forall u, plugin_rows_of u t = []) /\ (forall u, module_rows_of u t = []).

Definition initial (w : World) : Prop :=
  pending w = committed w /\ never_installed (committed w).

(** A result that is a success. *)
Definition succeeded (r : exn + result) : bool :=
  match r with inr res => success res | inl _ => false end.

Section StateSpace.
Context `{Host}.

(** The tables after the INSERT of the plugin row, after the INSERTs of the
    module rows, and after the two DELETEs. *)
Definition with_plugin_row (user_id now : string) (t : tables) : tables :=
  Tables (plugin t ++ [new_plugin_row (plugin_id_of user_id) user_id now])%list (module t).

Definition module_id_of (user_id : string) (md : ModuleData) : string :=
  user_id +:+ "_" +:+ slug +:+ "_" +:+ md_name md.

Definition with_module_rows (user_id now : string) (t : tables) : tables :=
  Tables (plugin t)
         (module t ++
          List.map (fun md => new_module_row (module_id_of user_id md)
                                (plugin_id_of user_id) user_id now md) module_data)%list.

Definition without_module_rows (plugin_id user_id : string) (t : tables) : tables :=
  Tables (plugin t)
         (List.filter (fun r => negb (module_matches plugin_id user_id r)) (module t)).

Definition without_plugin_rows (plugin_id user_id : string) (t : tables) : tables :=
  Tables (List.filter (fun r => negb (plugin_id_matches plugin_id user_id r)) (plugin t))
         (module t).

(** The states the system can be in: it starts where the plugin has never
    been installed, and every step is a call of [install_plugin] or
    [delete_plugin] on some manager, in an environment that fails calls as it
    likes; [ok] restricts the failures of the database the environment may
    choose. *)
Inductive reachable_when (ok : (db_call -> option exn) -> Prop) : World -> Prop :=
| reach_initial w : initial w -> reachable_when ok w
| reach_install self user_id fr dr now w :
    reachable_when ok w -> ok dr ->
    reachable_when ok (snd (install_plugin self user_id (with_env fr dr now w)))
| reach_delete self user_id fr dr now w :
    reachable_when ok w -> ok dr ->
    reachable_when ok (snd (delete_plugin self user_id (with_env fr dr now w))).

Definition reachable : World -> Prop := reachable_when (fun _ => True).

End StateSpace.

Definition world_inv (w : World) : Prop := db_inv (pending w) /\ db_inv (committed w).

(** The tables are as they were. *)
Definition same_tables (w w' : World) : Prop :=
  pending w' = pending w /\ committed w' = committed w.

(** What a filesystem operation leaves alone: tables and environment. *)
Definition same_db (w w' : World) : Prop := same_tables w w' /\ same_env w w'.

(** ** A small deployment, used to run the code on *)

Module Demo.

Definition plugin_dir : path := ["/"; "plugins"; "CollectionViewer"].

(** The demo [json.load] accepts exactly one file content. *)
Definition package_json : string := "{name: CollectionViewer, version: 1.0.0}".

#[export] Instance host : Host := {|
  file_dir := plugin_dir;
  json_load := fun s =>
    if String.eqb s package_json
    then inr (JObj [("name", JStr "CollectionViewer"); ("version", JStr "1.0.0")])
    else inl (Exn JSONDecodeError "Expecting value: line 1 column 1 (char 0)");
  json_dumps := fun j => match j with JObj [] => "{}" | JArr [] => "[]" | _ => "..." end;
  dir_size := 4096 |}.

Definition disk : gmap path node :=
  list_to_map
    [ (["/"], Dir);
      (["/"; "plugins"], Dir);
      (plugin_dir, Dir);
      (plugin_dir ++ ["lifecycle_manager.py"], File "class CollectionViewerLifecycleManager");
      (plugin_dir ++ ["package.json"], File package_json);
      (plugin_dir ++ ["dist"], Dir);
      (plugin_dir ++ ["dist"; "remoteEntry.js"], File "var CollectionViewer;");
      (plugin_dir ++ ["node_modules"], Dir);
      (plugin_dir ++ ["node_modules"; "react.js"], File "react");
      (plugin_dir ++ ["helper.pyc"], File "bytecode") ]%list.

Definition quiet_fs : fs_call -> option exn := fun _ => None.
Definition quiet_db : db_call -> option exn := fun _ => None.

(** Nothing installed, nothing fails. *)
Definition w0 : World := mkWorld disk empty_tables empty_tables quiet_fs quiet_db "2024-01-01 00:00:00" [].

(** The manager of a host that keeps its plugins under [/srv]. *)
Definition manager : Manager := __init__ (Some "/srv") w0.

(** The world after [install_plugin] was called for [alice]: the files are
    in the shared directory. *)
Definition w_copied : World := snd (install_plugin manager "alice" w0).

(** The rows of [alice] as the INSERTs of the record creation write them. *)
Definition alice_tables : tables :=
  with_module_rows "alice" "2024-01-01 00:00:00"
    (with_plugin_row "alice" "2024-01-01 00:00:00" empty_tables).

(** The world in which [alice] has the plugin: the files are in the shared
    directory, and her plugin row and her module row are in the tables. *)
Definition w1 : World :=
  mkWorld (files w_copied) alice_tables alice_tables quiet_fs quiet_db
          "2024-01-01 00:00:00" [].

(** The duplicate check fails: the database connection is gone for SELECT. *)
Definition select_fails : db_call -> option exn := fun c =>
  match c with
  | SelectPlugin _ _ => Some (Exn OtherError "connection lost")
  | _ => None
  end.

(** [alice] has her rows, the shared directory is not there, and the
    SELECT of the duplicate check fails. *)
Definition w_lost : World :=
  mkWorld disk alice_tables alice_tables quiet_fs select_fails "2024-01-02 00:00:00" [].

(** Copying the bundle is refused by the filesystem. *)
Definition bundle_copy_fails : fs_call -> option exn := fun c =>
  match c with
  | Copy2 src _ =>
      if bool_decide (src = plugin_dir ++ ["dist"; "remoteEntry.js"])%list
      then Some (Exn OtherError "Permission denied") else None
  | _ => None
  end.

(** A plugin directory whose bundle is an empty file and whose
    [package.json] is missing. *)
Definition broken_dir : path := ["/"; "broken"].
Definition broken_disk : gmap path node :=
  list_to_map
    [ (["/"], Dir);
      (broken_dir, Dir);
      (broken_dir ++ ["dist"], Dir);
      (broken_dir ++ ["dist"; "remoteEntry.js"], File "") ]%list.
Definition w_broken : World :=
  mkWorld broken_disk empty_tables empty_tables quiet_fs quiet_db "2024-01-01 00:00:00" [].

(** The source directory with an empty bundle. *)
Definition w_empty_bundle : World :=
  set_files (<[(plugin_dir ++ ["dist"; "remoteEntry.js"])%list := File ""]> disk) w0.

(** Deleting the module rows fails. *)
Definition delete_module_fails : db_call -> option exn := fun c =>
  match c with
  | DeleteModule _ _ => Some (Exn OtherError "disk full")
  | _ => None
  end.

End Demo.

(** ** Vocabulary of the further properties *)

(** An operation that only reads: files, tables and environment are as
    they were. *)
Definition read_only (w w' : World) : Prop := files w' = files w /\ same_db w w'.

(** No database call fails. *)
Definition db_quiet (w : World) : Prop := forall c, db_raises w c = None.

Definition is_fs_event (ev : event) : bool :=
  match ev with FsEv _ => true | DbEv _ => false end.
Definition is_unlink (ev : event) : bool :=
  match ev with FsEv (Unlink _) => true | _ => false end.
Definition is_insert (ev : event) : bool :=
  match ev with DbEv (InsertPlugin _) | DbEv (InsertModule _) => true | _ => false end.
Definition is_delete (ev : event) : bool :=
  match ev with DbEv (DeleteModule _ _) | DbEv (DeletePlugin _ _) => true | _ => false end.

(** The manager after a user was added to, or removed from, the active
    users at time [now]. *)
Definition activated (self : Manager) (user_id now : string) : Manager :=
  mkManager (plugin_slug self) (version self) (shared_path self)
            (active_users self ∪ {[user_id]}) (instance_id self) (created_at self) now.
Definition deactivated (self : Manager) (user_id now : string) : Manager :=
  mkManager (plugin_slug self) (version self) (shared_path self)
            (active_users self ∖ {[user_id]}) (instance_id self) (created_at self) now.

(** The identifiers of the module rows an install creates. *)
Definition module_ids_of `{Host} (user_id : string) : list string :=
  List.map (module_id_of user_id) module_data.

(** What the health check looks at. *)
Definition bundle_of (plugin_dir : path) : path := (plugin_dir ++ ["dist"; "remoteEntry.js"])%list.
Definition package_json_of (plugin_dir : path) : path := (plugin_dir ++ ["package.json"])%list.

(** Every entry of the filesystem is still there, and what was a
    directory is a directory. *)
Definition keeps_entries (w w' : World) : Prop :=
  forall q, (is_Some (files w !! q) -> is_Some (files w' !! q))
            /\ (files w !! q = Some Dir -> files w' !! q = Some Dir).

(** The external calls that only look. *)
Definition is_read (ev : event) : bool :=
  match ev with
  | FsEv (Exists _) | FsEv (Open _) | FsEv (Stat _) | FsEv (IsFile _) | FsEv (IsDir _)
  | FsEv (Rglob _) | DbEv (SelectPlugin _ _) => true
  | _ => false
  end.

(** The rows of a user for this plugin are the same in two states of the
    tables. *)
Definition same_rows_of (user_id : string) (t t' : tables) : Prop :=
  plugin_rows_of user_id t' = plugin_rows_of user_id t
  /\ module_rows_of user_id t' = module_rows_of user_id t.

(** The size [stat] reports for an entry. *)
Definition node_size `{Host} (nd : node) : nat :=
  match nd with File c => String.length c | Dir => dir_size end.

(** A plugin directory that validation accepts: [package.json] is a file
    that loads and has the fields [name] and [version], and the bundle is
    there with a size other than zero. *)
Definition passes_validation `{Host} (plugin_dir : path) (f : gmap path node) : Prop :=
  exists content package_data bundle,
    node_at f (package_json_of plugin_dir) = Some (File content)
    /\ json_load content = inr package_data
    /\ json_in "name" package_data = inr true
    /\ json_in "version" package_data = inr true
    /\ node_at f (bundle_of plugin_dir) = Some bundle
    /\ node_size bundle <> 0%nat.

(** A plugin directory the health check finds healthy: the bundle is there
    with a size other than zero and [package.json] is a file that loads. *)
Definition looks_healthy `{Host} (plugin_dir : path) (f : gmap path node) : Prop :=
  exists content package_data bundle,
    node_at f (package_json_of plugin_dir) = Some (File content)
    /\ json_load content = inr package_data
    /\ node_at f (bundle_of plugin_dir) = Some bundle
    /\ node_size bundle <> 0%nat.

(** The error an exception that escapes the reading of [package.json] ends
    in: the inner handler of validation takes the two classes it names, the
    outer one the rest. *)
Definition package_json_error (e : exn) : string :=
  if is_json_decode_error e || is_file_not_found e
  then "Invalid package.json: " +:+ str_exn e else str_exn e.

(** The copy wrote no file: what is new in the filesystem are directories. *)
Definition only_new_dirs (w w' : World) : Prop :=
  files w ⊆ files w'
  /\ forall q c, files w' !! q = Some (File c) -> files w !! q = Some (File c).

(** The external calls that change the tables for good. *)
Definition is_commit (ev : event) : bool :=
  match ev with DbEv Commit => true | _ => false end.

(** * Properties *)

Example should_copy_pyc : should_copy ["cache"; "mod.pyc"] = false.
Proof. vm_compute. reflexivity. Qed.
Example should_copy_js : should_copy ["dist"; "remoteEntry.js"] = true.
Proof. vm_compute. reflexivity. Qed.
Example should_copy_nm : should_copy ["node_modules"; "a"; "b.js"] = false.
Proof. vm_compute. reflexivity. Qed.
Example Path_abs : Path "/srv/plugins/" = ["/"; "srv"; "plugins"].
Proof. vm_compute. reflexivity. Qed.
Example path_div_example :
  ["/"; "p"] </> "dist/remoteEntry.js" = ["/"; "p"; "dist"; "remoteEntry.js"].
Proof. vm_compute. reflexivity. Qed.

(** ** The monad *)

#[global] Arguments path_rglob : simpl never.
#[global] Arguments path_is_file : simpl never.
#[global] Arguments path_is_dir : simpl never.
#[global] Arguments path_exists : simpl never.
#[global] Arguments path_mkdir : simpl never.
#[global] Arguments path_unlink : simpl never.
#[global] Arguments shutil_copy2 : simpl never.
#[global] Arguments open_read : simpl never.
#[global] Arguments path_stat_size : simpl never.
#[global] Arguments db_select_plugin : simpl never.
#[global] Arguments db_insert_plugin : simpl never.
#[global] Arguments db_insert_module : simpl never.
#[global] Arguments db_delete_module : simpl never.
#[global] Arguments db_delete_plugin : simpl never.
#[global] Arguments db_commit : simpl never.
#[global] Arguments db_rollback : simpl never.

Ltac unfold_M := unfold mbind, M_bind, mret, M_ret in *.

Section Monad.
Context {A B : Type}.

Lemma bind_inr (m : M A) (k : A -> M B) w a w' :
  m w = (inr a, w') -> bind m k w = k a w'.
Proof. intros E. unfold bind. rewrite E. reflexivity. Qed.

Lemma bind_inl (m : M A) (k : A -> M B) w e w' :
  m w = (inl e, w') -> bind m k w = (inl e, w').
Proof. intros E. unfold bind. rewrite E. reflexivity. Qed.

Lemma try_except_inr (m : M A) h w a w' :
  m w = (inr a, w') -> try_except m h w = (inr a, w').
Proof. intros E. unfold try_except. rewrite E. reflexivity. Qed.

Lemma try_except_inl (m : M A) h w e w' :
  m w = (inl e, w') -> try_except m h w = h e w'.
Proof. intros E. unfold try_except. rewrite E. reflexivity. Qed.

Lemma returns_ret (a : A) : returns (ret a).
Proof. intros w. eauto. Qed.

Lemma returns_bind (m : M A) (k : A -> M B) :
  returns m -> (forall a, returns (k a)) -> returns (bind m k).
Proof.
  intros Hm Hk w. destruct (Hm w) as (a & w' & E).
  rewrite (bind_inr _ _ _ _ _ E). apply Hk.
Qed.

Lemma returns_try_except (m : M A) h :
  (forall e, returns (h e)) -> returns (try_except m h).
Proof.
  intros Hh w. unfold try_except.
  destruct (m w) as [[e|a] w']; [apply Hh | eauto].
Qed.

End Monad.

(** ** The trace only grows *)

Section Emits.
Context {A B : Type} (P : event -> Prop).

Lemma emits_ret (a : A) : emits P (ret a).
Proof. intros w. exists []. simpl. rewrite app_nil_r. auto. Qed.

Lemma emits_raise (e : exn) : emits P (@raise A e).
Proof. intros w. exists []. simpl. rewrite app_nil_r. auto. Qed.

Lemma emits_bind (m : M A) (k : A -> M B) :
  emits P m -> (forall a, emits P (k a)) -> emits P (bind m k).
Proof.
  intros Hm Hk w. destruct (Hm w) as (evs & Et & Hevs). unfold bind.
  destruct (m w) as [[e|a] w'] eqn:E; simpl in *.
  - eauto.
  - destruct (Hk a w') as (evs' & Et' & Hevs'). exists (evs ++ evs')%list.
    rewrite Et', Et, app_assoc. split; [reflexivity | apply Forall_app; auto].
Qed.

Lemma emits_try_except (m : M A) h :
  emits P m -> (forall e, emits P (h e)) -> emits P (try_except m h).
Proof.
  intros Hm Hh w. destruct (Hm w) as (evs & Et & Hevs). unfold try_except.
  destruct (m w) as [[e|a] w'] eqn:E; simpl in *.
  - destruct (Hh e w') as (evs' & Et' & Hevs'). exists (evs ++ evs')%list.
    rewrite Et', Et, app_assoc. split; [reflexivity | apply Forall_app; auto].
  - eauto.
Qed.

Lemma emits_fs_prim (c : fs_call) (sem : gmap path node -> (exn + A) * gmap path node) :
  P (FsEv c) -> emits P (fs_prim c sem).
Proof.
  intros Hc w. exists [FsEv c]. split; [|auto]. unfold fs_prim.
  destruct (fs_raises w c); [reflexivity|].
  destruct (sem (files w)); reflexivity.
Qed.

Lemma emits_db_prim (c : db_call) (sem : tables -> (exn + A) * tables) :
  P (DbEv c) -> emits P (db_prim c sem).
Proof.
  intros Hc w. exists [DbEv c]. split; [|auto]. unfold db_prim.
  destruct (db_raises w c); [reflexivity|].
  destruct (sem (pending w)); reflexivity.
Qed.

End Emits.

Lemma emits_for_each {A S : Type} (P : event -> Prop) (Q : A -> Prop) (l : list A)
    (body : A -> S -> M S) (s : S) :
  Forall Q l -> (forall x s, Q x -> emits P (body x s)) -> emits P (for_each l body s).
Proof.
  intros Hl Hb. revert s. induction Hl as [|x l Hx Hl IH]; intros s; simpl.
  - apply emits_ret.
  - unfold_M. apply emits_bind; auto.
Qed.

Lemma emits_commit (P : event -> Prop) : P (DbEv Commit) -> emits P db_commit.
Proof.
  intros Hc w. exists [DbEv Commit]. split; [|auto]. unfold db_commit.
  destruct (db_raises w Commit); reflexivity.
Qed.

Lemma emits_rollback (P : event -> Prop) : P (DbEv Rollback) -> emits P db_rollback.
Proof.
  intros Hc w. exists [DbEv Rollback]. split; [|auto]. unfold db_rollback.
  destruct (db_raises w Rollback); reflexivity.
Qed.

Lemma emits_now (P : event -> Prop) : emits P now.
Proof. intros w. exists []. simpl. rewrite app_nil_r. auto. Qed.

(** What [rglob] yields lies below the directory. *)
Lemma emits_bind_rglob {B} (P : event -> Prop) (d : path) (k : list path -> M B) :
  P (FsEv (Rglob d)) ->
  (forall items, Forall (fun q => below d q = true) items -> emits P (k items)) ->
  emits P (bind (path_rglob d) k).
Proof.
  intros Hc Hk w. unfold bind, path_rglob, fs_prim.
  destruct (fs_raises w (Rglob d)) eqn:E.
  - exists [FsEv (Rglob d)]. simpl. auto.
  - simpl.
    assert (Hall : Forall (fun q => below d q = true) (rglob d (files w))).
    { unfold rglob. apply List.Forall_forall. intros q Hq.
      apply List.filter_In in Hq. tauto. }
    destruct (Hk _ Hall (set_files (files w) (log (FsEv (Rglob d)) w))) as (evs & Et & Hevs).
    exists (FsEv (Rglob d) :: evs). rewrite Et. simpl. rewrite <- app_assoc. simpl. auto.
Qed.

Lemma emits_weaken {A} (P Q : event -> Prop) (m : M A) :
  (forall ev, P ev -> Q ev) -> emits P m -> emits Q m.
Proof.
  intros HPQ Hm w. destruct (Hm w) as (evs & Et & Hevs). exists evs. split; [auto|].
  eapply Forall_impl; eauto.
Qed.

(** Proves [emits P m] by following the structure of [m]; what is left are
    the obligations [P ev] of the external calls. *)
Ltac emits_tac :=
  unfold_M;
  repeat first
    [ apply emits_ret | apply emits_raise | apply emits_now
    | apply emits_commit | apply emits_rollback
    | apply emits_fs_prim | apply emits_db_prim
    | apply emits_bind; [|intros ?]
    | apply emits_try_except; [|intros ?]
    | match goal with
      | |- emits _ (if ?b then _ else _) => destruct b
      | |- emits _ (match ?x with _ => _ end) => destruct x
      end ].

(** ** Paths *)

Lemma path_div_rel (p : path) (s : string) :
  is_absolute s = false -> p </> s = (p ++ Path s)%list.
Proof. intros E. unfold path_div. rewrite E. reflexivity. Qed.

Lemma path_div_lifecycle_manager (p : path) :
  p </> "lifecycle_manager.py" = (p ++ ["lifecycle_manager.py"])%list.
Proof. reflexivity. Qed.

Lemma path_div_bundle (p : path) :
  p </> "dist" </> "remoteEntry.js" = (p ++ ["dist"; "remoteEntry.js"])%list.
Proof.
  change (p </> "dist" </> "remoteEntry.js") with ((p ++ ["dist"]) ++ ["remoteEntry.js"])%list.
  rewrite <- app_assoc. reflexivity.
Qed.

Lemma relative_to_app (d r : path) : relative_to d (d ++ r)%list = r.
Proof. unfold relative_to. rewrite drop_app_length. reflexivity. Qed.

Lemma below_app (d r : path) : r <> [] -> below d (d ++ r)%list = true.
Proof.
  intros Hr. unfold below. rewrite take_app_length, bool_decide_eq_true_2 by reflexivity.
  simpl. apply Nat.ltb_lt. rewrite length_app. destruct r; [congruence | simpl; lia].
Qed.

Lemma below_inv (d q : path) :
  below d q = true -> q = (d ++ relative_to d q)%list /\ relative_to d q <> [].
Proof.
  unfold below, relative_to. intros Hb. apply andb_true_iff in Hb as [Ht Hl].
  apply bool_decide_eq_true_1 in Ht. apply Nat.ltb_lt in Hl. split.
  - rewrite <- Ht at 1. symmetry. apply take_drop.
  - intros E. apply (f_equal length) in E. rewrite length_drop in E. simpl in E. lia.
Qed.

(** ** Where the files are copied to *)

Section CopyTarget.
Context `{Host}.

Lemma copy_item_emits (target_dir : path) (update : bool) (item : path) (acc : list string) :
  below file_dir item = true ->
  emits (copies_from_to file_dir target_dir) (copy_item file_dir target_dir update item acc).
Proof.
  intros Hb. unfold copy_item. emits_tac.
  all: intros src dst Hev; try discriminate Hev.
  inversion Hev; subst. auto.
Qed.

Lemma copy_plugin_files_emits (user_id : string) (target_dir : path) (update : bool) :
  emits (copies_from_to file_dir target_dir)
        (_copy_plugin_files_impl user_id target_dir update).
Proof.
  unfold _copy_plugin_files_impl, _copy_plugin_files_impl_try.
  apply emits_try_except; [|intros e; apply emits_ret].
  apply emits_bind_rglob; [intros src dst Hev; discriminate Hev|].
  intros items Hitems. apply emits_bind.
  { eapply emits_for_each; [exact Hitems|]. intros x s Hx. simpl in Hx.
    apply copy_item_emits, Hx. }
  intros copied. emits_tac.
  all: intros src dst Hev; try discriminate Hev.
  all: inversion Hev; subst; rewrite !path_div_lifecycle_manager, relative_to_app;
       split; [apply below_app; discriminate | reflexivity].
Qed.

Lemma install_for_user_emits P (self : Manager) (user_id : string) (d : path) :
  (forall c, P (DbEv c)) -> emits P (install_for_user self user_id d).
Proof.
  intros HP. unfold install_for_user, _perform_user_installation,
    _perform_user_installation_try, _create_database_records,
    _create_database_records_try, db_insert_plugin, db_insert_module.
  simpl for_each. emits_tac; auto.
Qed.

Lemma check_existing_plugin_emits P (user_id : string) :
  (forall c, P (DbEv c)) -> emits P (_check_existing_plugin user_id).
Proof.
  intros HP. unfold _check_existing_plugin, _check_existing_plugin_try, db_select_plugin.
  emits_tac; auto.
Qed.

Lemma install_plugin_emits (self : Manager) (user_id : string) :
  emits (copies_from_to file_dir (shared_path self)) (install_plugin self user_id).
Proof.
  unfold install_plugin, install_plugin_try.
  apply emits_try_except; [|intros e; apply emits_ret].
  apply emits_bind.
  { apply check_existing_plugin_emits. intros c src dst Hev. discriminate Hev. }
  intros chk. destruct (exists_ chk); [apply emits_ret|].
  unfold_M. apply emits_bind.
  { apply emits_fs_prim. intros src dst Hev. discriminate Hev. }
  intros _. apply emits_bind; [apply copy_plugin_files_emits|].
  intros r. destruct (negb (success r)); [apply emits_ret|].
  apply install_for_user_emits. intros c src dst Hev. discriminate Hev.
Qed.

(** C8 (as amended).  For every non-empty [plugins_base_dir] the shared
    storage path of the manager is [<base>/shared/CollectionViewer/v1.0.0],
    and every file [install_plugin] copies is written below that directory,
    at the relative path it has in the plugin's source directory. *)
Theorem shared_path_under_base_dir (plugins_base_dir : string) (w : World) (user_id : string) :
  plugins_base_dir <> "" ->
  shared_path (__init__ (Some plugins_base_dir) w)
    = (Path plugins_base_dir ++ ["shared"; "CollectionViewer"; "v1.0.0"])%list
  /\ emits (copies_from_to file_dir
              (Path plugins_base_dir ++ ["shared"; "CollectionViewer"; "v1.0.0"])%list)
           (install_plugin_standalone user_id (Some plugins_base_dir)).
Proof.
  intros Hne.
  assert (E : forall w', shared_path (__init__ (Some plugins_base_dir) w')
            = (Path plugins_base_dir ++ ["shared"; "CollectionViewer"; "v1.0.0"])%list).
  { intros w'. unfold __init__. simpl shared_path.
    destruct (String.eqb_spec plugins_base_dir ""); [contradiction|]. simpl negb. cbv iota.
    rewrite !path_div_rel by reflexivity. rewrite <- !app_assoc. reflexivity. }
  split; [apply E|].
  intros w'. unfold install_plugin_standalone. rewrite <- (E w'). apply install_plugin_emits.
Qed.

End CopyTarget.

(** The claim C8 as it is stated fails for the empty string, which is not
    [None] and yet selects the source directory. *)
Lemma shared_path_empty_base_dir :
  ~ (shared_path (__init__ (H := Demo.host) (Some "") Demo.w0)
       = (Path "" ++ ["shared"; "CollectionViewer"; "v1.0.0"])%list).
Proof. vm_compute. discriminate. Qed.

Lemma shared_path_under_base_dir_witness :
  "/srv" <> ""
  /\ shared_path (__init__ (H := Demo.host) (Some "/srv") Demo.w0)
       = ["/"; "srv"; "shared"; "CollectionViewer"; "v1.0.0"].
Proof.
  split; [discriminate|].
  apply (shared_path_under_base_dir (H := Demo.host) "/srv" Demo.w0 "alice"). discriminate.
Defined.

(** In the demo deployment the in-place copy is refused by [shutil]. *)
Example install_in_place_fails :
  fst (install_plugin_standalone (H := Demo.host) "alice" None Demo.w0)
  = inr (Failure "are the same file", __init__ (H := Demo.host) None Demo.w0).
Proof. vm_compute. reflexivity. Qed.

(** ** The duplicate check *)

Lemma path_mkdir_trace (p : path) (w : World) :
  trace (snd (path_mkdir p w)) = (trace w ++ [FsEv (Mkdir p)])%list.
Proof.
  unfold path_mkdir, fs_prim. destruct (fs_raises w (Mkdir p)); [reflexivity|].
  destruct (mkdir_parents p (files w)); reflexivity.
Qed.

Section Guard.
Context `{Host}.

Lemma check_existing_plugin_run (user_id : string) (w : World) :
  _check_existing_plugin user_id w =
  (inr match db_raises w (SelectPlugin user_id slug) with
       | Some e => check_not_found (Some (str_exn e))
       | None =>
           match head (plugin_rows_of user_id (pending w)) with
           | Some r => check_found r
           | None => check_not_found None
           end
       end,
   log (DbEv (SelectPlugin user_id slug)) w).
Proof.
  unfold _check_existing_plugin, _check_existing_plugin_try, try_except, bind,
    db_select_plugin, db_prim, select_plugin, plugin_rows_of, slug.
  destruct (db_raises w _); [reflexivity|].
  destruct (head _); reflexivity.
Qed.

Lemma install_for_user_returns (self : Manager) (user_id : string) (d : path) :
  returns (install_for_user self user_id d).
Proof.
  unfold install_for_user. destruct (bool_decide _); [apply returns_ret|].
  apply returns_bind.
  - apply returns_try_except. intros e. apply returns_ret.
  - intros r. destruct (success r); [|apply returns_ret].
    apply returns_bind; [intros w; unfold now; eauto | intros t; apply returns_ret].
Qed.

(** What [install_plugin] does once the duplicate check has answered
    [exists = False]. *)
Lemma install_plugin_proceeds (self : Manager) (user_id : string) (w w2 w3 : World)
    (chk : check_result) (copy_result : result) :
  _check_existing_plugin user_id w = (inr chk, log (DbEv (SelectPlugin user_id slug)) w) ->
  exists_ chk = false ->
  path_mkdir (shared_path self) (log (DbEv (SelectPlugin user_id slug)) w) = (inr tt, w2) ->
  _copy_plugin_files_impl user_id (shared_path self) false w2 = (inr copy_result, w3) ->
  install_plugin self user_id w =
    if success copy_result then install_for_user self user_id (shared_path self) w3
    else (inr (copy_result, self), w3).
Proof.
  intros Ec Hex Em Ecp. unfold install_plugin, install_plugin_try. unfold_M.
  unfold try_except at 1.
  rewrite (bind_inr _ _ _ _ _ Ec), Hex.
  rewrite (bind_inr _ _ _ _ _ Em), (bind_inr _ _ _ _ _ Ecp).
  destruct (success copy_result); simpl; [|reflexivity].
  destruct (install_for_user_returns self user_id (shared_path self) w3) as (a & w' & E).
  rewrite E. reflexivity.
Qed.

(** C1 (as amended).  When a plugin row of the user exists and the SELECT of
    the duplicate check does not raise, [install_plugin] fails with
    ['Plugin already installed']; the SELECT is the only external call it
    makes, so no file is copied and no row is inserted. *)
Theorem install_plugin_already_installed (self : Manager) (user_id : string) (w : World) :
  plugin_rows_of user_id (pending w) <> [] ->
  db_raises w (SelectPlugin user_id slug) = None ->
  let w' := snd (install_plugin self user_id w) in
  fst (install_plugin self user_id w) = inr (Failure "Plugin already installed", self)
  /\ files w' = files w /\ pending w' = pending w /\ committed w' = committed w
  /\ new_events w w' = [DbEv (SelectPlugin user_id slug)].
Proof.
  intros Hrow Hq.
  assert (E : install_plugin self user_id w
              = (inr (Failure "Plugin already installed", self),
                 log (DbEv (SelectPlugin user_id slug)) w)).
  { unfold install_plugin, install_plugin_try. unfold_M. unfold try_except at 1.
    rewrite (bind_inr _ _ _ _ _ (check_existing_plugin_run user_id w)), Hq.
    destruct (plugin_rows_of user_id (pending w)); [congruence|]. reflexivity. }
  rewrite E. simpl. repeat split.
  unfold new_events. simpl. rewrite drop_app_length. reflexivity.
Qed.

(** C2.  For a user without a plugin row [delete_plugin] fails and leaves
    files and tables as they were; and [_delete_database_records], called for
    a plugin row that is not there, never commits: it returns a failure after
    rolling the module deletions back. *)
Theorem delete_plugin_not_installed (self : Manager) (user_id : string) (w : World) :
  plugin_rows_of user_id (pending w) = [] ->
  (exists error w',
     delete_plugin self user_id w = (inr (Failure error, self), w')
     /\ files w' = files w /\ pending w' = pending w /\ committed w' = committed w
     /\ Forall (fun ev => is_db_write ev = false) (new_events w w'))
  /\ (forall plugin_id,
        List.filter (plugin_id_matches plugin_id user_id) (plugin (pending w)) = [] ->
        let r := fst (_delete_database_records user_id plugin_id w) in
        let w' := snd (_delete_database_records user_id plugin_id w) in
        committed w' = committed w
        /\ In (DbEv Rollback) (new_events w w')
        /\ ~ In (DbEv Commit) (new_events w w')
        /\ (db_raises w Rollback = None ->
            (exists error, r = inr (Failure error)) /\ pending w' = committed w)).
Proof.
  intros Hrows. split.
  - unfold delete_plugin, uninstall_for_user.
    destruct (bool_decide (user_id ∈ active_users self)); cbn [negb].
    + unfold_M.
      assert (E : _perform_user_uninstallation user_id w
                  = (inr (Failure "Plugin not found for user"),
                     log (DbEv (SelectPlugin user_id slug)) w)).
      { unfold _perform_user_uninstallation, _perform_user_uninstallation_try.
        unfold_M. unfold try_except at 1.
        rewrite (bind_inr _ _ _ _ _ (check_existing_plugin_run user_id w)), Hrows.
        destruct (db_raises w _); reflexivity. }
      rewrite (bind_inr _ _ _ _ _ E). simpl.
      eexists _, _. split; [reflexivity|]. simpl. repeat split.
      unfold new_events. simpl. rewrite drop_app_length. repeat constructor.
    + eexists _, w. split; [reflexivity|]. repeat split.
      unfold new_events. rewrite drop_all. constructor.
  - intros plugin_id Hnone r w'. subst r w'.
    unfold _delete_database_records, _delete_database_records_try, try_except, bind,
      db_delete_module, db_delete_plugin, db_prim, db_commit, db_rollback,
      delete_module, delete_plugin_rows, new_events.
    unfold_M. unfold bind. simpl.
    destruct (db_raises w (DeleteModule plugin_id user_id)) eqn:E1; simpl.
    { destruct (db_raises w Rollback) eqn:E2; simpl;
        rewrite <- ?app_assoc, drop_app_length; simpl;
        (split; [reflexivity|]; split; [tauto|]; split; [intuition discriminate|]);
        intros HR; [discriminate HR | split; [eauto | reflexivity]]. }
    destruct (db_raises w (DeletePlugin plugin_id user_id)) eqn:E3; simpl.
    { destruct (db_raises w Rollback) eqn:E2; simpl;
        rewrite <- ?app_assoc, drop_app_length; simpl;
        (split; [reflexivity|]; split; [tauto|]; split; [intuition discriminate|]);
        intros HR; [discriminate HR | split; [eauto | reflexivity]]. }
    rewrite Hnone. simpl.
    destruct (db_raises w Rollback) eqn:E2; simpl; rewrite ?E2; simpl;
      rewrite <- ?app_assoc, drop_app_length; simpl;
      (split; [reflexivity|]; split; [tauto|]; split; [intuition discriminate|]);
      intros HR; [discriminate HR | split; [eauto | reflexivity]].
Qed.

End Guard.

(** The claim C1 as it is stated fails when the SELECT of the duplicate
    check raises: the row of [alice] is there, and yet the files are copied
    again and the error is another one. *)
Lemma install_plugin_failed_check_copies :
  let w := with_env Demo.quiet_fs Demo.select_fails "2024-01-02 00:00:00" Demo.w1 in
  plugin_rows_of "alice" (pending w) <> []
  /\ ~ (fst (install_plugin (H := Demo.host) Demo.manager "alice" w)
          = inr (Failure "Plugin already installed", Demo.manager)
        /\ List.filter is_copy2
             (new_events w (snd (install_plugin (H := Demo.host) Demo.manager "alice" w))) = []).
Proof.
  split.
  - vm_compute. discriminate.
  - intros [E _]. vm_compute in E. discriminate E.
Qed.

Lemma install_plugin_already_installed_witness :
  plugin_rows_of "alice" (pending Demo.w1) <> []
  /\ fst (install_plugin (H := Demo.host) Demo.manager "alice" Demo.w1)
     = inr (Failure "Plugin already installed", Demo.manager).
Proof.
  assert (Hrow : plugin_rows_of "alice" (pending Demo.w1) <> [])
    by (vm_compute; discriminate).
  split; [exact Hrow|].
  apply (install_plugin_already_installed (H := Demo.host) Demo.manager "alice" Demo.w1
           Hrow eq_refl).
Defined.

Lemma delete_plugin_not_installed_witness :
  plugin_rows_of "alice" (pending Demo.w0) = []
  /\ exists error w',
       delete_plugin Demo.manager "alice" Demo.w0
         = (inr (Failure error, Demo.manager), w')
       /\ files w' = files Demo.w0 /\ pending w' = pending Demo.w0
       /\ committed w' = committed Demo.w0
       /\ Forall (fun ev => is_db_write ev = false) (new_events Demo.w0 w').
Proof.
  split; [reflexivity|].
  apply (delete_plugin_not_installed Demo.manager "alice" Demo.w0 eq_refl).
Defined.

(** With the failed check and nothing else failing, the files are copied
    and the install of [bob] ends where every install ends. *)
Example failed_check_then_no_row :
  let w := with_env Demo.quiet_fs Demo.select_fails "2024-01-02 00:00:00" Demo.w0 in
  fst (install_plugin (H := Demo.host) Demo.manager "bob" w)
  = inr (Failure "type object 'datetime.datetime' has no attribute 'datetime'", Demo.manager)
  /\ plugin_rows_of "bob" (pending (snd (install_plugin (H := Demo.host) Demo.manager "bob" w)))
     = [].
Proof. vm_compute. auto. Qed.

(** ** Validation *)

Section Validation.
Context `{Host}.

Lemma path_exists_quiet (p : path) (w : World) :
  fs_quiet w -> path_exists p w = (inr (exists_at (files w) p), log (FsEv (Exists p)) w).
Proof. intros Hq. unfold path_exists, fs_prim. rewrite Hq. reflexivity. Qed.

Lemma fs_quiet_log (ev : event) (w : World) : fs_quiet w -> fs_quiet (log ev w).
Proof. intros Hq c. apply Hq. Qed.

(** The loop over [required_files], when the existence checks answer. *)
Lemma missing_files_run (plugin_dir : path) (w : World) :
  fs_quiet w ->
  exists w',
    for_each required_files
      (fun file_path missing_files =>
         let! file_exists := path_exists (plugin_dir </> file_path) in
         if negb file_exists then mret (missing_files ++ [file_path])%list
         else mret missing_files) [] w
    = (inr ((if exists_at (files w) (plugin_dir ++ ["package.json"])%list
             then [] else ["package.json"])
            ++ (if exists_at (files w) (plugin_dir ++ ["dist"; "remoteEntry.js"])%list
                then [] else ["dist/remoteEntry.js"]))%list, w')
    /\ files w' = files w /\ fs_quiet w'.
Proof.
  intros Hq. unfold required_files. simpl for_each. unfold_M.
  change (plugin_dir </> "package.json") with (plugin_dir ++ ["package.json"])%list.
  change (plugin_dir </> "dist/remoteEntry.js")
    with (plugin_dir ++ ["dist"; "remoteEntry.js"])%list.
  unfold bind. rewrite (path_exists_quiet _ w Hq).
  destruct (exists_at (files w) (plugin_dir ++ ["package.json"])%list); simpl;
    rewrite path_exists_quiet by (apply fs_quiet_log, Hq); simpl;
    destruct (exists_at (files w) _); simpl; eexists; split; try reflexivity;
    split; try reflexivity; repeat apply fs_quiet_log; exact Hq.
Qed.

Lemma open_read_quiet (p : path) (w : World) :
  fs_quiet w ->
  open_read p w = (fst (read_file p (files w)), log (FsEv (Open p)) w).
Proof.
  intros Hq. unfold open_read, fs_prim. rewrite Hq. unfold read_file.
  destruct (node_at (files w) p) as [[c|]|]; reflexivity.
Qed.

Lemma path_stat_size_quiet (p : path) (w : World) :
  fs_quiet w ->
  path_stat_size p w = (fst (stat_size p (files w)), log (FsEv (Stat p)) w).
Proof.
  intros Hq. unfold path_stat_size, fs_prim. rewrite Hq. unfold stat_size.
  destruct (node_at (files w) p) as [[c|]|]; reflexivity.
Qed.

Lemma check_required_fields_cases (fields : list string) (data : json) (w : World) :
  exists r, check_required_fields fields data w = (r, w)
    /\ (r = inr None \/ (exists error, r = inr (Some (invalid error))) \/ exists e, r = inl e).
Proof.
  induction fields as [|field rest IH]; simpl.
  - eexists. split; [reflexivity|]. auto.
  - destruct (json_in field data) as [e|[|]].
    + eexists. split; [reflexivity|]. eauto.
    + exact IH.
    + eexists. split; [reflexivity|]. right. left. eexists. reflexivity.
Qed.

Lemma check_required_fields_ok (data : json) (w : World) :
  json_in "name" data = inr true -> json_in "version" data = inr true ->
  check_required_fields required_fields data w = (inr None, w).
Proof. intros E1 E2. simpl. rewrite E1, E2. reflexivity. Qed.

(** C6 (as amended).  When no filesystem call raises: if
    [dist/remoteEntry.js] is absent, validation fails and the error names it
    among the missing files; if it is present with size zero, validation
    fails, and the error is ['Bundle file is empty'] provided [package.json]
    is there, loads, and has the fields [name] and [version]. *)
Theorem validate_bundle (user_id : string) (plugin_dir : path) (w : World) :
  fs_quiet w ->
  let bundle := (plugin_dir ++ ["dist"; "remoteEntry.js"])%list in
  let v := fst (_validate_installation_impl user_id plugin_dir w) in
  (node_at (files w) bundle = None ->
     exists missing_files,
       v = inr (invalid ("Missing required files: " +:+ join_comma missing_files))
       /\ In "dist/remoteEntry.js" missing_files)
  /\ (node_at (files w) bundle = Some (File "") ->
      (exists error, v = inr (invalid error))
      /\ (forall content package_data,
            node_at (files w) (plugin_dir ++ ["package.json"])%list = Some (File content) ->
            json_load content = inr package_data ->
            json_in "name" package_data = inr true ->
            json_in "version" package_data = inr true ->
            v = inr (invalid "Bundle file is empty"))).
Proof.
  intros Hq bundle v. subst v bundle.
  destruct (missing_files_run plugin_dir w Hq) as (w1 & Erun & Hf & Hq1).
  unfold _validate_installation_impl, _validate_installation_impl_try.
  unfold try_except.
  split.
  - intros Habs.
    assert (Hex : exists_at (files w) (plugin_dir ++ ["dist"; "remoteEntry.js"])%list = false)
      by (unfold exists_at; rewrite Habs; reflexivity).
    rewrite Hex in Erun. rewrite (bind_inr _ _ _ _ _ Erun).
    destruct (exists_at (files w) (plugin_dir ++ ["package.json"])%list); simpl.
    + exists ["dist/remoteEntry.js"]. split; [reflexivity | simpl; auto].
    + exists ["package.json"; "dist/remoteEntry.js"]. split; [reflexivity | simpl; auto].
  - intros Hempty.
    assert (Hex : exists_at (files w) (plugin_dir ++ ["dist"; "remoteEntry.js"])%list = true)
      by (unfold exists_at; rewrite Hempty; reflexivity).
    rewrite Hex, app_nil_r in Erun. rewrite (bind_inr _ _ _ _ _ Erun).
    change (plugin_dir </> "package.json") with (plugin_dir ++ ["package.json"])%list.
    rewrite !path_div_bundle.
    unfold exists_at.
    destruct (node_at (files w) (plugin_dir ++ ["package.json"])%list) as [nd|] eqn:Epkg;
      cbn [app]; unfold_M.
    2:{ split; [eexists; reflexivity|]. intros c d Hc. discriminate Hc. }
    unfold try_except_only, try_except, bind.
    rewrite (open_read_quiet _ w1 Hq1). unfold read_file. rewrite Hf, Epkg.
    assert (Hstat : path_stat_size (plugin_dir ++ ["dist"; "remoteEntry.js"])%list
                      (log (FsEv (Open (plugin_dir ++ ["package.json"])%list)) w1)
                    = (inr 0, log (FsEv (Stat (plugin_dir ++ ["dist"; "remoteEntry.js"])%list))
                                (log (FsEv (Open (plugin_dir ++ ["package.json"])%list)) w1))).
    { rewrite path_stat_size_quiet by (apply fs_quiet_log, Hq1).
      unfold stat_size. simpl files. rewrite Hf, Hempty. reflexivity. }
    destruct nd as [c|]; cbn [fst].
    2:{ split; [eexists; reflexivity|]. intros c d Hc. discriminate Hc. }
    destruct (json_load c) as [e|data] eqn:Ej.
    { split.
      - unfold raise. destruct (is_json_decode_error e || is_file_not_found e);
          eexists; reflexivity.
      - intros c' d Hc Hd. inversion Hc; subst c'. congruence. }
    destruct (check_required_fields_cases required_fields data
                (log (FsEv (Open (plugin_dir ++ ["package.json"])%list)) w1))
      as (r & Er & Hr).
    split.
    + rewrite Er. destruct Hr as [->|[[error ->]| [e ->]]].
      * rewrite Hstat. eexists; reflexivity.
      * eexists; reflexivity.
      * unfold raise. destruct (is_json_decode_error e || is_file_not_found e);
          eexists; reflexivity.
    + intros c' d Hc Hd Hn Hv. inversion Hc; subst c'.
      assert (d = data) by congruence. subst d.
      rewrite (check_required_fields_ok data _ Hn Hv), Hstat. reflexivity.
Qed.

End Validation.

(** The claim C6 as it is stated fails for an empty bundle next to a
    missing [package.json]: the error is the one of the missing file. *)
Lemma validate_empty_bundle_without_package_json :
  node_at (files Demo.w_broken) (Demo.broken_dir ++ ["dist"; "remoteEntry.js"])%list
    = Some (File "")
  /\ fst (_validate_installation_impl (H := Demo.host) "alice" Demo.broken_dir Demo.w_broken)
     = inr (invalid "Missing required files: package.json")
  /\ ~ (fst (_validate_installation_impl (H := Demo.host) "alice" Demo.broken_dir Demo.w_broken)
        = inr (invalid "Bundle file is empty")).
Proof.
  split; [vm_compute; reflexivity|]. split; [vm_compute; reflexivity|].
  intros E. vm_compute in E. discriminate E.
Qed.

Lemma validate_bundle_witness :
  fs_quiet Demo.w_empty_bundle
  /\ fst (_validate_installation_impl (H := Demo.host) "alice" Demo.plugin_dir
            Demo.w_empty_bundle)
     = inr (invalid "Bundle file is empty").
Proof.
  assert (Hq : fs_quiet Demo.w_empty_bundle) by (intros c; reflexivity).
  split; [exact Hq|].
  destruct (validate_bundle (H := Demo.host) "alice" Demo.plugin_dir Demo.w_empty_bundle Hq)
    as [_ Hempty].
  assert (Hb : node_at (files Demo.w_empty_bundle)
                 (Demo.plugin_dir ++ ["dist"; "remoteEntry.js"])%list = Some (File ""))
    by (vm_compute; reflexivity).
  destruct (Hempty Hb) as [_ Hmsg].
  apply (Hmsg Demo.package_json
           (JObj [("name", JStr "CollectionViewer"); ("version", JStr "1.0.0")])).
  - vm_compute. reflexivity.
  - vm_compute. reflexivity.
  - reflexivity.
  - reflexivity.
Defined.

(** ** What an operation leaves alone *)

Section Preserves.
Context (R : World -> World -> Prop).
Hypothesis R_refl : forall w, R w w.
Hypothesis R_trans : forall a b c, R a b -> R b c -> R a c.

Lemma preserves_ret {A} (a : A) : preserves R (ret a).
Proof. intros w. apply R_refl. Qed.

Lemma preserves_raise {A} (e : exn) : preserves R (@raise A e).
Proof. intros w. apply R_refl. Qed.

Lemma preserves_now : preserves R now.
Proof. intros w. apply R_refl. Qed.

Lemma preserves_bind {A B} (m : M A) (k : A -> M B) :
  preserves R m -> (forall a, preserves R (k a)) -> preserves R (bind m k).
Proof.
  intros Hm Hk w. specialize (Hm w). unfold bind.
  destruct (m w) as [[e|a] w']; simpl in *; [exact Hm|].
  eapply R_trans; [exact Hm | apply Hk].
Qed.

Lemma preserves_try_except {A} (m : M A) h :
  preserves R m -> (forall e, preserves R (h e)) -> preserves R (try_except m h).
Proof.
  intros Hm Hh w. specialize (Hm w). unfold try_except.
  destruct (m w) as [[e|a] w']; simpl in *; [|exact Hm].
  eapply R_trans; [exact Hm | apply Hh].
Qed.

Lemma preserves_for_each {A S} (l : list A) (body : A -> S -> M S) (s : S) :
  (forall x s, preserves R (body x s)) -> preserves R (for_each l body s).
Proof.
  intros Hb. revert s. induction l as [|x l IH]; intros s; simpl.
  - apply preserves_ret.
  - unfold_M. apply preserves_bind; auto.
Qed.

Lemma preserves_fs_prim {A} (c : fs_call) (sem : gmap path node -> (exn + A) * gmap path node) :
  (forall w f, R w (set_files f (log (FsEv c) w))) -> preserves R (fs_prim c sem).
Proof.
  intros HR w. unfold fs_prim. destruct (fs_raises w c).
  - simpl. apply (HR w (files w)).
  - destruct (sem (files w)) as [r f]. simpl. apply HR.
Qed.

Lemma preserves_db_prim {A} (c : db_call) (sem : tables -> (exn + A) * tables) :
  (forall w t, R w (set_pending t (log (DbEv c) w))) -> preserves R (db_prim c sem).
Proof.
  intros HR w. unfold db_prim. destruct (db_raises w c).
  - simpl. apply (HR w (pending w)).
  - destruct (sem (pending w)) as [r t]. simpl. apply HR.
Qed.

End Preserves.

(** Follows the structure of an operation down to its external calls. *)
Ltac preserves_tac Hrefl Htrans :=
  unfold_M;
  repeat first
    [ apply (preserves_ret _ Hrefl) | apply (preserves_raise _ Hrefl)
    | apply (preserves_now _ Hrefl)
    | apply (preserves_bind _ Htrans); [|intros ?]
    | apply (preserves_try_except _ Htrans); [|intros ?]
    | apply (preserves_for_each _ Hrefl Htrans); intros ? ?
    | match goal with
      | |- preserves _ (if ?b then _ else _) => destruct b
      | |- preserves _ (match ?x with _ => _ end) => destruct x
      end ].

Lemma same_env_refl (w : World) : same_env w w.
Proof. repeat split. Qed.

Lemma same_env_trans (a b c : World) : same_env a b -> same_env b c -> same_env a c.
Proof. unfold same_env. intros (?&?&?) (?&?&?). repeat split; congruence. Qed.

Lemma same_env_fs {A} (c : fs_call) (sem : gmap path node -> (exn + A) * gmap path node) :
  preserves same_env (fs_prim c sem).
Proof. apply preserves_fs_prim. intros w f. repeat split. Qed.

Lemma same_env_db {A} (c : db_call) (sem : tables -> (exn + A) * tables) :
  preserves same_env (db_prim c sem).
Proof. apply preserves_db_prim. intros w f. repeat split. Qed.

Lemma same_env_commit : preserves same_env db_commit.
Proof. intros w. unfold db_commit. destruct (db_raises w Commit); repeat split. Qed.

Lemma same_env_rollback : preserves same_env db_rollback.
Proof. intros w. unfold db_rollback. destruct (db_raises w Rollback); repeat split. Qed.

Ltac same_env_tac :=
  preserves_tac same_env_refl same_env_trans;
  try first [ apply same_env_fs | apply same_env_db
            | apply same_env_commit | apply same_env_rollback ].

(** ** Exceptions stop at the boundary of every operation *)

Section Boundary.
Context `{Host}.

Lemma create_database_records_try_env (user_id : string) :
  preserves same_env (_create_database_records_try user_id).
Proof. unfold _create_database_records_try. simpl for_each. same_env_tac. Qed.

Lemma delete_database_records_try_env (user_id plugin_id : string) :
  preserves same_env (_delete_database_records_try user_id plugin_id).
Proof. unfold _delete_database_records_try. same_env_tac. Qed.

(** What the handler of the two record operations does with an exception. *)
Lemma rollback_handler_run (e : exn) (w : World) :
  (db_rollback;; mret (Failure (str_exn e))) w =
  match db_raises w Rollback with
  | Some e' => (inl e', log (DbEv Rollback) w)
  | None => (inr (Failure (str_exn e)), set_pending (committed w) (log (DbEv Rollback) w))
  end.
Proof.
  unfold_M. unfold bind, db_rollback. destruct (db_raises w Rollback); reflexivity.
Qed.

Lemma uninstall_for_user_returns (self : Manager) (user_id : string) :
  returns (uninstall_for_user self user_id).
Proof.
  unfold uninstall_for_user. destruct (negb _); [apply returns_ret|].
  apply returns_bind.
  - apply returns_try_except. intros e. apply returns_ret.
  - intros r. destruct (success r); [|apply returns_ret].
    apply returns_bind; [intros w; unfold now; eauto | intros t; apply returns_ret].
Qed.

Lemma copy_item_returns (source_dir target_dir : path) (update : bool) (item : path)
    (copied_files : list string) :
  returns (copy_item source_dir target_dir update item copied_files).
Proof.
  unfold copy_item. destruct (_ && _); [apply returns_ret|].
  destruct (negb _); [apply returns_ret|].
  apply returns_try_except. intros e. apply returns_ret.
Qed.

Lemma copy_plugin_files_returns (user_id : string) (d : path) (update : bool) :
  returns (_copy_plugin_files_impl user_id d update).
Proof. apply returns_try_except. intros e. apply returns_ret. Qed.

(** C7 (as amended).  No operation lets an exception escape: install,
    uninstall, file copy, validation, health check and the duplicate check
    always return a result, and so do record creation and deletion unless
    [db.rollback()] itself raises.  An exception that reaches the outer
    handler of an operation becomes a failure carrying [str(e)]; an exception
    raised while one file is copied is caught inside the loop, which goes on.
    When a database call raises in [_create_database_records] or
    [_delete_database_records], [db.rollback()] is called before they
    return. *)
Theorem exceptions_stop_at_the_boundary (self : Manager) (user_id : string) (d : path)
    (update : bool) (plugin_id : string) :
  (returns (install_plugin self user_id)
   /\ returns (delete_plugin self user_id)
   /\ returns (_perform_user_installation user_id d)
   /\ returns (_perform_user_uninstallation user_id)
   /\ returns (_copy_plugin_files_impl user_id d update)
   /\ returns (_validate_installation_impl user_id d)
   /\ returns (_get_plugin_health_impl user_id d)
   /\ returns (_check_existing_plugin user_id)
   /\ (forall item copied_files, returns (copy_item file_dir d update item copied_files)))
  /\ (forall w e w1,
        (install_plugin_try self user_id w = (inl e, w1) ->
           install_plugin self user_id w = (inr (Failure (str_exn e), self), w1))
        /\ (_perform_user_installation_try user_id d w = (inl e, w1) ->
           _perform_user_installation user_id d w = (inr (Failure (str_exn e)), w1))
        /\ (_perform_user_uninstallation_try user_id w = (inl e, w1) ->
           _perform_user_uninstallation user_id w = (inr (Failure (str_exn e)), w1))
        /\ (_copy_plugin_files_impl_try user_id d update w = (inl e, w1) ->
           _copy_plugin_files_impl user_id d update w = (inr (Failure (str_exn e)), w1))
        /\ (_validate_installation_impl_try user_id d w = (inl e, w1) ->
           _validate_installation_impl user_id d w = (inr (invalid (str_exn e)), w1))
        /\ (_get_plugin_health_impl_try user_id d w = (inl e, w1) ->
           _get_plugin_health_impl user_id d w
             = (inr {| healthy := false; details := HealthError (str_exn e) |}, w1))
        /\ (_check_existing_plugin_try user_id w = (inl e, w1) ->
           _check_existing_plugin user_id w = (inr (check_not_found (Some (str_exn e))), w1)))
  /\ (forall w e w1,
        _create_database_records_try user_id w = (inl e, w1) ->
        trace (snd (_create_database_records user_id w)) = (trace w1 ++ [DbEv Rollback])%list
        /\ match db_raises w Rollback with
           | None => _create_database_records user_id w
                     = (inr (Failure (str_exn e)),
                        set_pending (committed w1) (log (DbEv Rollback) w1))
           | Some e' => fst (_create_database_records user_id w) = inl e'
           end)
  /\ (forall w e w1,
        _delete_database_records_try user_id plugin_id w = (inl e, w1) ->
        trace (snd (_delete_database_records user_id plugin_id w))
          = (trace w1 ++ [DbEv Rollback])%list
        /\ match db_raises w Rollback with
           | None => _delete_database_records user_id plugin_id w
                     = (inr (Failure (str_exn e)),
                        set_pending (committed w1) (log (DbEv Rollback) w1))
           | Some e' => fst (_delete_database_records user_id plugin_id w) = inl e'
           end)
  /\ (forall w, db_raises w Rollback = None ->
        (exists r w', _create_database_records user_id w = (inr r, w'))
        /\ (exists r w', _delete_database_records user_id plugin_id w = (inr r, w'))).
Proof.
  assert (Hh : forall (A : Type) (m : M A) (f : exn -> A),
             returns (try_except m (fun e => mret (f e)))).
  { intros A m f. apply returns_try_except. intros e. apply returns_ret. }
  assert (Hrb : forall (m : M result) w e w1,
             preserves same_env m -> m w = (inl e, w1) ->
             let op := try_except m (fun e => db_rollback;; mret (Failure (str_exn e))) in
             trace (snd (op w)) = (trace w1 ++ [DbEv Rollback])%list
             /\ match db_raises w Rollback with
                | None => op w = (inr (Failure (str_exn e)),
                                  set_pending (committed w1) (log (DbEv Rollback) w1))
                | Some e' => fst (op w) = inl e'
                end).
  { intros m w e w1 Henv E op. subst op.
    rewrite (try_except_inl _ _ _ _ _ E), rollback_handler_run.
    pose proof (Henv w) as (Hdb & _). rewrite E in Hdb. simpl in Hdb. rewrite Hdb.
    destruct (db_raises w Rollback); simpl; auto. }
  split; [|split; [|split; [|split]]].
  - repeat split; try apply Hh.
    + apply uninstall_for_user_returns.
    + intros item copied_files. apply copy_item_returns.
  - intros w e w1.
    repeat split; intros E;
      unfold install_plugin, _perform_user_installation, _perform_user_uninstallation,
        _copy_plugin_files_impl, _validate_installation_impl, _get_plugin_health_impl,
        _check_existing_plugin;
      rewrite (try_except_inl _ _ _ _ _ E); reflexivity.
  - intros w e w1 E. apply Hrb; [apply create_database_records_try_env | exact E].
  - intros w e w1 E. apply Hrb; [apply delete_database_records_try_env | exact E].
  - intros w Hq. split.
    + unfold _create_database_records.
      destruct (_create_database_records_try user_id w) as [[e|r] w1] eqn:E.
      * destruct (Hrb _ _ _ _ (create_database_records_try_env user_id) E) as [_ Hr].
        rewrite Hq in Hr. rewrite Hr. eauto.
      * rewrite (try_except_inr _ _ _ _ _ E). eauto.
    + unfold _delete_database_records.
      destruct (_delete_database_records_try user_id plugin_id w) as [[e|r] w1] eqn:E.
      * destruct (Hrb _ _ _ _ (delete_database_records_try_env user_id plugin_id) E)
          as [_ Hr].
        rewrite Hq in Hr. rewrite Hr. eauto.
      * rewrite (try_except_inr _ _ _ _ _ E). eauto.
Qed.

End Boundary.

(** The claim C7 as it is stated fails for the file copy: the copy of the
    bundle raises inside the operation, and the operation reports success,
    without the bundle among the copied files. *)
Lemma copy_failure_is_swallowed :
  let w := with_env Demo.bundle_copy_fails Demo.quiet_db "2024-01-02 00:00:00" Demo.w0 in
  let target := shared_path Demo.manager in
  let call := Copy2 (Demo.plugin_dir ++ ["dist"; "remoteEntry.js"])%list
                    (target ++ ["dist"; "remoteEntry.js"])%list in
  let run := _copy_plugin_files_impl (H := Demo.host) "alice" target false w in
  fs_raises w call = Some (Exn OtherError "Permission denied")
  /\ In (FsEv call) (new_events w (snd run))
  /\ fst run = inr (CopyOk ["package.json"; "lifecycle_manager.py"])
  /\ ~ (exists error, fst run = inr (Failure error)).
Proof.
  split; [reflexivity|]. split; [vm_compute; tauto|]. split; [vm_compute; reflexivity|].
  intros [error E]. vm_compute in E. discriminate E.
Qed.

Lemma exceptions_stop_at_the_boundary_witness :
  let w := with_env Demo.quiet_fs Demo.delete_module_fails "2024-01-02 00:00:00" Demo.w1 in
  fst (_delete_database_records_try "alice" "alice_CollectionViewer" w)
    = inl (Exn OtherError "disk full")
  /\ fst (_delete_database_records "alice" "alice_CollectionViewer" w)
     = inr (Failure "disk full")
  /\ pending (snd (_delete_database_records "alice" "alice_CollectionViewer" w))
     = committed w.
Proof.
  intros w.
  assert (E : _delete_database_records_try "alice" "alice_CollectionViewer" w
              = (inl (Exn OtherError "disk full"),
                 snd (_delete_database_records_try "alice" "alice_CollectionViewer" w)))
    by (vm_compute; reflexivity).
  destruct (exceptions_stop_at_the_boundary (H := Demo.host) Demo.manager "alice"
              Demo.plugin_dir false "alice_CollectionViewer")
    as (_ & _ & _ & Hdelete & _).
  destruct (Hdelete w _ _ E) as [_ Hrun]. simpl in Hrun.
  split; [rewrite E; reflexivity|]. rewrite Hrun. split; reflexivity.
Defined.

(** ** What the two record operations do to the tables *)

#[global] Arguments new_plugin_row : simpl never.
#[global] Arguments new_module_row : simpl never.

Lemma existsb_filter_nil {A} (f : A -> bool) (l : list A) :
  existsb f l = false <-> List.filter f l = [].
Proof.
  induction l as [|x l IH]; simpl; [tauto|].
  destruct (f x); simpl; [split; discriminate | exact IH].
Qed.

Section Records.
Context `{Host}.

Lemma rollback_and_fail_facts (e : exn) (w1 : World) :
  let r := fst ((db_rollback;; mret (Failure (str_exn e))) w1) in
  let w' := snd ((db_rollback;; mret (Failure (str_exn e))) w1) in
  succeeded r = false
  /\ committed w' = committed w1
  /\ files w' = files w1
  /\ match db_raises w1 Rollback with
     | None => pending w' = committed w1
     | Some _ => pending w' = pending w1
     end.
Proof.
  cbv zeta. rewrite rollback_handler_run.
  destruct (db_raises w1 Rollback); simpl; auto.
Qed.

(** The suite of [_create_database_records] raises at its first statement,
    before any statement is sent to the database. *)
Lemma create_database_records_try_raises (user_id : string) (w : World) :
  _create_database_records_try user_id w
  = (inl (Exn AttributeError "type object 'datetime.datetime' has no attribute 'datetime'"),
     w).
Proof. reflexivity. Qed.

(** What a run of the suite can leave behind, stated for all the statements
    of the suite. *)
Lemma create_database_records_try_cases (user_id : string) (w : World) :
  let t1 := with_plugin_row user_id (clock w) (pending w) in
  let t2 := with_module_rows user_id (clock w) t1 in
  let r := fst (_create_database_records_try user_id w) in
  let w' := snd (_create_database_records_try user_id w) in
  files w' = files w /\ db_raises w' = db_raises w
  /\ ((r = inr (CreateOk (plugin_id_of user_id) (List.map (module_id_of user_id) module_data))
       /\ plugin_rows_of user_id (pending w) = []
       /\ pending w' = t2 /\ committed w' = t2)
      \/ ((exists e, r = inl e) /\ committed w' = committed w
          /\ (pending w' = pending w
              \/ (plugin_rows_of user_id (pending w) = []
                  /\ (pending w' = t1 \/ pending w' = t2))))).
Proof.
  rewrite create_database_records_try_raises. simpl.
  split; [reflexivity|]. split; [reflexivity|]. right. eauto.
Qed.

Lemma create_database_records_cases (user_id : string) (w : World) :
  let r := fst (_create_database_records user_id w) in
  let w' := snd (_create_database_records user_id w) in
  files w' = files w
  /\ ((r = inr (CreateOk (plugin_id_of user_id) (List.map (module_id_of user_id) module_data))
       /\ plugin_rows_of user_id (pending w) = []
       /\ pending w' = with_module_rows user_id (clock w)
                         (with_plugin_row user_id (clock w) (pending w))
       /\ committed w' = pending w')
      \/ (succeeded r = false /\ committed w' = committed w
          /\ match db_raises w Rollback with
             | None => pending w' = committed w
             | Some _ =>
                 pending w' = pending w
                 \/ (plugin_rows_of user_id (pending w) = []
                     /\ (pending w' = with_plugin_row user_id (clock w) (pending w)
                         \/ pending w' = with_module_rows user_id (clock w)
                                           (with_plugin_row user_id (clock w) (pending w))))
             end)).
Proof.
  intros r w'. subst r w'.
  destruct (create_database_records_try_cases user_id w) as (Hf & Hdb & Hc).
  unfold _create_database_records, try_except.
  destruct (_create_database_records_try user_id w) as [[e|res] wb]; simpl in Hf, Hdb, Hc.
  - destruct Hc as [(Habs & _) | (_ & Hcm & Hp)]; [discriminate Habs|].
    destruct (rollback_and_fail_facts e wb) as (Hs & Hcm' & Hf' & Hp').
    rewrite Hdb in Hp'.
    split; [congruence|]. right. split; [exact Hs|]. split; [congruence|].
    destruct (db_raises w Rollback); [|congruence].
    rewrite Hp'. exact Hp.
  - destruct Hc as [(Er & Hrows & Hp & Hcm) | ((e & Habs) & _)]; [|discriminate Habs].
    simpl. split; [exact Hf|]. left. repeat split; congruence.
Qed.

(** The suite of [_delete_database_records]. *)
Lemma delete_database_records_try_cases (user_id plugin_id : string) (w : World) :
  let t1 := without_module_rows plugin_id user_id (pending w) in
  let t2 := without_plugin_rows plugin_id user_id t1 in
  let r := fst (_delete_database_records_try user_id plugin_id w) in
  let w' := snd (_delete_database_records_try user_id plugin_id w) in
  files w' = files w /\ db_raises w' = db_raises w
  /\ (((exists n, r = inr (DeleteOk n)) /\ pending w' = t2 /\ committed w' = t2)
      \/ (r = inr (Failure "Plugin not found") /\ db_raises w Rollback = None
          /\ committed w' = committed w /\ pending w' = committed w)
      \/ ((exists e, r = inl e) /\ committed w' = committed w
          /\ (pending w' = pending w \/ pending w' = t1 \/ pending w' = t2))).
Proof.
  unfold _delete_database_records_try. unfold_M.
  unfold bind, db_delete_module, db_delete_plugin, db_commit, db_rollback,
    db_prim, delete_module, delete_plugin_rows.
  destruct (db_raises w (DeleteModule plugin_id user_id)) as [e|] eqn:E1.
  { simpl. repeat split. right. right. repeat split; eauto. }
  simpl.
  destruct (db_raises w (DeletePlugin plugin_id user_id)) as [e|] eqn:E2.
  { simpl. repeat split. right. right. split; [eauto|]. split; [reflexivity|].
    right. left. reflexivity. }
  simpl.
  destruct (length _ =? 0)%nat.
  - destruct (db_raises w Rollback) as [e|] eqn:E3; simpl; rewrite E3; simpl.
    + repeat split. right. right. split; [eauto|]. split; [reflexivity|].
      right. right. reflexivity.
    + repeat split. right. left. repeat split.
  - destruct (db_raises w Commit) as [e|] eqn:E3; simpl; rewrite E3; simpl.
    + repeat split. right. right. split; [eauto|]. split; [reflexivity|].
      right. right. reflexivity.
    + repeat split. left. repeat split. eauto.
Qed.

Lemma delete_database_records_cases (user_id plugin_id : string) (w : World) :
  let t1 := without_module_rows plugin_id user_id (pending w) in
  let t2 := without_plugin_rows plugin_id user_id t1 in
  let r := fst (_delete_database_records user_id plugin_id w) in
  let w' := snd (_delete_database_records user_id plugin_id w) in
  files w' = files w
  /\ (((exists n, r = inr (DeleteOk n)) /\ pending w' = t2 /\ committed w' = t2)
      \/ (succeeded r = false /\ committed w' = committed w
          /\ match db_raises w Rollback with
             | None => pending w' = committed w
             | Some _ => pending w' = pending w \/ pending w' = t1 \/ pending w' = t2
             end)).
Proof.
  intros t1 t2 r w'. subst r w'.
  destruct (delete_database_records_try_cases user_id plugin_id w) as (Hf & Hdb & Hc).
  fold t1 t2 in Hc.
  unfold _delete_database_records, try_except.
  destruct (_delete_database_records_try user_id plugin_id w) as [[e|res] wb];
    simpl in Hf, Hdb, Hc.
  - destruct Hc as [((n & Habs) & _) | [(Habs & _) | (_ & Hcm & Hp)]];
      [discriminate Habs | discriminate Habs |].
    destruct (rollback_and_fail_facts e wb) as (Hs & Hcm' & Hf' & Hp').
    rewrite Hdb in Hp'.
    split; [congruence|]. right. split; [exact Hs|]. split; [congruence|].
    destruct (db_raises w Rollback); [|congruence].
    rewrite Hp'. exact Hp.
  - simpl. split; [exact Hf|].
    destruct Hc as [((n & Er) & Hp & Hcm) | [(Er & Hrb & Hcm & Hp) | ((e & Habs) & _)]];
      [| |discriminate Habs].
    + left. eauto.
    + right. injection Er as ->. split; [reflexivity|]. split; [exact Hcm|].
      rewrite Hrb. exact Hp.
Qed.

Lemma same_db_refl (w : World) : same_db w w.
Proof. repeat split. Qed.

Lemma same_db_trans (a b c : World) : same_db a b -> same_db b c -> same_db a c.
Proof.
  unfold same_db, same_tables, same_env.
  intros ((?&?)&?&?&?) ((?&?)&?&?&?). repeat split; congruence.
Qed.

Lemma same_db_fs {A} (c : fs_call) (sem : gmap path node -> (exn + A) * gmap path node) :
  preserves same_db (fs_prim c sem).
Proof. apply preserves_fs_prim. intros w f. repeat split. Qed.

Lemma copy_plugin_files_same_db (user_id : string) (target_dir : path) (update : bool) :
  preserves same_db (_copy_plugin_files_impl user_id target_dir update).
Proof.
  unfold _copy_plugin_files_impl, _copy_plugin_files_impl_try, copy_item.
  preserves_tac same_db_refl same_db_trans; apply same_db_fs.
Qed.

Lemma perform_user_installation_run (user_id : string) (d : path) (w : World) :
  _perform_user_installation user_id d w =
  (inr match fst (_create_database_records user_id w) with
       | inr (CreateOk plugin_id modules_created) =>
           InstallOk plugin_id slug (pd_name plugin_data) modules_created
       | inr r => r
       | inl e => Failure (str_exn e)
       end,
   snd (_create_database_records user_id w)).
Proof.
  unfold _perform_user_installation, _perform_user_installation_try, try_except, bind.
  destruct (_create_database_records user_id w) as [[e|r] w']; [reflexivity|].
  destruct r; reflexivity.
Qed.

(** [install_plugin] either fails without touching the tables, or comes down
    to [_create_database_records], run after the files were dealt with. *)
Lemma install_plugin_cases (self : Manager) (user_id : string) (w : World) :
  let r := fst (install_plugin self user_id w) in
  let w' := snd (install_plugin self user_id w) in
  (success_of r = false /\ same_db w w')
  \/ (exists w2 copy_result w3,
        _copy_plugin_files_impl user_id (shared_path self) false w2 = (inr copy_result, w3)
        /\ success copy_result = true
        /\ same_db w w3
        /\ w' = snd (_create_database_records user_id w3)
        /\ success_of r = succeeded (fst (_create_database_records user_id w3))).
Proof.
  intros r w'. subst r w'.
  destruct (install_plugin self user_id w) as [r w'] eqn:E. simpl.
  unfold install_plugin, install_plugin_try, try_except in E. unfold_M.
  rewrite (bind_inr _ _ _ _ _ (check_existing_plugin_run user_id w)) in E.
  set (w1 := log _ w) in E.
  assert (H1 : same_db w w1) by (repeat split).
  destruct (exists_ _); [injection E as <- <-; left; simpl; auto|].
  pose proof (same_db_fs (Mkdir (shared_path self)) (mkdir_parents (shared_path self)) w1)
    as H2.
  fold (path_mkdir (shared_path self)) in H2. unfold bind at 1 in E.
  destruct (path_mkdir (shared_path self) w1) as [[e|[]] w2]; simpl in H2.
  { injection E as <- <-. left. simpl. split; [reflexivity|].
    exact (same_db_trans _ _ _ H1 H2). }
  pose proof (copy_plugin_files_same_db user_id (shared_path self) false w2) as H3.
  destruct (copy_plugin_files_returns user_id (shared_path self) false w2)
    as (cr & w3 & Ecp).
  rewrite Ecp in H3. simpl in H3. unfold bind at 1 in E. rewrite Ecp in E.
  assert (H13 : same_db w w3)
    by exact (same_db_trans _ _ _ H1 (same_db_trans _ _ _ H2 H3)).
  destruct (success cr) eqn:Es; cbn [negb] in E;
    [|injection E as <- <-; left; simpl; auto].
  unfold install_for_user in E.
  destruct (bool_decide _); [injection E as <- <-; left; simpl; auto|].
  unfold_M. rewrite (bind_inr _ _ _ _ _ (perform_user_installation_run _ _ w3)) in E.
  right. exists w2, cr, w3. split; [exact Ecp|]. split; [exact Es|]. split; [exact H13|].
  destruct (_create_database_records user_id w3) as [[e|cres] w4]; simpl in E |- *.
  - injection E as <- <-. auto.
  - destruct cres; simpl in E; injection E as <- <-; auto.
Qed.

(** [delete_plugin] either fails without touching the tables, or comes down
    to [_delete_database_records] for the identifier of the row found. *)
Lemma delete_plugin_cases (self : Manager) (user_id : string) (w : World) :
  let r := fst (delete_plugin self user_id w) in
  let w' := snd (delete_plugin self user_id w) in
  (success_of r = false /\ same_db w w')
  \/ (exists row w1, same_db w w1
        /\ head (plugin_rows_of user_id (pending w)) = Some row
        /\ w' = snd (_delete_database_records user_id (p_id row) w1)
        /\ success_of r = succeeded (fst (_delete_database_records user_id (p_id row) w1))).
Proof.
  intros r w'. subst r w'.
  destruct (delete_plugin self user_id w) as [r w'] eqn:E. simpl.
  unfold delete_plugin, uninstall_for_user in E.
  destruct (negb _); [injection E as <- <-; left; simpl; split; [reflexivity|apply same_db_refl]|].
  unfold_M. unfold bind at 1 in E.
  unfold _perform_user_uninstallation, _perform_user_uninstallation_try in E.
  unfold_M. unfold try_except at 1 in E.
  rewrite (bind_inr _ _ _ _ _ (check_existing_plugin_run user_id w)) in E.
  set (w1 := log _ w) in E.
  assert (H1 : same_db w w1) by (repeat split).
  destruct (db_raises w (SelectPlugin user_id slug));
    [simpl in E; injection E as <- <-; left; simpl; auto|].
  destruct (head (plugin_rows_of user_id (pending w))) as [row|] eqn:Erow;
    [|simpl in E; injection E as <- <-; left; simpl; auto].
  cbn [check_found exists_ found_plugin_id] in E.
  right. exists row, w1. split; [exact H1|]. split; [reflexivity|].
  unfold bind at 1 in E.
  destruct (_delete_database_records user_id (p_id row) w1) as [[e|dres] w2]; simpl in E |- *.
  - injection E as <- <-. auto.
  - destruct dres; simpl in E; injection E as <- <-; auto.
Qed.

End Records.

(** ** The tables stay consistent *)

Lemma filter_filter_keep {A} (f g : A -> bool) (l : list A) :
  (forall x, In x l -> f x = true -> g x = true) ->
  List.filter f (List.filter g l) = List.filter f l.
Proof.
  induction l as [|x l IH]; intros Hfg; simpl; [reflexivity|].
  destruct (g x) eqn:Eg; simpl.
  - rewrite IH; [reflexivity|]. intros y Hy. apply Hfg. right. exact Hy.
  - destruct (f x) eqn:Ef.
    + rewrite (Hfg x (or_introl eq_refl) Ef) in Eg. discriminate Eg.
    + apply IH. intros y Hy. apply Hfg. right. exact Hy.
Qed.

Lemma filter_filter_none {A} (f g : A -> bool) (l : list A) :
  (forall x, In x l -> f x = true -> g x = false) ->
  List.filter f (List.filter g l) = [].
Proof.
  induction l as [|x l IH]; intros Hfg; simpl; [reflexivity|].
  destruct (g x) eqn:Eg; simpl.
  - destruct (f x) eqn:Ef.
    + rewrite (Hfg x (or_introl eq_refl) Ef) in Eg. discriminate Eg.
    + apply IH. intros y Hy. apply Hfg. right. exact Hy.
  - apply IH. intros y Hy. apply Hfg. right. exact Hy.
Qed.

Lemma filter_length_le {A} (f g : A -> bool) (l : list A) :
  (length (List.filter f (List.filter g l)) <= length (List.filter f l))%nat.
Proof.
  induction l as [|x l IH]; simpl; [lia|].
  destruct (g x); simpl; destruct (f x); simpl; lia.
Qed.

Lemma filter_filter_nonempty {A} (f g : A -> bool) (l : list A) :
  List.filter f (List.filter g l) <> [] -> List.filter f l <> [].
Proof.
  intros Hne E. pose proof (filter_length_le f g l) as Hle.
  rewrite E in Hle. destruct (List.filter f (List.filter g l)); [congruence|simpl in Hle; lia].
Qed.

Section Consistency.
Context `{Host}.

Lemma plugin_matches_new (user_id u now : string) :
  plugin_matches u slug (new_plugin_row (plugin_id_of user_id) user_id now)
  = String.eqb user_id u.
Proof. unfold plugin_matches. cbn. apply andb_true_r. Qed.

Lemma module_matches_new (user_id u now module_id : string) (md : ModuleData) :
  module_matches (plugin_id_of u) u
    (new_module_row module_id (plugin_id_of user_id) user_id now md)
  = String.eqb user_id u.
Proof.
  unfold module_matches.
  change (m_plugin_id (new_module_row module_id (plugin_id_of user_id) user_id now md))
    with (plugin_id_of user_id).
  change (m_user_id (new_module_row module_id (plugin_id_of user_id) user_id now md))
    with user_id.
  destruct (String.eqb_spec user_id u) as [->|Hne].
  - rewrite String.eqb_refl. reflexivity.
  - apply andb_false_r.
Qed.

Lemma plugin_rows_with_plugin_row (user_id u now : string) (t : tables) :
  plugin_rows_of u (with_plugin_row user_id now t)
  = (plugin_rows_of u t
     ++ if String.eqb user_id u
        then [new_plugin_row (plugin_id_of user_id) user_id now] else [])%list.
Proof.
  unfold plugin_rows_of, with_plugin_row. simpl plugin.
  rewrite List.filter_app. simpl. rewrite plugin_matches_new. reflexivity.
Qed.

Lemma module_rows_with_module_rows (user_id u now : string) (t : tables) :
  module_rows_of u (with_module_rows user_id now t)
  = (module_rows_of u t
     ++ if String.eqb user_id u
        then List.map (fun md => new_module_row (module_id_of user_id md)
                                   (plugin_id_of user_id) user_id now md) module_data
        else [])%list.
Proof.
  unfold module_rows_of, with_module_rows. simpl module.
  rewrite List.filter_app. f_equal. unfold module_data. simpl List.map. simpl List.filter.
  rewrite module_matches_new. reflexivity.
Qed.

Lemma never_installed_inv (t : tables) : never_installed t -> db_inv t.
Proof.
  intros [Hp Hm]. split.
  - intros r Hr Hslug. exfalso.
    assert (Hin : In r (plugin_rows_of (p_user_id r) t)).
    { apply List.filter_In. split; [exact Hr|]. unfold plugin_matches.
      rewrite Hslug, !String.eqb_refl. reflexivity. }
    rewrite Hp in Hin. exact Hin.
  - intros u Hne. rewrite Hm in Hne. congruence.
  - intros u. rewrite Hp. simpl. lia.
  - intros u. rewrite Hm. simpl. lia.
Qed.

Lemma module_rows_nil (t : tables) (u : string) :
  db_inv t -> plugin_rows_of u t = [] -> module_rows_of u t = [].
Proof.
  intros Hinv Hp. destruct (module_rows_of u t) eqn:E; [reflexivity|].
  exfalso. apply (inv_module_parent t Hinv u); [rewrite E; discriminate | exact Hp].
Qed.

Lemma with_plugin_row_inv (user_id now : string) (t : tables) :
  db_inv t -> plugin_rows_of user_id t = [] -> db_inv (with_plugin_row user_id now t).
Proof.
  intros Hinv Hp. split.
  - intros r Hr Hslug. simpl in Hr. apply List.in_app_or in Hr as [Hr|[<-|[]]].
    + apply (inv_plugin_id t Hinv r Hr Hslug).
    + reflexivity.
  - intros u Hne. rewrite plugin_rows_with_plugin_row.
    intros E. apply List.app_eq_nil in E as [E _].
    apply (inv_module_parent t Hinv u Hne E).
  - intros u. rewrite plugin_rows_with_plugin_row, length_app.
    pose proof (inv_plugin_unique t Hinv u).
    destruct (String.eqb_spec user_id u) as [Eu|Hneq]; [subst u|]; simpl; [rewrite Hp; simpl|]; lia.
  - intros u. apply (inv_module_unique t Hinv u).
Qed.

Lemma with_module_rows_inv (user_id now : string) (t : tables) :
  db_inv t -> plugin_rows_of user_id t = [] ->
  db_inv (with_module_rows user_id now (with_plugin_row user_id now t)).
Proof.
  intros Hinv Hp. pose proof (with_plugin_row_inv user_id now t Hinv Hp) as Hinv1.
  split.
  - intros r Hr Hslug. apply (inv_plugin_id _ Hinv1 r Hr Hslug).
  - intros u Hne.
    change (plugin_rows_of u (with_module_rows user_id now (with_plugin_row user_id now t)))
      with (plugin_rows_of u (with_plugin_row user_id now t)).
    rewrite plugin_rows_with_plugin_row.
    rewrite module_rows_with_module_rows in Hne.
    destruct (String.eqb_spec user_id u) as [Eu|Hneq]; [subst u|].
    + intros E. apply List.app_eq_nil in E as [_ E]. discriminate E.
    + rewrite app_nil_r in *. apply (inv_module_parent t Hinv u Hne).
  - intros u. apply (inv_plugin_unique _ Hinv1 u).
  - intros u. rewrite module_rows_with_module_rows, length_app.
    change (module_rows_of u (with_plugin_row user_id now t)) with (module_rows_of u t).
    pose proof (inv_module_unique t Hinv u).
    destruct (String.eqb_spec user_id u) as [Eu|Hneq]; [subst u|]; simpl; [|lia].
    rewrite (module_rows_nil t user_id Hinv Hp). simpl. lia.
Qed.

Lemma without_module_rows_inv (plugin_id user_id : string) (t : tables) :
  db_inv t -> db_inv (without_module_rows plugin_id user_id t).
Proof.
  intros Hinv. split.
  - intros r Hr Hslug. apply (inv_plugin_id t Hinv r Hr Hslug).
  - intros u Hne. apply (inv_module_parent t Hinv u).
    unfold module_rows_of, without_module_rows in Hne. simpl in Hne.
    eapply filter_filter_nonempty. exact Hne.
  - intros u. apply (inv_plugin_unique t Hinv u).
  - intros u. unfold module_rows_of, without_module_rows. simpl.
    etransitivity; [apply filter_length_le|]. apply (inv_module_unique t Hinv u).
Qed.

Lemma plugin_rows_without (user_id u : string) (t : tables) :
  db_inv t ->
  plugin_rows_of u (without_plugin_rows (plugin_id_of user_id) user_id t)
  = if String.eqb user_id u then [] else plugin_rows_of u t.
Proof.
  intros Hinv. unfold plugin_rows_of, without_plugin_rows. simpl plugin.
  destruct (String.eqb_spec user_id u) as [Eu|Hneq]; [subst u|].
  - apply filter_filter_none. intros r Hr Hm.
    unfold plugin_matches in Hm. apply andb_true_iff in Hm as [Hu Hs].
    apply String.eqb_eq in Hu, Hs.
    unfold plugin_id_matches.
    rewrite (inv_plugin_id t Hinv r Hr Hs), Hu, !String.eqb_refl. reflexivity.
  - apply filter_filter_keep. intros r Hr Hm.
    unfold plugin_matches in Hm. apply andb_true_iff in Hm as [Hu Hs].
    apply String.eqb_eq in Hu. unfold plugin_id_matches. rewrite Hu.
    destruct (String.eqb_spec u user_id); [congruence|].
    rewrite andb_false_r. reflexivity.
Qed.

Lemma module_rows_without (user_id u : string) (t : tables) :
  module_rows_of u (without_module_rows (plugin_id_of user_id) user_id t)
  = if String.eqb user_id u then [] else module_rows_of u t.
Proof.
  unfold module_rows_of, without_module_rows. simpl module.
  destruct (String.eqb_spec user_id u) as [Eu|Hneq]; [subst u|].
  - apply filter_filter_none. intros r Hr Hm. rewrite Hm. reflexivity.
  - apply filter_filter_keep. intros r Hr Hm.
    unfold module_matches in *. apply andb_true_iff in Hm as [_ Hu].
    apply String.eqb_eq in Hu. rewrite Hu.
    destruct (String.eqb_spec u user_id); [congruence|].
    rewrite andb_false_r. reflexivity.
Qed.

Lemma without_rows_inv (user_id : string) (t : tables) :
  db_inv t ->
  db_inv (without_plugin_rows (plugin_id_of user_id) user_id
            (without_module_rows (plugin_id_of user_id) user_id t)).
Proof.
  intros Hinv.
  pose proof (without_module_rows_inv (plugin_id_of user_id) user_id t Hinv) as Hinv1.
  split.
  - intros r Hr Hslug. simpl in Hr. apply List.filter_In in Hr as [Hr _].
    apply (inv_plugin_id t Hinv r Hr Hslug).
  - intros u.
    change (module_rows_of u (without_plugin_rows (plugin_id_of user_id) user_id
              (without_module_rows (plugin_id_of user_id) user_id t)))
      with (module_rows_of u (without_module_rows (plugin_id_of user_id) user_id t)).
    rewrite (plugin_rows_without user_id u _ Hinv1), module_rows_without.
    destruct (String.eqb user_id u); [congruence|].
    apply (inv_module_parent t Hinv u).
  - intros u. rewrite (plugin_rows_without user_id u _ Hinv1).
    destruct (String.eqb user_id u); [simpl; lia|].
    apply (inv_plugin_unique t Hinv u).
  - intros u. apply (inv_module_unique _ Hinv1 u).
Qed.

End Consistency.

(** ** Invariants of the reachable states *)

Section Reachable.
Context `{Host}.

Lemma same_db_inv (w w' : World) : same_db w w' -> world_inv w -> world_inv w'.
Proof. intros [[Hp Hc] _] [H1 H2]. split; congruence. Qed.

Lemma create_database_records_inv (user_id : string) (w : World) :
  world_inv w -> world_inv (snd (_create_database_records user_id w)).
Proof.
  intros [Hp Hc].
  destruct (create_database_records_cases user_id w) as (_ & [(_ & Hrows & Ep & Ec) | (_ & Ec & Ep)]).
  - split; rewrite ?Ec, Ep; apply with_module_rows_inv; assumption.
  - split; [|rewrite Ec; exact Hc].
    destruct (db_raises w Rollback).
    + destruct Ep as [->|(Hrows & [->| ->])];
        [exact Hp | apply with_plugin_row_inv | apply with_module_rows_inv]; assumption.
    + rewrite Ep. exact Hc.
Qed.

Lemma delete_database_records_inv (user_id : string) (w : World) :
  world_inv w -> world_inv (snd (_delete_database_records user_id (plugin_id_of user_id) w)).
Proof.
  intros [Hp Hc].
  destruct (delete_database_records_cases user_id (plugin_id_of user_id) w)
    as (_ & [(_ & Ep & Ec) | (_ & Ec & Ep)]).
  - split; rewrite ?Ec, ?Ep; apply without_rows_inv; assumption.
  - split; [|rewrite Ec; exact Hc].
    destruct (db_raises w Rollback).
    + destruct Ep as [->|[->| ->]];
        [exact Hp | apply without_module_rows_inv | apply without_rows_inv]; assumption.
    + rewrite Ep. exact Hc.
Qed.

(** The row the duplicate check finds carries the identifier of the user. *)
Lemma found_row_id (user_id : string) (t : tables) (row : plugin_row) :
  db_inv t -> head (plugin_rows_of user_id t) = Some row ->
  p_id row = plugin_id_of user_id.
Proof.
  intros Hinv Hhead.
  assert (Hin : In row (plugin_rows_of user_id t)).
  { destruct (plugin_rows_of user_id t); [discriminate Hhead|].
    injection Hhead as ->. left. reflexivity. }
  apply List.filter_In in Hin as [Hin Hm].
  unfold plugin_matches in Hm. apply andb_true_iff in Hm as [Hu Hs].
  apply String.eqb_eq in Hu, Hs.
  rewrite (inv_plugin_id t Hinv row Hin Hs), Hu. reflexivity.
Qed.

Lemma install_plugin_inv (self : Manager) (user_id : string) (w : World) :
  world_inv w -> world_inv (snd (install_plugin self user_id w)).
Proof.
  intros Hinv.
  destruct (install_plugin_cases self user_id w)
    as [(_ & Hs) | (w2 & cr & w3 & _ & _ & Hs & -> & _)].
  - exact (same_db_inv _ _ Hs Hinv).
  - apply create_database_records_inv. exact (same_db_inv _ _ Hs Hinv).
Qed.

Lemma delete_plugin_inv (self : Manager) (user_id : string) (w : World) :
  world_inv w -> world_inv (snd (delete_plugin self user_id w)).
Proof.
  intros Hinv.
  destruct (delete_plugin_cases self user_id w) as [(_ & Hs) | (row & w1 & Hs & Hrow & -> & _)].
  - exact (same_db_inv _ _ Hs Hinv).
  - rewrite (found_row_id user_id (pending w) row (proj1 Hinv) Hrow).
    apply delete_database_records_inv. exact (same_db_inv _ _ Hs Hinv).
Qed.

Lemma reachable_when_inv ok (w : World) : reachable_when ok w -> world_inv w.
Proof.
  induction 1 as [w [Epc Hnever] | self user_id fr dr now w _ IH _ | self user_id fr dr now w _ IH _].
  - split; [rewrite Epc|]; apply never_installed_inv, Hnever.
  - apply install_plugin_inv. exact IH.
  - apply delete_plugin_inv. exact IH.
Qed.

End Reachable.

Lemma demo_initial : initial Demo.w0.
Proof. split; [reflexivity|]. split; intros u; reflexivity. Qed.

(** ** The filesystem primitives *)

Lemma below_iff (d q : path) :
  below d q = true <-> exists r, r <> [] /\ q = (d ++ r)%list.
Proof.
  split.
  - intros Hb. apply below_inv in Hb as [E Hr]. eauto.
  - intros (r & Hr & ->). apply below_app, Hr.
Qed.

Lemma below_prefix (d q : path) : below d q = true -> d `prefix_of` q.
Proof. intros Hb. apply below_iff in Hb as (r & _ & ->). exists r. reflexivity. Qed.

Lemma in_prefixes (p q : path) : In q (prefixes p) <-> q <> [] /\ q `prefix_of` p.
Proof.
  unfold prefixes. rewrite List.in_map_iff. split.
  - intros (n & <- & Hn). apply List.in_seq in Hn. split.
    + intros E. apply (f_equal length) in E. rewrite length_take in E. simpl in E. lia.
    + apply prefix_take.
  - intros (Hq & k & ->). exists (length q). split.
    + apply take_app_length.
    + apply List.in_seq. rewrite length_app. destruct q; [congruence|]. simpl. lia.
Qed.

Lemma parent_app (d r : path) : r <> [] -> parent (d ++ r)%list = (d ++ parent r)%list.
Proof. intros Hr. unfold parent. apply removelast_app, Hr. Qed.

Lemma parent_prefix (p : path) : parent p `prefix_of` p.
Proof.
  unfold parent. destruct p as [|x p] using rev_ind; [apply prefix_nil|].
  rewrite removelast_last. exists [x]. reflexivity.
Qed.

Lemma parent_neq (p : path) : p <> [] -> parent p <> p.
Proof.
  unfold parent. destruct p as [|x p] using rev_ind; [congruence|].
  intros _. rewrite removelast_last. intros E.
  apply (f_equal length) in E. rewrite length_app in E. simpl in E. lia.
Qed.

Lemma node_at_lookup (f : gmap path node) (p : path) : p <> [] -> node_at f p = f !! p.
Proof. destruct p; [congruence|reflexivity]. Qed.

(** The loop of [mkdir_parents] only adds directories, on the way to [p]. *)
Lemma mkdir_fold_spec (qs : list path) (f : gmap path node) :
  let g := fold_left (fun g q => match g !! q with None => <[q := Dir]> g | Some _ => g end)
                     qs f in
  f ⊆ g
  /\ (forall q x, g !! q = Some x -> f !! q = Some x \/ (x = Dir /\ In q qs))
  /\ (forall q, In q qs -> is_Some (g !! q)).
Proof.
  revert f. induction qs as [|q0 qs IH]; intros f; simpl.
  - split; [reflexivity|]. split; [auto|]. intros q [].
  - set (f1 := match f !! q0 with None => <[q0 := Dir]> f | Some _ => f end).
    assert (H01 : f ⊆ f1).
    { unfold f1. destruct (f !! q0) eqn:E; [reflexivity|]. apply insert_subseteq, E. }
    assert (Hnew : forall q x, f1 !! q = Some x -> f !! q = Some x \/ (x = Dir /\ q = q0)).
    { unfold f1. intros q x. destruct (f !! q0) eqn:E; [auto|].
      rewrite lookup_insert. case_decide; [|auto]. intros [= <-]. auto. }
    assert (Hq0 : is_Some (f1 !! q0)).
    { unfold f1. destruct (f !! q0) eqn:E; [rewrite E; eauto|].
      rewrite lookup_insert_eq. eauto. }
    destruct (IH f1) as (Hsub & Hg & Hin). split; [etransitivity; eassumption|]. split.
    + intros q x Hq. destruct (Hg q x Hq) as [Hq1 | [-> Hq1]]; [|auto].
      destruct (Hnew q x Hq1) as [?|[-> ->]]; auto.
    + intros q [<-|Hq]; [|apply Hin, Hq].
      destruct Hq0 as [x Hx]. exists x. eapply lookup_weaken; eassumption.
Qed.

Lemma mkdir_parents_spec (p : path) (f : gmap path node) :
  (forall q c, q `prefix_of` p -> f !! q <> Some (File c)) ->
  exists g, mkdir_parents p f = (inr tt, g)
    /\ f ⊆ g
    /\ (forall q x, g !! q = Some x ->
          f !! q = Some x \/ (x = Dir /\ q <> [] /\ q `prefix_of` p))
    /\ is_dir_at g p = true.
Proof.
  intros Hnf.
  assert (Hnf' : forall q, q `prefix_of` p -> is_file_at f q = false).
  { intros q Hq. unfold is_file_at. destruct q as [|x q]; [reflexivity|].
    change (node_at f (x :: q)) with (f !! (x :: q)).
    destruct (f !! (x :: q)) as [[c|]|] eqn:E; try reflexivity.
    exfalso. exact (Hnf _ _ Hq E). }
  unfold mkdir_parents. rewrite (Hnf' p) by reflexivity.
  assert (Hex : existsb (is_file_at f) (prefixes p) = false).
  { apply not_true_is_false. intros Hex. apply List.existsb_exists in Hex as (q & Hq & Hf).
    apply in_prefixes in Hq as [_ Hq]. rewrite (Hnf' q Hq) in Hf. discriminate Hf. }
  rewrite Hex.
  destruct (mkdir_fold_spec (prefixes p) f) as (Hsub & Hg & Hin).
  set (g := fold_left _ (prefixes p) f) in *.
  exists g. split; [reflexivity|]. split; [exact Hsub|]. split.
  - intros q x Hq. destruct (Hg q x Hq) as [?|[-> Hq']]; [auto|].
    apply in_prefixes in Hq'. auto.
  - unfold is_dir_at. destruct (decide (p = [])) as [->|Hp]; [reflexivity|].
    rewrite (node_at_lookup g p Hp).
    assert (Hpp : In p (prefixes p)) by (apply in_prefixes; split; [exact Hp|reflexivity]).
    destruct (Hin _ Hpp) as [nd Hnd]. rewrite Hnd.
    destruct nd as [c|]; [|reflexivity].
    destruct (Hg _ _ Hnd) as [Hf|[Habs _]]; [|discriminate Habs].
    exfalso. apply (Hnf p c); [reflexivity | exact Hf].
Qed.

Lemma copy2_spec (src dst : path) (c : string) (f : gmap path node) :
  f !! src = Some (File c) -> src <> [] -> dst <> [] ->
  f !! dst = None -> is_dir_at f (parent dst) = true ->
  copy2 src dst f = (inr tt, <[dst := File c]> f).
Proof.
  intros Hsrc Hs Hd Hdst Hpar. unfold copy2, copy2_target.
  assert (Hnd : is_dir_at f dst = false).
  { unfold is_dir_at. rewrite (node_at_lookup f dst Hd), Hdst. reflexivity. }
  rewrite Hnd, (node_at_lookup f src Hs), Hsrc, Hnd, Hpar.
  rewrite bool_decide_eq_false_2; [reflexivity|]. intros ->. congruence.
Qed.

(** ** The copy loop *)

Lemma prefix_app_cases (d r q : path) :
  q `prefix_of` (d ++ r)%list ->
  q `prefix_of` d \/ exists k, k <> [] /\ q = (d ++ k)%list /\ k `prefix_of` r.
Proof.
  intros Hq.
  destruct (prefix_weak_total q d (d ++ r)%list Hq) as [Hqd | [k ->]];
    [exists r; reflexivity | auto |].
  destruct k as [|x k].
  - left. rewrite app_nil_r. reflexivity.
  - right. exists (x :: k). split; [discriminate|]. split; [reflexivity|].
    eapply prefix_app_inv. exact Hq.
Qed.

Lemma lookup_some_none (f : gmap path node) (q : path) (x : node) :
  f !! q = Some x -> f !! q = None -> False.
Proof. intros E1 E2. rewrite E1 in E2. discriminate E2. Qed.

Section CopyLoop.
Context `{Host}.
Variables (target_dir : path) (f0 : gmap path node).
Hypothesis Hwf : wf_fs f0.
Hypothesis Hfresh : nothing_below target_dir f0.
Hypothesis Hway : no_file_on_the_way target_dir f0.

Let inv := copy_inv file_dir target_dir f0.

(** A source entry below a source file does not exist. *)
Lemma nothing_below_source_file (rel k : path) (c : string) :
  f0 !! (file_dir ++ rel)%list = Some (File c) -> k <> [] ->
  f0 !! (file_dir ++ rel ++ k)%list = None.
Proof.
  intros Hf Hk. apply (Hwf _ c _ Hf). rewrite app_assoc. apply below_app, Hk.
Qed.

(** No regular file lies on the way to the target of a source entry that
    has not been copied. *)
Lemma no_file_towards_target (processed : list path) (acc : list string)
    (f : gmap path node) (rel q : path) (c : string) :
  inv processed acc f ->
  f0 !! (file_dir ++ rel)%list <> None ->
  (~ In (file_dir ++ rel)%list processed \/ rel = ["lifecycle_manager.py"]
   \/ f0 !! (file_dir ++ rel)%list = Some Dir) ->
  q `prefix_of` (target_dir ++ rel)%list ->
  f !! q <> Some (File c).
Proof.
  intros Hinv Hsrc Hnew Hq Hf.
  destruct (ci_files _ _ _ _ _ _ Hinv q c Hf)
    as [Hf0 | (item & Hitem & Hbelow & Hnlm & -> & Hitem0 & _)].
  - destruct (prefix_app_cases _ _ _ Hq) as [Hqd | (k & Hk & -> & _)].
    + exact (Hway q c Hqd Hf0).
    + exact (lookup_some_none _ _ _ Hf0 (Hfresh _ (below_app target_dir k Hk))).
  - apply below_inv in Hbelow as [Eitem _].
    apply prefix_app_inv in Hq as [k Ek].
    destruct k as [|x k].
    + rewrite app_nil_r in Ek. subst rel. rewrite <- Eitem in *.
      destruct Hnew as [Hnew | [Hnew | Hnew]].
      * exact (Hnew Hitem).
      * apply Hnlm. rewrite Eitem, Hnew. reflexivity.
      * rewrite Hnew in Hitem0. discriminate Hitem0.
    + apply Hsrc. subst rel. rewrite Eitem in Hitem0.
      exact (nothing_below_source_file _ (x :: k) c Hitem0 ltac:(discriminate)).
Qed.

(** The target of a source file is not a directory. *)
Lemma target_not_dir (processed : list path) (acc : list string)
    (f : gmap path node) (rel : path) (c : string) :
  inv processed acc f -> rel <> [] ->
  f0 !! (file_dir ++ rel)%list = Some (File c) ->
  f !! (target_dir ++ rel)%list <> Some Dir.
Proof.
  intros Hinv Hrel Hsrc Hd.
  destruct (ci_dirs _ _ _ _ _ _ Hinv _ Hd) as [Hd0 | (rel' & Hsrc' & Hpre & Hneq)].
  - exact (lookup_some_none _ _ _ Hd0 (Hfresh _ (below_app target_dir rel Hrel))).
  - apply prefix_app_inv in Hpre as [k ->]. destruct k as [|x k].
    + rewrite app_nil_r in *. exact (Hneq c Hsrc eq_refl).
    + apply Hsrc'. exact (nothing_below_source_file _ (x :: k) c Hsrc ltac:(discriminate)).
Qed.

(** Skipping an entry keeps the invariant. *)
Lemma inv_skip (processed : list path) (acc : list string) (f : gmap path node) (item : path) :
  inv processed acc f ->
  (item = (file_dir ++ ["lifecycle_manager.py"])%list
   \/ should_copy (relative_to file_dir item) = false
   \/ forall c, f0 !! item <> Some (File c)) ->
  inv (processed ++ [item])%list acc f.
Proof.
  intros Hinv Hskip. split.
  - apply (ci_mono _ _ _ _ _ _ Hinv).
  - intros q c Hq. destruct (ci_files _ _ _ _ _ _ Hinv q c Hq) as [?|(it & Hit & Hrest)]; [auto|].
    right. exists it. split; [apply List.in_or_app; auto | exact Hrest].
  - apply (ci_dirs _ _ _ _ _ _ Hinv).
  - intros it c Hit Hf Hsc Hnlm. apply List.in_app_or in Hit as [Hit|[<-|[]]].
    + apply (ci_copied _ _ _ _ _ _ Hinv it c Hit Hf Hsc Hnlm).
    + exfalso. destruct Hskip as [E|[E|E]]; [exact (Hnlm E) | congruence | exact (E c Hf)].
Qed.

(** Creating the directories towards the target of a source entry keeps the
    invariant. *)
Lemma inv_mkdir (processed : list path) (acc : list string) (f g : gmap path node)
    (rel p : path) :
  inv processed acc f ->
  f0 !! (file_dir ++ rel)%list <> None ->
  p `prefix_of` (target_dir ++ rel)%list ->
  (forall c, f0 !! (file_dir ++ rel)%list = Some (File c) -> p <> (target_dir ++ rel)%list) ->
  f ⊆ g ->
  (forall q x, g !! q = Some x -> f !! q = Some x \/ (x = Dir /\ q <> [] /\ q `prefix_of` p)) ->
  inv processed acc g.
Proof.
  intros Hinv Hsrc Hp Hfile Hsub Hnew. split.
  - etransitivity; [apply (ci_mono _ _ _ _ _ _ Hinv) | exact Hsub].
  - intros q c Hq. destruct (Hnew q _ Hq) as [Hq'|[Habs _]]; [|discriminate Habs].
    apply (ci_files _ _ _ _ _ _ Hinv q c Hq').
  - intros q Hq. destruct (Hnew q _ Hq) as [Hq'|(_ & _ & Hqp)].
    + apply (ci_dirs _ _ _ _ _ _ Hinv q Hq').
    + right. exists rel. split; [exact Hsrc|]. split; [etransitivity; eassumption|].
      intros c Hc ->. apply (Hfile c Hc). apply (anti_symm prefix); assumption.
  - intros it c Hit Hf Hsc Hnlm.
    destruct (ci_copied _ _ _ _ _ _ Hinv it c Hit Hf Hsc Hnlm) as [Hcp Hacc].
    split; [eapply lookup_weaken; eassumption | exact Hacc].
Qed.

(** Copying a source file to its target keeps the invariant. *)
Lemma inv_copy (processed : list path) (acc : list string) (g : gmap path node)
    (rel : path) (c : string) :
  inv processed acc g ->
  rel <> [] ->
  f0 !! (file_dir ++ rel)%list = Some (File c) ->
  should_copy rel = true ->
  (file_dir ++ rel)%list <> (file_dir ++ ["lifecycle_manager.py"])%list ->
  g !! (target_dir ++ rel)%list = None ->
  inv (processed ++ [(file_dir ++ rel)%list])%list (acc ++ [str_path rel])%list
      (<[(target_dir ++ rel)%list := File c]> g).
Proof.
  intros Hinv Hrel Hsrc Hsc Hnlm Hnone.
  assert (Hsub : g ⊆ <[(target_dir ++ rel)%list := File c]> g)
    by (apply insert_subseteq, Hnone).
  split.
  - etransitivity; [apply (ci_mono _ _ _ _ _ _ Hinv) | exact Hsub].
  - intros q c' Hq. rewrite lookup_insert in Hq. case_decide as Hdec.
    + injection Hq as <-. right. exists (file_dir ++ rel)%list.
      rewrite relative_to_app. split; [apply List.in_or_app; right; left; reflexivity|].
      split; [apply below_app, Hrel|]. auto.
    + destruct (ci_files _ _ _ _ _ _ Hinv q c' Hq) as [?|(it & Hit & Hrest)]; [auto|].
      right. exists it. split; [apply List.in_or_app; auto | exact Hrest].
  - intros q Hq. rewrite lookup_insert in Hq. case_decide as Hdec; [discriminate Hq|].
    apply (ci_dirs _ _ _ _ _ _ Hinv q Hq).
  - intros it c' Hit Hf Hsc' Hnlm'. apply List.in_app_or in Hit as [Hit|[<-|[]]].
    + destruct (ci_copied _ _ _ _ _ _ Hinv it c' Hit Hf Hsc' Hnlm') as [Hcp Hacc].
      split; [eapply lookup_weaken; eassumption | apply List.in_or_app; auto].
    + rewrite relative_to_app. rewrite Hsrc in Hf. injection Hf as <-.
      split; [apply lookup_insert_eq | apply List.in_or_app; right; left; reflexivity].
Qed.

Lemma path_is_file_quiet (p : path) (w : World) :
  fs_quiet w -> path_is_file p w = (inr (is_file_at (files w) p), log (FsEv (IsFile p)) w).
Proof. intros Hq. unfold path_is_file, fs_prim. rewrite Hq. reflexivity. Qed.

Lemma path_is_dir_quiet (p : path) (w : World) :
  fs_quiet w -> path_is_dir p w = (inr (is_dir_at (files w) p), log (FsEv (IsDir p)) w).
Proof. intros Hq. unfold path_is_dir, fs_prim. rewrite Hq. reflexivity. Qed.

Lemma path_mkdir_quiet (p : path) (w : World) r g :
  fs_quiet w -> mkdir_parents p (files w) = (r, g) ->
  path_mkdir p w = (r, set_files g (log (FsEv (Mkdir p)) w)).
Proof. intros Hq E. unfold path_mkdir, fs_prim. rewrite Hq, E. reflexivity. Qed.

Lemma shutil_copy2_quiet (src dst : path) (w : World) r g :
  fs_quiet w -> copy2 src dst (files w) = (r, g) ->
  shutil_copy2 src dst w = (r, set_files g (log (FsEv (Copy2 src dst)) w)).
Proof. intros Hq E. unfold shutil_copy2, fs_prim. rewrite Hq, E. reflexivity. Qed.

Lemma fs_quiet_set_files (g : gmap path node) (w : World) :
  fs_quiet w -> fs_quiet (set_files g w).
Proof. intros Hq c. apply Hq. Qed.

Lemma name_snoc (d : path) (x : string) : name (d ++ [x])%list = x.
Proof. unfold name. apply last_last. Qed.

(** One round of the loop. *)
Lemma copy_item_step (processed : list path) (acc : list string) (w : World) (item : path) :
  inv processed acc (files w) -> fs_quiet w ->
  below file_dir item = true -> f0 !! item <> None -> ~ In item processed ->
  exists acc' w',
    copy_item file_dir target_dir false item acc w = (inr acc', w')
    /\ fs_quiet w'
    /\ inv (processed ++ [item])%list acc' (files w').
Proof.
  intros Hinv Hq Hbelow Hsrc Hfreshitem.
  destruct (below_inv _ _ Hbelow) as [Eitem Hrel].
  set (rel := relative_to file_dir item) in *.
  unfold copy_item. fold rel.
  rewrite path_div_lifecycle_manager.
  destruct (String.eqb (name item) "lifecycle_manager.py"
            && bool_decide (item = (file_dir ++ ["lifecycle_manager.py"])%list)) eqn:Elm.
  { apply andb_true_iff in Elm as [_ Elm]. apply bool_decide_eq_true_1 in Elm.
    exists acc, w. split; [reflexivity|]. split; [exact Hq|]. apply inv_skip; auto. }
  assert (Hnlm : item <> (file_dir ++ ["lifecycle_manager.py"])%list).
  { intros E. rewrite E, name_snoc in Elm.
    rewrite bool_decide_eq_true_2 in Elm by reflexivity. discriminate Elm. }
  destruct (should_copy rel) eqn:Esc; cbn [negb].
  2:{ exists acc, w. split; [reflexivity|]. split; [exact Hq|]. apply inv_skip; auto. }
  assert (Hitem_ne : item <> []) by (rewrite Eitem; destruct file_dir; [destruct rel; [congruence|discriminate]|discriminate]).
  unfold try_except, bind. rewrite (path_is_file_quiet item w Hq).
  unfold is_file_at. rewrite (node_at_lookup _ _ Hitem_ne).
  destruct (f0 !! item) as [nd|] eqn:Eitem0; [|congruence].
  rewrite (lookup_weaken _ _ _ _ Eitem0 (ci_mono _ _ _ _ _ _ Hinv)).
  destruct nd as [c|].
  - (* a regular file *)
    rewrite Eitem in Eitem0.
    assert (Hpar : parent (target_dir ++ rel)%list `prefix_of` (target_dir ++ rel)%list)
      by apply parent_prefix.
    destruct (mkdir_parents_spec (parent (target_dir ++ rel)%list) (files w))
      as (g & Emk & Hsub & Hnew & Hdir).
    { intros q c' Hqp. eapply no_file_towards_target; [exact Hinv| | |etransitivity; eassumption].
      - rewrite Eitem0. discriminate.
      - left. rewrite <- Eitem. exact Hfreshitem. }
    set (w1 := log (FsEv (IsFile item)) w).
    assert (Hq1 : fs_quiet w1) by (apply fs_quiet_log, Hq).
    unfold_M. unfold bind.
    rewrite (path_mkdir_quiet _ w1 _ _ Hq1 Emk).
    set (w2 := set_files g (log _ w1)).
    assert (Hq2 : fs_quiet w2) by (apply fs_quiet_set_files, fs_quiet_log, Hq1).
    assert (Hinv2 : inv processed acc g).
    { eapply inv_mkdir; [exact Hinv| | exact Hpar | | exact Hsub | exact Hnew].
      - rewrite Eitem0. discriminate.
      - intros _ _. apply parent_neq. destruct target_dir; [exact Hrel|discriminate]. }
    assert (Hnone : g !! (target_dir ++ rel)%list = None).
    { destruct (g !! (target_dir ++ rel)%list) as [[c'|]|] eqn:Eg; [| |reflexivity]; exfalso.
      - eapply (no_file_towards_target processed acc g rel); [exact Hinv2| | |reflexivity|exact Eg].
        + rewrite Eitem0. discriminate.
        + left. rewrite <- Eitem. exact Hfreshitem.
      - exact (target_not_dir _ _ _ _ _ Hinv2 Hrel Eitem0 Eg). }
    assert (Ecp : copy2 item (target_dir ++ rel)%list g
                  = (inr tt, <[(target_dir ++ rel)%list := File c]> g)).
    { apply copy2_spec; [|exact Hitem_ne| |exact Hnone|exact Hdir].
      - rewrite Eitem. eapply lookup_weaken; [exact Eitem0|].
        apply (ci_mono _ _ _ _ _ _ Hinv2).
      - destruct target_dir; [exact Hrel|discriminate]. }
    unfold ret. cbv beta iota.
    rewrite (shutil_copy2_quiet _ _ w2 _ _ Hq2 Ecp).
    eexists _, _. split; [reflexivity|]. split.
    + apply fs_quiet_set_files, fs_quiet_log, Hq2.
    + simpl files. rewrite Eitem at 1. apply inv_copy; auto. rewrite <- Eitem. exact Hnlm.
  - (* a directory *)
    set (w1 := log (FsEv (IsFile item)) w).
    assert (Hq1 : fs_quiet w1) by (apply fs_quiet_log, Hq).
    rewrite (path_is_dir_quiet item w1 Hq1). change (files w1) with (files w).
    unfold is_dir_at. rewrite (node_at_lookup _ _ Hitem_ne).
    rewrite (lookup_weaken _ _ _ _ Eitem0 (ci_mono _ _ _ _ _ _ Hinv)).
    rewrite Eitem in Eitem0.
    destruct (mkdir_parents_spec (target_dir ++ rel)%list (files w))
      as (g & Emk & Hsub & Hnew & Hdir).
    { intros q c' Hqp. eapply no_file_towards_target; [exact Hinv| | |exact Hqp].
      - rewrite Eitem0. discriminate.
      - right. right. exact Eitem0. }
    set (w2 := log (FsEv (IsDir item)) w1).
    assert (Hq2 : fs_quiet w2) by (apply fs_quiet_log, Hq1).
    unfold_M. unfold bind.
    rewrite (path_mkdir_quiet _ w2 _ _ Hq2 Emk).
    eexists _, _. split; [reflexivity|]. split.
    + apply fs_quiet_set_files, fs_quiet_log, Hq2.
    + simpl files. apply inv_skip.
      * eapply inv_mkdir; [exact Hinv| |reflexivity| |exact Hsub|exact Hnew].
        -- rewrite Eitem0. discriminate.
        -- intros c' Hc. rewrite Eitem0 in Hc. discriminate Hc.
      * right. right. intros c' Hc. rewrite Eitem, Eitem0 in Hc. discriminate Hc.
Qed.

(** The whole loop. *)
Lemma copy_loop (rest processed : list path) (acc : list string) (w : World) :
  inv processed acc (files w) -> fs_quiet w ->
  List.NoDup (processed ++ rest)%list ->
  (forall item, In item rest -> below file_dir item = true /\ f0 !! item <> None) ->
  exists acc' w',
    for_each rest (copy_item file_dir target_dir false) acc w = (inr acc', w')
    /\ fs_quiet w'
    /\ inv (processed ++ rest)%list acc' (files w').
Proof.
  revert processed acc w. induction rest as [|item rest IH]; intros processed acc w Hinv Hq Hnd Hrest.
  - exists acc, w. rewrite app_nil_r. auto.
  - destruct (Hrest item (or_introl eq_refl)) as [Hb Hsrc].
    assert (Hnew : ~ In item processed).
    { intros Hin. apply List.NoDup_remove_2 in Hnd. apply Hnd.
      apply List.in_or_app. auto. }
    destruct (copy_item_step processed acc w item Hinv Hq Hb Hsrc Hnew)
      as (acc1 & w1 & E1 & Hq1 & Hinv1).
    destruct (IH (processed ++ [item])%list acc1 w1 Hinv1 Hq1) as (acc2 & w2 & E2 & Hq2 & Hinv2).
    + rewrite <- app_assoc. exact Hnd.
    + intros it Hit. apply Hrest. right. exact Hit.
    + exists acc2, w2. simpl. unfold_M. rewrite (bind_inr _ _ _ _ _ E1), E2.
      rewrite <- app_assoc in Hinv2. auto.
Qed.

End CopyLoop.

Lemma in_map_to_list_keys (f : gmap path node) (q : path) :
  In q (List.map fst (map_to_list f)) <-> f !! q <> None.
Proof.
  rewrite List.in_map_iff. split.
  - intros ([q' x] & <- & Hin). apply list_elem_of_In, elem_of_map_to_list in Hin.
    simpl. rewrite Hin. discriminate.
  - intros Hq. destruct (f !! q) as [x|] eqn:E; [|congruence].
    exists (q, x). split; [reflexivity|]. apply list_elem_of_In, elem_of_map_to_list, E.
Qed.

Lemma rglob_spec (d q : path) (f : gmap path node) :
  In q (rglob d f) <-> below d q = true /\ f !! q <> None.
Proof.
  unfold rglob. rewrite List.filter_In, in_map_to_list_keys. tauto.
Qed.

Lemma rglob_NoDup (d : path) (f : gmap path node) : List.NoDup (rglob d f).
Proof.
  unfold rglob. apply List.NoDup_filter.
  pose proof (NoDup_fst_map_to_list f) as Hnd. apply NoDup_ListNoDup in Hnd.
  exact Hnd.
Qed.

Lemma path_rglob_quiet (d : path) (w : World) :
  fs_quiet w -> path_rglob d w = (inr (rglob d (files w)), log (FsEv (Rglob d)) w).
Proof. intros Hq. unfold path_rglob, fs_prim. rewrite Hq. reflexivity. Qed.

Lemma copy_inv_initial (source_dir target_dir : path) (f0 : gmap path node) :
  copy_inv source_dir target_dir f0 [] [] f0.
Proof. split; [reflexivity | auto | auto | intros item c []]. Qed.

Lemma snoc_not_nil (d : path) (x : string) : (d ++ [x])%list <> [].
Proof. intros E. apply List.app_eq_nil in E as [_ E]. discriminate E. Qed.

Lemma parent_snoc (d : path) (x : string) : parent (d ++ [x])%list = d.
Proof. unfold parent. apply removelast_last. Qed.

Lemma should_copy_excluded_part (rel : path) (part : string) :
  In part exclude_patterns -> In part rel -> should_copy rel = false.
Proof.
  intros Hex Hin. unfold should_copy.
  assert (E : existsb (fun part => bool_decide (part ∈ exclude_patterns)) rel = true).
  { apply List.existsb_exists. exists part. split; [exact Hin|].
    apply bool_decide_eq_true_2, list_elem_of_In, Hex. }
  rewrite E. reflexivity.
Qed.

Section CopyFiles.
Context `{Host}.

(** The run of [_copy_plugin_files_impl] on a fresh target. *)
Lemma copy_plugin_files_run (user_id : string) (target_dir : path) (w : World)
    (code : string) :
  fs_quiet w ->
  wf_fs (files w) ->
  nothing_below target_dir (files w) ->
  no_file_on_the_way target_dir (files w) ->
  files w !! (file_dir ++ ["lifecycle_manager.py"])%list = Some (File code) ->
  exists acc g w',
    _copy_plugin_files_impl user_id target_dir false w
      = (inr (CopyOk (acc ++ ["lifecycle_manager.py"])%list), w')
    /\ files w' = <[(target_dir ++ ["lifecycle_manager.py"])%list := File code]> g
    /\ copy_inv file_dir target_dir (files w) (rglob file_dir (files w)) acc g
    /\ g !! (target_dir ++ ["lifecycle_manager.py"])%list = None.
Proof.
  intros Hq Hwf Hfresh Hway Hlm.
  set (f0 := files w) in *.
  set (w1 := log (FsEv (Rglob file_dir)) w).
  destruct (copy_loop target_dir f0 Hwf Hfresh Hway (rglob file_dir f0) [] [] w1)
    as (acc & w2 & Eloop & Hq2 & Hinv).
  - apply copy_inv_initial.
  - apply fs_quiet_log, Hq.
  - apply rglob_NoDup.
  - intros item Hitem. apply rglob_spec, Hitem.
  - simpl app in Hinv.
    assert (Hsrc : f0 !! (file_dir ++ ["lifecycle_manager.py"])%list <> None)
      by (rewrite Hlm; discriminate).
    destruct (mkdir_parents_spec target_dir (files w2)) as (g & Emk & Hsub & Hnew & Hdir).
    { intros q c Hqp.
      eapply (no_file_towards_target target_dir f0 Hwf Hfresh Hway _ _ _ ["lifecycle_manager.py"]);
        [exact Hinv | exact Hsrc | auto | apply prefix_app_r, Hqp]. }
    assert (Hinvg : copy_inv file_dir target_dir f0 (rglob file_dir f0) acc g).
    { eapply (inv_mkdir target_dir f0); [exact Hinv | exact Hsrc | | | exact Hsub | exact Hnew].
      - exists ["lifecycle_manager.py"]. reflexivity.
      - intros _ _ E. apply (f_equal length) in E. rewrite length_app in E. simpl in E. lia. }
    assert (Hnone : g !! (target_dir ++ ["lifecycle_manager.py"])%list = None).
    { destruct (g !! (target_dir ++ ["lifecycle_manager.py"])%list) as [[c'|]|] eqn:Eg;
        [| |reflexivity]; exfalso.
      - eapply (no_file_towards_target target_dir f0 Hwf Hfresh Hway _ _ g ["lifecycle_manager.py"]);
          [exact Hinvg | exact Hsrc | auto | reflexivity | exact Eg].
      - exact (target_not_dir target_dir f0 Hwf Hfresh _ _ _ ["lifecycle_manager.py"] _ Hinvg
                 (snoc_not_nil [] "lifecycle_manager.py") Hlm Eg). }
    assert (Hlmg : g !! (file_dir ++ ["lifecycle_manager.py"])%list = Some (File code)).
    { eapply lookup_weaken; [exact Hlm|]. apply (ci_mono _ _ _ _ _ _ Hinvg). }
    assert (Ecp : copy2 (file_dir ++ ["lifecycle_manager.py"])%list
                        (target_dir ++ ["lifecycle_manager.py"])%list g
                  = (inr tt, <[(target_dir ++ ["lifecycle_manager.py"])%list := File code]> g)).
    { apply copy2_spec; [exact Hlmg | | | exact Hnone | rewrite parent_snoc; exact Hdir];
        apply snoc_not_nil. }
    unfold _copy_plugin_files_impl, _copy_plugin_files_impl_try, try_except.
    rewrite (bind_inr _ _ _ _ _ (path_rglob_quiet file_dir w Hq)).
    fold f0 w1. rewrite (bind_inr _ _ _ _ _ Eloop).
    rewrite !path_div_lifecycle_manager.
    rewrite (bind_inr _ _ _ _ _ (path_exists_quiet _ w2 Hq2)).
    unfold exists_at. rewrite node_at_lookup by apply snoc_not_nil.
    rewrite (lookup_weaken _ _ _ _ Hlm (ci_mono _ _ _ _ _ _ Hinv)).
    rewrite parent_snoc. unfold_M. unfold bind.
    set (w3 := log (FsEv (Exists (file_dir ++ ["lifecycle_manager.py"])%list)) w2).
    assert (Hq3 : fs_quiet w3) by (apply fs_quiet_log, Hq2).
    rewrite (path_mkdir_quiet target_dir w3 _ _ Hq3 Emk).
    unfold ret. cbv beta iota.
    set (w4 := set_files g (log (FsEv (Mkdir target_dir)) w3)).
    assert (Hq4 : fs_quiet w4) by (apply fs_quiet_set_files, fs_quiet_log, Hq3).
    rewrite (shutil_copy2_quiet _ _ w4 _ _ Hq4 Ecp).
    exists acc, g. eexists. split; [reflexivity|]. split; [reflexivity|]. auto.
Qed.

(** C5 (as amended).  On a target directory that is fresh and lies outside
    the source tree, and when no filesystem call raises,
    [_copy_plugin_files_impl] succeeds and copies every file of the source
    tree whose relative path passes [should_copy] (no component in the
    exclusion set, name not ending in [.pyc]) to the same relative path of
    the target, with its content, and lists it in [copied_files]; a file that
    does not pass is not copied, so nothing below [node_modules] or [.git]
    is; [lifecycle_manager.py] is copied and listed; and the source tree is
    left as it was. *)
Theorem copy_plugin_files_correct (user_id : string) (target_dir : path) (w : World)
    (code : string) :
  fs_quiet w ->
  wf_fs (files w) ->
  ~ file_dir `prefix_of` target_dir ->
  nothing_below target_dir (files w) ->
  no_file_on_the_way target_dir (files w) ->
  files w !! (file_dir ++ ["lifecycle_manager.py"])%list = Some (File code) ->
  let run := _copy_plugin_files_impl user_id target_dir false w in
  exists copied_files,
    fst run = inr (CopyOk copied_files)
    /\ (forall rel content, rel <> [] ->
          files w !! (file_dir ++ rel)%list = Some (File content) ->
          if should_copy rel
          then files (snd run) !! (target_dir ++ rel)%list = Some (File content)
               /\ In (str_path rel) copied_files
          else files (snd run) !! (target_dir ++ rel)%list = None)
    /\ (forall rel, In "node_modules" rel \/ In ".git" rel -> should_copy rel = false)
    /\ In "lifecycle_manager.py" copied_files
    /\ (forall q, below file_dir q = true -> files (snd run) !! q = files w !! q).
Proof.
  intros Hq Hwf Hout Hfresh Hway Hlm run. subst run.
  destruct (copy_plugin_files_run user_id target_dir w code Hq Hwf Hfresh Hway Hlm)
    as (acc & g & w' & Erun & Efiles & Hinv & Hnone).
  rewrite Erun. simpl fst. simpl snd. rewrite Efiles.
  set (f0 := files w) in *. set (lm := "lifecycle_manager.py") in *.
  assert (Hsubg : f0 ⊆ g) by apply (ci_mono _ _ _ _ _ _ Hinv).
  exists (acc ++ [lm])%list. split; [reflexivity|]. split; [|split; [|split]].
  - intros rel c Hrel Hsrc. destruct (should_copy rel) eqn:Esc.
    + destruct (decide (rel = [lm])) as [->|Hne].
      * rewrite Hlm in Hsrc. injection Hsrc as <-. rewrite lookup_insert_eq.
        split; [reflexivity | apply List.in_or_app; right; left; reflexivity].
      * assert (Hitem : In (file_dir ++ rel)%list (rglob file_dir f0)).
        { apply rglob_spec. split; [apply below_app, Hrel | rewrite Hsrc; discriminate]. }
        destruct (ci_copied _ _ _ _ _ _ Hinv _ c Hitem Hsrc) as [Hcp Hacc].
        { rewrite relative_to_app. exact Esc. }
        { intros E. apply app_inv_head in E. exact (Hne E). }
        rewrite relative_to_app in Hcp, Hacc.
        rewrite lookup_insert_ne by (intros E; apply app_inv_head in E; congruence).
        split; [exact Hcp | apply List.in_or_app; auto].
    + assert (Hne : rel <> [lm]) by (intros ->; vm_compute in Esc; discriminate Esc).
      rewrite lookup_insert_ne by (intros E; apply app_inv_head in E; congruence).
      destruct (g !! (target_dir ++ rel)%list) as [[c'|]|] eqn:Eg; [| |reflexivity]; exfalso.
      * destruct (ci_files _ _ _ _ _ _ Hinv _ _ Eg)
          as [Hf0 | (item & _ & _ & _ & E & _ & Hsc)].
        -- exact (lookup_some_none _ _ _ Hf0 (Hfresh _ (below_app target_dir rel Hrel))).
        -- apply app_inv_head in E. rewrite <- E, Esc in Hsc. discriminate Hsc.
      * exact (target_not_dir target_dir f0 Hwf Hfresh _ _ _ _ _ Hinv Hrel Hsrc Eg).
  - intros rel [Hin|Hin]; eapply should_copy_excluded_part; try exact Hin; simpl; auto.
  - apply List.in_or_app. right. left. reflexivity.
  - intros q Hbelow.
    destruct (f0 !! q) as [x|] eqn:E0.
    { eapply lookup_weaken; [|apply insert_subseteq, Hnone]. eapply lookup_weaken; eassumption. }
    assert (Hcontra : forall r, q `prefix_of` (target_dir ++ r)%list -> False).
    { intros r Hqr. apply below_prefix in Hbelow.
      assert (Hsr : file_dir `prefix_of` (target_dir ++ r)%list) by (etransitivity; eassumption).
      destruct (prefix_app_cases _ _ _ Hsr) as [Hst | (k & Hk & Ek & _)]; [exact (Hout Hst)|].
      apply (lookup_some_none _ _ _ Hlm). apply Hfresh. rewrite Ek, <- app_assoc.
      apply below_app. destruct k; [congruence|discriminate]. }
    destruct (<[(target_dir ++ [lm])%list := File code]> g !! q) as [x|] eqn:E; [|reflexivity].
    exfalso. rewrite lookup_insert in E. case_decide as Hdec.
    { subst q. apply (Hcontra [lm]). reflexivity. }
    destruct x as [c|].
    + destruct (ci_files _ _ _ _ _ _ Hinv _ _ E) as [Hf0 | (item & _ & _ & _ & -> & _)].
      * exact (lookup_some_none _ _ _ Hf0 E0).
      * eapply Hcontra. reflexivity.
    + destruct (ci_dirs _ _ _ _ _ _ Hinv _ E) as [Hf0 | (rel & _ & Hpre & _)].
      * exact (lookup_some_none _ _ _ Hf0 E0).
      * exact (Hcontra _ Hpre).
Qed.

End CopyFiles.

(** The three conditions can be checked by running over the entries. *)
Lemma wf_fs_check_sound (f : gmap path node) : wf_fs_check f = true -> wf_fs f.
Proof.
  intros Hc q c q' Hq Hb. destruct (f !! q') as [x|] eqn:E; [exfalso|reflexivity].
  unfold wf_fs_check in Hc. rewrite List.forallb_forall in Hc.
  specialize (Hc (q, File c)). simpl in Hc.
  rewrite List.forallb_forall in Hc.
  assert (Hin : In (q, File c) (map_to_list f))
    by (apply list_elem_of_In, elem_of_map_to_list, Hq).
  specialize (Hc Hin q').
  assert (Hin' : In q' (map_to_list f).*1).
  { apply in_map_to_list_keys. rewrite E. discriminate. }
  specialize (Hc Hin'). rewrite Hb in Hc. discriminate Hc.
Qed.

Lemma nothing_below_check_sound (d : path) (f : gmap path node) :
  nothing_below_check d f = true -> nothing_below d f.
Proof.
  intros Hc q Hb. destruct (f !! q) as [x|] eqn:E; [exfalso|reflexivity].
  unfold nothing_below_check in Hc. rewrite List.forallb_forall in Hc.
  assert (Hin : In q (map_to_list f).*1).
  { apply in_map_to_list_keys. rewrite E. discriminate. }
  specialize (Hc q Hin). rewrite Hb in Hc. discriminate Hc.
Qed.

Lemma no_file_on_the_way_check_sound (d : path) (f : gmap path node) :
  no_file_on_the_way_check d f = true -> no_file_on_the_way d f.
Proof.
  intros Hc q c Hpre Hq.
  unfold no_file_on_the_way_check in Hc. rewrite List.forallb_forall in Hc.
  assert (Hin : In (q, File c) (map_to_list f))
    by (apply list_elem_of_In, elem_of_map_to_list, Hq).
  specialize (Hc _ Hin). simpl in Hc.
  rewrite bool_decide_eq_true_2 in Hc by exact Hpre. discriminate Hc.
Qed.

(** The claim C5 as it is stated fails for compiled Python files: no
    component of [helper.pyc] is in the exclusion set, and the file is not
    copied. *)
Lemma pyc_file_is_not_copied :
  let target := shared_path Demo.manager in
  let run := _copy_plugin_files_impl (H := Demo.host) "alice" target false Demo.w0 in
  files Demo.w0 !! (Demo.plugin_dir ++ ["helper.pyc"])%list = Some (File "bytecode")
  /\ Forall (fun part => ~ In part exclude_patterns) ["helper.pyc"]
  /\ (exists copied_files, fst run = inr (CopyOk copied_files)
                           /\ ~ In "helper.pyc" copied_files)
  /\ files (snd run) !! (target ++ ["helper.pyc"])%list = None.
Proof.
  split; [vm_compute; reflexivity|]. split.
  { constructor; [|constructor]. simpl. intuition discriminate. }
  split; [|vm_compute; reflexivity].
  eexists. split; [vm_compute; reflexivity|]. simpl. intuition discriminate.
Qed.

Lemma copy_plugin_files_correct_witness :
  let target := shared_path Demo.manager in
  let run := _copy_plugin_files_impl (H := Demo.host) "alice" target false Demo.w0 in
  (fs_quiet Demo.w0 /\ wf_fs (files Demo.w0)
   /\ ~ Demo.plugin_dir `prefix_of` target
   /\ nothing_below target (files Demo.w0)
   /\ no_file_on_the_way target (files Demo.w0))
  /\ exists copied_files,
       fst run = inr (CopyOk copied_files)
       /\ In "lifecycle_manager.py" copied_files.
Proof.
  intros target run.
  assert (H1 : fs_quiet Demo.w0) by (intros c; reflexivity).
  assert (H2 : wf_fs (files Demo.w0))
    by (apply wf_fs_check_sound; vm_compute; reflexivity).
  assert (H3 : ~ Demo.plugin_dir `prefix_of` target)
    by (intros [k E]; vm_compute in E; discriminate E).
  assert (H4 : nothing_below target (files Demo.w0))
    by (apply nothing_below_check_sound; vm_compute; reflexivity).
  assert (H5 : no_file_on_the_way target (files Demo.w0))
    by (apply no_file_on_the_way_check_sound; vm_compute; reflexivity).
  split; [auto|].
  destruct (copy_plugin_files_correct (H := Demo.host) "alice" target Demo.w0
              "class CollectionViewerLifecycleManager" H1 H2 H3 H4 H5)
    as (copied_files & Hrun & _ & _ & Hlm & _).
  - vm_compute. reflexivity.
  - exists copied_files. split; [exact Hrun | exact Hlm].
Defined.

(** * Further properties of the code *)

(** ** What install and uninstall return *)

Section Outcome.
Context `{Host}.

Lemma not_success_is_failure (r : result) : success r = false -> exists error, r = Failure error.
Proof. destruct r; simpl; intros E; try discriminate E. eauto. Qed.

Lemma not_succeeded_cases (r : exn + result) :
  succeeded r = false -> (exists e, r = inl e) \/ (exists error, r = inr (Failure error)).
Proof.
  destruct r as [e|res]; simpl; intros E; [eauto|].
  destruct (not_success_is_failure res E) as [error ->]. eauto.
Qed.

(** [install_plugin] gives up before the database is written to, or its
    outcome is the one of [_create_database_records]. *)
Lemma install_plugin_outcome (self : Manager) (user_id : string) (w : World) :
  let run := install_plugin self user_id w in
  (exists error, fst run = inr (Failure error, self) /\ same_db w (snd run))
  \/ (exists w3,
        same_db w w3
        /\ (user_id ∉ active_users self)
        /\ snd run = snd (_create_database_records user_id w3)
        /\ ((fst (_create_database_records user_id w3)
               = inr (CreateOk (plugin_id_of user_id) (module_ids_of user_id))
             /\ fst run = inr (InstallOk (plugin_id_of user_id) slug (pd_name plugin_data)
                                         (module_ids_of user_id),
                               activated self user_id (clock (snd run))))
            \/ (succeeded (fst (_create_database_records user_id w3)) = false
                /\ exists error, fst run = inr (Failure error, self)))).
Proof.
  intros run. subst run.
  destruct (install_plugin self user_id w) as [r w'] eqn:E. simpl.
  unfold install_plugin, install_plugin_try, try_except in E. unfold_M.
  rewrite (bind_inr _ _ _ _ _ (check_existing_plugin_run user_id w)) in E.
  set (w1 := log _ w) in E.
  assert (H1 : same_db w w1) by (repeat split).
  destruct (exists_ _); [injection E as <- <-; left; eauto|].
  pose proof (same_db_fs (Mkdir (shared_path self)) (mkdir_parents (shared_path self)) w1)
    as H2.
  fold (path_mkdir (shared_path self)) in H2. unfold bind at 1 in E.
  destruct (path_mkdir (shared_path self) w1) as [[e|[]] w2]; simpl in H2.
  { injection E as <- <-. left. eexists. split; [reflexivity|].
    exact (same_db_trans _ _ _ H1 H2). }
  pose proof (copy_plugin_files_same_db user_id (shared_path self) false w2) as H3.
  destruct (copy_plugin_files_returns user_id (shared_path self) false w2)
    as (cr & w3 & Ecp).
  rewrite Ecp in H3. simpl in H3. unfold bind at 1 in E. rewrite Ecp in E.
  assert (H13 : same_db w w3)
    by exact (same_db_trans _ _ _ H1 (same_db_trans _ _ _ H2 H3)).
  destruct (success cr) eqn:Es; cbn [negb] in E.
  2:{ injection E as <- <-. left. destruct (not_success_is_failure cr Es) as [error ->]. eauto. }
  unfold install_for_user in E.
  destruct (bool_decide (user_id ∈ active_users self)) eqn:Eact;
    [injection E as <- <-; left; eauto|].
  apply bool_decide_eq_false_1 in Eact.
  unfold_M. rewrite (bind_inr _ _ _ _ _ (perform_user_installation_run _ _ w3)) in E.
  right. exists w3. split; [exact H13|]. split; [exact Eact|].
  destruct (create_database_records_cases user_id w3) as (_ & Hc).
  destruct (_create_database_records user_id w3) as [cres w4]; simpl in E, Hc |- *.
  destruct Hc as [(-> & _) | (Hfail & _)].
  - simpl in E. unfold bind, now, ret in E. injection E as <- <-.
    split; [reflexivity|]. left. split; reflexivity.
  - destruct (not_succeeded_cases _ Hfail) as [[e ->] | [error ->]];
      simpl in E; injection E as <- <-; (split; [reflexivity|]); right; eauto.
Qed.

(** [delete_plugin] gives up before the database is written to, or its
    outcome is the one of [_delete_database_records] for the row found. *)
Lemma delete_plugin_outcome (self : Manager) (user_id : string) (w : World) :
  let run := delete_plugin self user_id w in
  let w1 := log (DbEv (SelectPlugin user_id slug)) w in
  (exists error, fst run = inr (Failure error, self) /\ same_db w (snd run))
  \/ (exists row,
        user_id ∈ active_users self
        /\ db_raises w (SelectPlugin user_id slug) = None
        /\ head (plugin_rows_of user_id (pending w)) = Some row
        /\ snd run = snd (_delete_database_records user_id (p_id row) w1)
        /\ ((exists n, fst (_delete_database_records user_id (p_id row) w1) = inr (DeleteOk n)
                       /\ fst run = inr (UninstallOk (p_id row) n,
                                         deactivated self user_id (clock (snd run))))
            \/ (succeeded (fst (_delete_database_records user_id (p_id row) w1)) = false
                /\ exists error, fst run = inr (Failure error, self)))).
Proof.
  intros run w1. subst run.
  destruct (delete_plugin self user_id w) as [r w'] eqn:E. simpl.
  unfold delete_plugin, uninstall_for_user in E.
  destruct (bool_decide (user_id ∈ active_users self)) eqn:Eact; cbn [negb] in E.
  2:{ injection E as <- <-. left. eexists. split; [reflexivity | apply same_db_refl]. }
  apply bool_decide_eq_true_1 in Eact.
  unfold_M. unfold bind at 1 in E.
  unfold _perform_user_uninstallation, _perform_user_uninstallation_try in E.
  unfold_M. unfold try_except at 1 in E.
  rewrite (bind_inr _ _ _ _ _ (check_existing_plugin_run user_id w)) in E.
  fold w1 in E.
  assert (H1 : same_db w w1) by (repeat split).
  destruct (db_raises w (SelectPlugin user_id slug)) eqn:Esel;
    [simpl in E; injection E as <- <-; left; eauto|].
  destruct (head (plugin_rows_of user_id (pending w))) as [row|] eqn:Erow;
    [|simpl in E; injection E as <- <-; left; eauto].
  cbn [check_found exists_ found_plugin_id] in E.
  right. exists row. split; [exact Eact|]. split; [reflexivity|]. split; [reflexivity|].
  unfold bind at 1 in E.
  destruct (delete_database_records_cases user_id (p_id row) w1) as (_ & Hc).
  destruct (_delete_database_records user_id (p_id row) w1) as [dres w2]; simpl in E, Hc |- *.
  destruct Hc as [((n & ->) & _) | (Hfail & _)].
  - simpl in E. unfold bind, now, ret in E. injection E as <- <-.
    split; [reflexivity|]. left. exists n. split; reflexivity.
  - destruct (not_succeeded_cases _ Hfail) as [[e ->] | [error ->]];
      simpl in E; injection E as <- <-; (split; [reflexivity|]); right; eauto.
Qed.

End Outcome.

(** ** What the operations never do *)

Lemma emits_new_events {A} (P : event -> Prop) (m : M A) (w : World) :
  emits P m -> Forall P (new_events w (snd (m w))).
Proof.
  intros Hm. destruct (Hm w) as (evs & Et & Hevs).
  unfold new_events. rewrite Et, drop_app_length. exact Hevs.
Qed.

Lemma same_files_refl (w : World) : files w = files w.
Proof. reflexivity. Qed.

Lemma same_files_trans (a b c : World) : files b = files a -> files c = files b -> files c = files a.
Proof. congruence. Qed.

Lemma same_files_db {A} (c : db_call) (sem : tables -> (exn + A) * tables) :
  preserves (fun w w' => files w' = files w) (db_prim c sem).
Proof. apply preserves_db_prim. reflexivity. Qed.

Lemma same_files_commit : preserves (fun w w' => files w' = files w) db_commit.
Proof. intros w. unfold db_commit. destruct (db_raises w Commit); reflexivity. Qed.

Lemma same_files_rollback : preserves (fun w w' => files w' = files w) db_rollback.
Proof. intros w. unfold db_rollback. destruct (db_raises w Rollback); reflexivity. Qed.

Section Never.
Context `{Host}.

Lemma delete_plugin_emits (P : event -> Prop) (self : Manager) (user_id : string) :
  (forall c, is_insert (DbEv c) = false -> P (DbEv c)) ->
  emits P (delete_plugin self user_id).
Proof.
  intros HP.
  unfold delete_plugin, uninstall_for_user, _perform_user_uninstallation,
    _perform_user_uninstallation_try, _check_existing_plugin, _check_existing_plugin_try,
    _delete_database_records, _delete_database_records_try,
    db_select_plugin, db_delete_module, db_delete_plugin.
  emits_tac; apply HP; reflexivity.
Qed.

Lemma delete_plugin_files (self : Manager) (user_id : string) :
  preserves (fun w w' => files w' = files w) (delete_plugin self user_id).
Proof.
  unfold delete_plugin, uninstall_for_user, _perform_user_uninstallation,
    _perform_user_uninstallation_try, _check_existing_plugin, _check_existing_plugin_try,
    _delete_database_records, _delete_database_records_try,
    db_select_plugin, db_delete_module, db_delete_plugin.
  preserves_tac same_files_refl same_files_trans;
    first [ apply same_files_db | apply same_files_commit | apply same_files_rollback ].
Qed.

(** X1.  The standalone [delete_plugin] builds a new manager for every call;
    its set of active users is empty, so the call is turned down by the base
    class before the database is looked at: the result is always the failure
    ['Plugin not installed for user'], and nothing has happened. *)
Theorem standalone_delete_never_succeeds
    (user_id : string) (plugins_base_dir : option string) (w : World) :
  delete_plugin_standalone user_id plugins_base_dir w
  = (inr (Failure "Plugin not installed for user", __init__ plugins_base_dir w), w).
Proof.
  unfold delete_plugin_standalone, delete_plugin, uninstall_for_user.
  rewrite bool_decide_eq_false_2; [reflexivity|].
  simpl. set_solver.
Qed.

(** X2.  Uninstalling leaves the filesystem alone: [delete_plugin] makes no
    filesystem call, so the files an install copied to the shared directory
    stay where they are; and it inserts no row. *)
Theorem delete_plugin_leaves_the_files (self : Manager) (user_id : string) (w : World) :
  let w' := snd (delete_plugin self user_id w) in
  files w' = files w
  /\ Forall (fun ev => is_fs_event ev = false /\ is_insert ev = false) (new_events w w').
Proof.
  split; [apply delete_plugin_files|].
  apply emits_new_events, delete_plugin_emits. intros c Hc. split; [reflexivity | exact Hc].
Qed.

End Never.

(** ** Entries of the filesystem are never lost by an install *)

Lemma keeps_entries_refl (w : World) : keeps_entries w w.
Proof. intros q. auto. Qed.

Lemma keeps_entries_trans (a b c : World) :
  keeps_entries a b -> keeps_entries b c -> keeps_entries a c.
Proof.
  intros Hab Hbc q. destruct (Hab q) as [H1 H2]. destruct (Hbc q) as [H3 H4]. auto.
Qed.

Lemma keeps_entries_fs_prim {A} (c : fs_call)
    (sem : gmap path node -> (exn + A) * gmap path node) :
  (forall f q, (is_Some (f !! q) -> is_Some (snd (sem f) !! q))
               /\ (f !! q = Some Dir -> snd (sem f) !! q = Some Dir)) ->
  preserves keeps_entries (fs_prim c sem).
Proof.
  intros Hsem w. unfold fs_prim. destruct (fs_raises w c); [apply (keeps_entries_refl w)|].
  specialize (Hsem (files w)). destruct (sem (files w)) as [r f]. exact Hsem.
Qed.

Lemma keeps_entries_look {A} (c : fs_call) (look : gmap path node -> exn + A) :
  preserves keeps_entries (fs_prim c (fun f => (look f, f))).
Proof. apply keeps_entries_fs_prim. intros f q. auto. Qed.

Lemma keeps_entries_subseteq (f g : gmap path node) (q : path) :
  f ⊆ g ->
  (is_Some (f !! q) -> is_Some (g !! q)) /\ (f !! q = Some Dir -> g !! q = Some Dir).
Proof.
  intros Hsub. split.
  - intros [x Hx]. exists x. eapply lookup_weaken; eassumption.
  - intros Hx. eapply lookup_weaken; eassumption.
Qed.

Lemma keeps_entries_mkdir (p : path) : preserves keeps_entries (path_mkdir p).
Proof.
  apply keeps_entries_fs_prim. intros f q. apply keeps_entries_subseteq.
  unfold mkdir_parents. destruct (is_file_at f p); [reflexivity|].
  destruct (existsb _ _); [reflexivity|].
  apply (mkdir_fold_spec (prefixes p) f).
Qed.

Lemma keeps_entries_copy2 (src dst : path) : preserves keeps_entries (shutil_copy2 src dst).
Proof.
  apply keeps_entries_fs_prim. intros f q. unfold copy2.
  set (dst' := copy2_target f src dst).
  destruct (node_at f src) as [[c|]|]; [|auto|auto].
  destruct (bool_decide (src = dst')); [auto|].
  destruct (is_dir_at f dst') eqn:Ed; [auto|].
  destruct (is_dir_at f (parent dst')); [|auto].
  simpl. rewrite lookup_insert. case_decide as Eq; [|auto]. subst q.
  split; [eauto|]. intros Hd. exfalso.
  unfold is_dir_at in Ed. destruct dst' as [|x r]; [discriminate Ed|].
  simpl in Ed. rewrite Hd in Ed. discriminate Ed.
Qed.

Lemma keeps_entries_db {A} (c : db_call) (sem : tables -> (exn + A) * tables) :
  preserves keeps_entries (db_prim c sem).
Proof. apply preserves_db_prim. intros w t q. auto. Qed.

Lemma keeps_entries_commit : preserves keeps_entries db_commit.
Proof.
  intros w. unfold db_commit. destruct (db_raises w Commit); apply (keeps_entries_refl w).
Qed.

Lemma keeps_entries_rollback : preserves keeps_entries db_rollback.
Proof.
  intros w. unfold db_rollback. destruct (db_raises w Rollback); apply (keeps_entries_refl w).
Qed.

Ltac keeps_entries_tac :=
  preserves_tac keeps_entries_refl keeps_entries_trans;
  try first [ apply keeps_entries_look | apply keeps_entries_mkdir
            | apply keeps_entries_copy2 | apply keeps_entries_db
            | apply keeps_entries_commit | apply keeps_entries_rollback ].

Section Monotone.
Context `{Host}.

Lemma copy_plugin_files_keeps_entries (user_id : string) (target_dir : path) :
  preserves keeps_entries (_copy_plugin_files_impl user_id target_dir false).
Proof.
  unfold _copy_plugin_files_impl, _copy_plugin_files_impl_try, copy_item.
  cbv iota. keeps_entries_tac.
Qed.

Lemma install_for_user_keeps_entries (self : Manager) (user_id : string) (d : path) :
  preserves keeps_entries (install_for_user self user_id d).
Proof.
  unfold install_for_user, _perform_user_installation, _perform_user_installation_try,
    _create_database_records, _create_database_records_try,
    db_insert_plugin, db_insert_module.
  simpl for_each. keeps_entries_tac.
Qed.

Lemma install_plugin_keeps_entries (self : Manager) (user_id : string) :
  preserves keeps_entries (install_plugin self user_id).
Proof.
  unfold install_plugin, install_plugin_try.
  apply (preserves_try_except _ keeps_entries_trans);
    [|intros e; apply (preserves_ret _ keeps_entries_refl)].
  apply (preserves_bind _ keeps_entries_trans).
  { unfold _check_existing_plugin, _check_existing_plugin_try, db_select_plugin.
    keeps_entries_tac. }
  intros chk. destruct (exists_ chk); [apply (preserves_ret _ keeps_entries_refl)|].
  unfold_M. apply (preserves_bind _ keeps_entries_trans); [apply keeps_entries_mkdir|].
  intros _. apply (preserves_bind _ keeps_entries_trans);
    [apply copy_plugin_files_keeps_entries|].
  intros r. destruct (negb (success r)); [apply (preserves_ret _ keeps_entries_refl)|].
  apply install_for_user_keeps_entries.
Qed.

Lemma copy_plugin_files_emits_when (P : event -> Prop) (user_id : string)
    (target_dir : path) (update : bool) :
  (forall c, (is_unlink (FsEv c) = true -> update = true) -> P (FsEv c)) ->
  emits P (_copy_plugin_files_impl user_id target_dir update).
Proof.
  intros HP.
  unfold _copy_plugin_files_impl, _copy_plugin_files_impl_try, copy_item.
  apply emits_try_except; [|intros e; apply emits_ret].
  apply emits_bind; [apply emits_fs_prim, HP; discriminate|].
  intros items. apply emits_bind.
  { apply (emits_for_each P (fun _ => True)); [apply Forall_forall; auto|].
    intros item acc _. emits_tac; apply HP; first [discriminate | reflexivity]. }
  intros copied. emits_tac; apply HP; first [discriminate | reflexivity].
Qed.

Lemma install_plugin_emits_when (P : event -> Prop) (self : Manager) (user_id : string) :
  (forall c, is_unlink (FsEv c) = false -> P (FsEv c)) ->
  (forall c, is_delete (DbEv c) = false -> P (DbEv c)) ->
  emits P (install_plugin self user_id).
Proof.
  intros Hfs Hdb.
  unfold install_plugin, install_plugin_try.
  apply emits_try_except; [|intros e; apply emits_ret].
  apply emits_bind.
  { unfold _check_existing_plugin, _check_existing_plugin_try, db_select_plugin.
    emits_tac; apply Hdb; reflexivity. }
  intros chk. destruct (exists_ chk); [apply emits_ret|].
  unfold_M. apply emits_bind; [apply emits_fs_prim, Hfs; reflexivity|].
  intros _. apply emits_bind.
  { apply copy_plugin_files_emits_when. intros c Hc. apply Hfs.
    destruct (is_unlink (FsEv c)); [discriminate (Hc eq_refl) | reflexivity]. }
  intros r. destruct (negb (success r)); [apply emits_ret|].
  unfold install_for_user, _perform_user_installation, _perform_user_installation_try,
    _create_database_records, _create_database_records_try,
    db_insert_plugin, db_insert_module.
  simpl for_each. emits_tac; apply Hdb; reflexivity.
Qed.

(** X3.  An install removes nothing: [install_plugin] never unlinks a file
    and never issues a DELETE, whatever fails on the way; every entry of the
    filesystem is still there afterwards, and every directory is still a
    directory (a file may have been overwritten by a copy). *)
Theorem install_plugin_removes_nothing (self : Manager) (user_id : string) (w : World) :
  let w' := snd (install_plugin self user_id w) in
  keeps_entries w w'
  /\ Forall (fun ev => is_unlink ev = false /\ is_delete ev = false) (new_events w w').
Proof.
  split; [apply install_plugin_keeps_entries|].
  apply emits_new_events, install_plugin_emits_when.
  - intros c Hc. split; [exact Hc | reflexivity].
  - intros c Hc. split; [reflexivity | exact Hc].
Qed.

(** X4.  Copying in update mode removes only stale targets: every file
    [_copy_plugin_files_impl] unlinks is the target, below [target_dir], of an
    entry below the source directory, and without [update] nothing is
    unlinked at all. *)
Theorem copy_unlinks_only_stale_targets (user_id : string) (target_dir : path)
    (update : bool) (w : World) :
  Forall (fun ev => forall p, ev = FsEv (Unlink p) ->
            update = true
            /\ exists src, below file_dir src = true
                           /\ p = (target_dir ++ relative_to file_dir src)%list)
         (new_events w (snd (_copy_plugin_files_impl user_id target_dir update w))).
Proof.
  apply emits_new_events.
  unfold _copy_plugin_files_impl, _copy_plugin_files_impl_try.
  apply emits_try_except; [|intros e; apply emits_ret].
  apply emits_bind_rglob; [intros p Hev; discriminate Hev|].
  intros items Hitems. apply emits_bind.
  { eapply emits_for_each; [exact Hitems|]. intros item acc Hitem. simpl in Hitem.
    unfold copy_item. emits_tac.
    all: intros p Hev; try discriminate Hev.
    inversion Hev; subst. split; [reflexivity|]. eauto. }
  intros copied. emits_tac.
  all: intros p Hev; try discriminate Hev.
  inversion Hev; subst. split; [reflexivity|].
  exists (file_dir ++ ["lifecycle_manager.py"])%list.
  rewrite !path_div_lifecycle_manager, relative_to_app.
  split; [apply below_app; discriminate | reflexivity].
Qed.

End Monotone.

(** ** The checks only read *)

Lemma read_only_refl (w : World) : read_only w w.
Proof. split; [reflexivity | apply same_db_refl]. Qed.

Lemma read_only_trans (a b c : World) : read_only a b -> read_only b c -> read_only a c.
Proof.
  intros [Hf1 Hd1] [Hf2 Hd2]. split; [congruence | exact (same_db_trans _ _ _ Hd1 Hd2)].
Qed.

Lemma read_only_fs_prim {A} (c : fs_call)
    (sem : gmap path node -> (exn + A) * gmap path node) :
  (forall f, snd (sem f) = f) -> preserves read_only (fs_prim c sem).
Proof.
  intros Hsem w. unfold fs_prim. destruct (fs_raises w c); [repeat split|].
  specialize (Hsem (files w)). destruct (sem (files w)) as [r f]. simpl in Hsem. subst f.
  repeat split.
Qed.

Lemma read_only_db_prim {A} (c : db_call) (sem : tables -> (exn + A) * tables) :
  (forall t, snd (sem t) = t) -> preserves read_only (db_prim c sem).
Proof.
  intros Hsem w. unfold db_prim. destruct (db_raises w c); [repeat split|].
  specialize (Hsem (pending w)). destruct (sem (pending w)) as [r t]. simpl in Hsem. subst t.
  repeat split.
Qed.

Lemma preserves_pure {A} (R : World -> World -> Prop) (m : M A) :
  (forall w, R w w) -> (forall w, snd (m w) = w) -> preserves R m.
Proof. intros HR Hm w. rewrite Hm. apply HR. Qed.

Lemma emits_pure {A} (P : event -> Prop) (m : M A) :
  (forall w, snd (m w) = w) -> emits P m.
Proof. intros Hm w. exists []. rewrite Hm, app_nil_r. auto. Qed.

Section OnlyRead.
Context `{Host}.

Lemma check_required_fields_pure (fields : list string) (data : json) (w : World) :
  snd (check_required_fields fields data w) = w.
Proof.
  destruct (check_required_fields_cases fields data w) as (r & -> & _). reflexivity.
Qed.

Lemma read_file_keeps (p : path) (f : gmap path node) : snd (read_file p f) = f.
Proof. unfold read_file. destruct (node_at f p) as [[c|]|]; reflexivity. Qed.

Lemma stat_size_keeps (p : path) (f : gmap path node) : snd (stat_size p f) = f.
Proof. unfold stat_size. destruct (node_at f p) as [[c|]|]; reflexivity. Qed.

Ltac read_only_tac :=
  preserves_tac read_only_refl read_only_trans;
  try first
    [ apply read_only_fs_prim; first [ reflexivity | apply read_file_keeps
                                     | apply stat_size_keeps ]
    | apply read_only_db_prim; reflexivity
    | apply (preserves_pure _ _ read_only_refl); apply check_required_fields_pure ].

Ltac emits_read_tac :=
  emits_tac;
  try first [ reflexivity | apply emits_pure; apply check_required_fields_pure ].

Lemma validate_installation_read_only (user_id : string) (plugin_dir : path) :
  preserves read_only (_validate_installation_impl user_id plugin_dir).
Proof.
  unfold _validate_installation_impl, _validate_installation_impl_try, try_except_only.
  read_only_tac.
Qed.

Lemma validate_installation_emits (user_id : string) (plugin_dir : path) :
  emits (fun ev => is_read ev = true) (_validate_installation_impl user_id plugin_dir).
Proof.
  unfold _validate_installation_impl, _validate_installation_impl_try, try_except_only,
    required_files.
  simpl for_each. emits_read_tac.
Qed.

Lemma get_plugin_health_read_only (user_id : string) (plugin_dir : path) :
  preserves read_only (_get_plugin_health_impl user_id plugin_dir).
Proof.
  unfold _get_plugin_health_impl, _get_plugin_health_impl_try, try_except_only.
  read_only_tac.
Qed.

Lemma get_plugin_health_emits (user_id : string) (plugin_dir : path) :
  emits (fun ev => is_read ev = true) (_get_plugin_health_impl user_id plugin_dir).
Proof.
  unfold _get_plugin_health_impl, _get_plugin_health_impl_try, try_except_only.
  emits_read_tac.
Qed.

(** X5.  Validation, health check and duplicate check only look: whatever
    they answer and whatever fails, files, tables (committed and pending),
    failure behaviour and clock are as before, and every external call they
    make is an existence test, an [open] for reading, a [stat] or the
    SELECT. *)
Theorem checks_only_read (user_id : string) (plugin_dir : path) (w : World) :
  (let w' := snd (_validate_installation_impl user_id plugin_dir w) in
   read_only w w' /\ Forall (fun ev => is_read ev = true) (new_events w w'))
  /\ (let w' := snd (_get_plugin_health_impl user_id plugin_dir w) in
      read_only w w' /\ Forall (fun ev => is_read ev = true) (new_events w w'))
  /\ (let w' := snd (_check_existing_plugin user_id w) in
      read_only w w' /\ Forall (fun ev => is_read ev = true) (new_events w w')).
Proof.
  split; [|split].
  - split; [apply validate_installation_read_only|].
    apply emits_new_events, validate_installation_emits.
  - split; [apply get_plugin_health_read_only|].
    apply emits_new_events, get_plugin_health_emits.
  - rewrite check_existing_plugin_run. simpl. split; [repeat split|].
    unfold new_events. simpl. rewrite drop_app_length. repeat constructor.
Qed.

End OnlyRead.

(** ** The manager and the transaction *)

Section Bookkeeping.
Context `{Host}.

Lemma create_database_records_env (user_id : string) :
  preserves same_env (_create_database_records user_id).
Proof.
  unfold _create_database_records.
  apply (preserves_try_except _ same_env_trans);
    [apply create_database_records_try_env|].
  intros e. same_env_tac.
Qed.

Lemma delete_database_records_env (user_id plugin_id : string) :
  preserves same_env (_delete_database_records user_id plugin_id).
Proof.
  unfold _delete_database_records.
  apply (preserves_try_except _ same_env_trans);
    [apply delete_database_records_try_env|].
  intros e. same_env_tac.
Qed.

Lemma install_plugin_env (self : Manager) (user_id : string) :
  preserves same_env (install_plugin self user_id).
Proof.
  intros w.
  destruct (install_plugin_outcome self user_id w)
    as [(error & _ & [_ He]) | (w3 & [_ He] & _ & Ew & _)]; [exact He|].
  rewrite Ew. exact (same_env_trans _ _ _ He (create_database_records_env user_id w3)).
Qed.

Lemma delete_plugin_env (self : Manager) (user_id : string) :
  preserves same_env (delete_plugin self user_id).
Proof.
  intros w.
  destruct (delete_plugin_outcome self user_id w)
    as [(error & _ & [_ He]) | (row & _ & _ & _ & Ew & _)]; [exact He|].
  rewrite Ew.
  refine (same_env_trans _ _ _ _ (delete_database_records_env user_id (p_id row) _)).
  repeat split.
Qed.

(** X6.  The manager keeps track of its users: [install_plugin] returns the
    manager with the user added to [active_users] and [last_used] set to the
    time of the call exactly when it reports success, which it only does
    for a user who was not active; [delete_plugin] returns it with the user
    removed exactly when it reports success, which it only does for a
    user who was active.  After a failure the manager is unchanged. *)
Theorem manager_tracks_active_users (self : Manager) (user_id : string) (w : World) :
  (exists res self',
     fst (install_plugin self user_id w) = inr (res, self')
     /\ self' = (if success res then activated self user_id (clock w) else self)
     /\ (success res = true -> user_id ∉ active_users self))
  /\ (exists res self',
        fst (delete_plugin self user_id w) = inr (res, self')
        /\ self' = (if success res then deactivated self user_id (clock w) else self)
        /\ (success res = true -> user_id ∈ active_users self)).
Proof.
  split.
  - destruct (install_plugin_env self user_id w) as (_ & _ & Hclock).
    destruct (install_plugin_outcome self user_id w)
      as [(error & E & _) | (w3 & _ & Hact & _ & [(_ & E) | (_ & error & E)])].
    + exists (Failure error), self. split; [exact E|]. split; [reflexivity|]. discriminate.
    + rewrite Hclock in E. eexists _, _. split; [exact E|]. split; [reflexivity|]. auto.
    + exists (Failure error), self. split; [exact E|]. split; [reflexivity|]. discriminate.
  - destruct (delete_plugin_env self user_id w) as (_ & _ & Hclock).
    destruct (delete_plugin_outcome self user_id w)
      as [(error & E & _) | (row & Hact & _ & _ & _ & [(n & _ & E) | (_ & error & E)])].
    + exists (Failure error), self. split; [exact E|]. split; [reflexivity|]. discriminate.
    + rewrite Hclock in E. eexists _, _. split; [exact E|]. split; [reflexivity|]. auto.
    + exists (Failure error), self. split; [exact E|]. split; [reflexivity|]. discriminate.
Qed.

(** X7.  A failed operation commits nothing: when [install_plugin] or
    [delete_plugin] reports a failure the committed tables are as before;
    and if the session was clean and [db.rollback()] works, the session sees
    the same rows as before too. *)
Theorem failed_operation_changes_no_row (self : Manager) (user_id : string) (w : World) :
  (let run := install_plugin self user_id w in
   success_of (fst run) = false ->
   committed (snd run) = committed w
   /\ (pending w = committed w -> db_raises w Rollback = None ->
       pending (snd run) = pending w))
  /\ (let run := delete_plugin self user_id w in
      success_of (fst run) = false ->
      committed (snd run) = committed w
      /\ (pending w = committed w -> db_raises w Rollback = None ->
          pending (snd run) = pending w)).
Proof.
  split.
  - intros run Hfail. subst run.
    destruct (install_plugin_cases self user_id w)
      as [(_ & (Hp & Hc) & _) | (w2 & cr & w3 & _ & _ & ((Hp & Hc) & (Hdb & _)) & Ew & Es)].
    { split; [exact Hc | intros _ _; exact Hp]. }
    rewrite Ew. rewrite Es in Hfail.
    destruct (create_database_records_cases user_id w3) as (_ & [(Er & _) | (_ & Ec & Ep)]).
    { rewrite Er in Hfail. discriminate Hfail. }
    split; [congruence|]. intros Hclean Hrb.
    rewrite Hdb, Hrb in Ep. congruence.
  - intros run Hfail. subst run.
    destruct (delete_plugin_cases self user_id w)
      as [(_ & (Hp & Hc) & _) | (row & w1 & ((Hp & Hc) & (Hdb & _)) & _ & Ew & Es)].
    { split; [exact Hc | intros _ _; exact Hp]. }
    rewrite Ew. rewrite Es in Hfail.
    destruct (delete_database_records_cases user_id (p_id row) w1)
      as (_ & [((n & Er) & _) | (_ & Ec & Ep)]).
    { rewrite Er in Hfail. discriminate Hfail. }
    split; [congruence|]. intros Hclean Hrb.
    rewrite Hdb, Hrb in Ep. congruence.
Qed.

Lemma install_by_active_manager_emits (self : Manager) (user_id : string) :
  user_id ∈ active_users self ->
  emits (fun ev => is_db_write ev = false) (install_plugin self user_id).
Proof.
  intros Hact. unfold install_plugin, install_plugin_try.
  apply emits_try_except; [|intros e; apply emits_ret].
  apply emits_bind.
  { unfold _check_existing_plugin, _check_existing_plugin_try, db_select_plugin.
    emits_tac; reflexivity. }
  intros chk. destruct (exists_ chk); [apply emits_ret|].
  unfold_M. apply emits_bind; [apply emits_fs_prim; reflexivity|].
  intros _. apply emits_bind.
  { apply copy_plugin_files_emits_when. reflexivity. }
  intros r. destruct (negb (success r)); [apply emits_ret|].
  unfold install_for_user. rewrite bool_decide_eq_true_2 by exact Hact. apply emits_ret.
Qed.

(** X8.  A manager that already counts the user among its active users
    installs nothing for them: [install_plugin] fails, the manager and the
    tables are unchanged, and no INSERT, DELETE or COMMIT is issued, whatever
    the database holds. *)
Theorem install_by_active_manager_fails (self : Manager) (user_id : string) (w : World) :
  user_id ∈ active_users self ->
  let run := install_plugin self user_id w in
  (exists error, fst run = inr (Failure error, self))
  /\ same_tables w (snd run)
  /\ Forall (fun ev => is_db_write ev = false) (new_events w (snd run)).
Proof.
  intros Hact run. subst run.
  split; [|split].
  - destruct (install_plugin_outcome self user_id w)
      as [(error & E & _) | (w3 & _ & Hnot & _)]; [eauto|].
    exfalso. exact (Hnot Hact).
  - destruct (install_plugin_outcome self user_id w)
      as [(error & _ & Hdb & _) | (w3 & _ & Hnot & _)]; [exact Hdb|].
    exfalso. exact (Hnot Hact).
  - apply emits_new_events, install_by_active_manager_emits, Hact.
Qed.

End Bookkeeping.

(** ** Installing and removing *)

Lemma filter_negb_all {A} (f : A -> bool) (l : list A) :
  List.filter f l = [] -> List.filter (fun x => negb (f x)) l = l.
Proof.
  induction l as [|x l IH]; simpl; [reflexivity|].
  destruct (f x); simpl; [discriminate|]. intros E. rewrite (IH E). reflexivity.
Qed.

Lemma filter_nonempty_in {A} (f : A -> bool) (l : list A) (x : A) :
  In x l -> f x = true -> List.filter f l <> [].
Proof.
  intros Hin Hf E.
  assert (Hx : In x (List.filter f l)) by (apply List.filter_In; auto).
  rewrite E in Hx. exact Hx.
Qed.

Section RoundTrip.
Context `{Host}.

Lemma delete_database_records_quiet (user_id plugin_id : string) (w : World) :
  db_quiet w ->
  List.filter (plugin_id_matches plugin_id user_id) (plugin (pending w)) <> [] ->
  fst (_delete_database_records user_id plugin_id w)
  = inr (DeleteOk (length (List.filter (module_matches plugin_id user_id)
                                       (module (pending w))))).
Proof.
  intros Hq Hrow.
  unfold _delete_database_records, _delete_database_records_try, try_except. unfold_M.
  unfold bind, db_delete_module, db_delete_plugin, db_commit, db_prim,
    delete_module, delete_plugin_rows.
  rewrite !Hq. simpl. rewrite !Hq. simpl.
  destruct (length _ =? 0)%nat eqn:E.
  - apply Nat.eqb_eq, length_zero_iff_nil in E. contradiction.
  - simpl. rewrite Hq. reflexivity.
Qed.

Lemma delete_plugin_run (self : Manager) (user_id : string) (w : World)
    (row : plugin_row) (n : nat) :
  user_id ∈ active_users self ->
  db_raises w (SelectPlugin user_id slug) = None ->
  head (plugin_rows_of user_id (pending w)) = Some row ->
  fst (_delete_database_records user_id (p_id row)
         (log (DbEv (SelectPlugin user_id slug)) w)) = inr (DeleteOk n) ->
  delete_plugin self user_id w
  = (inr (UninstallOk (p_id row) n, deactivated self user_id (clock w)),
     snd (_delete_database_records user_id (p_id row)
            (log (DbEv (SelectPlugin user_id slug)) w))).
Proof.
  intros Hact Hsel Hrow Hdel.
  pose proof (delete_database_records_env user_id (p_id row)
                (log (DbEv (SelectPlugin user_id slug)) w)) as (_ & _ & Hclock).
  unfold delete_plugin, uninstall_for_user.
  rewrite bool_decide_eq_true_2 by exact Hact. cbn [negb].
  unfold_M. unfold bind at 1.
  unfold _perform_user_uninstallation, _perform_user_uninstallation_try.
  unfold_M. unfold try_except at 1.
  rewrite (bind_inr _ _ _ _ _ (check_existing_plugin_run user_id w)).
  rewrite Hsel, Hrow. cbn [check_found exists_ found_plugin_id].
  unfold bind at 1.
  destruct (_delete_database_records user_id (p_id row)
              (log (DbEv (SelectPlugin user_id slug)) w)) as [r w2].
  simpl in Hdel, Hclock |- *. subst r. simpl. unfold bind, now, ret.
  rewrite Hclock. reflexivity.
Qed.

(** X9.  Uninstalling works when it can: for a user the manager counts as
    active and whose plugin row is there, in consistent tables and with a
    database that answers, [delete_plugin] succeeds; it reports the
    identifier [<user_id>_CollectionViewer] and the number of module rows it
    deleted, drops the user from the manager, and leaves no row of
    that user behind, all of it committed. *)
Theorem delete_plugin_succeeds (self : Manager) (user_id : string) (w : World) :
  db_quiet w ->
  db_inv (pending w) ->
  user_id ∈ active_users self ->
  plugin_rows_of user_id (pending w) <> [] ->
  let run := delete_plugin self user_id w in
  fst run = inr (UninstallOk (user_id +:+ "_CollectionViewer")
                             (length (module_rows_of user_id (pending w))),
                 deactivated self user_id (clock w))
  /\ plugin_rows_of user_id (pending (snd run)) = []
  /\ module_rows_of user_id (pending (snd run)) = []
  /\ committed (snd run) = pending (snd run).
Proof.
  intros Hq Hinv Hact Hne run. subst run.
  destruct (plugin_rows_of user_id (pending w)) as [|row rest] eqn:Erows; [congruence|].
  assert (Hhead : head (plugin_rows_of user_id (pending w)) = Some row)
    by (rewrite Erows; reflexivity).
  pose proof (found_row_id user_id (pending w) row Hinv Hhead) as Hid.
  assert (Hin : In row (plugin_rows_of user_id (pending w)))
    by (rewrite Erows; left; reflexivity).
  apply List.filter_In in Hin as [Hin Hm].
  apply andb_true_iff in Hm as [Hu _].
  set (w1 := log (DbEv (SelectPlugin user_id slug)) w).
  assert (Hfound : List.filter (plugin_id_matches (p_id row) user_id) (plugin (pending w1))
                   <> []).
  { apply (filter_nonempty_in _ _ row Hin). unfold plugin_id_matches.
    rewrite String.eqb_refl, Hu. reflexivity. }
  assert (Hq1 : db_quiet w1) by (intros c; apply Hq).
  pose proof (delete_database_records_quiet user_id (p_id row) w1 Hq1 Hfound) as Hdel.
  rewrite (delete_plugin_run self user_id w row _ Hact (Hq _) Hhead Hdel).
  cbn [fst snd]. rewrite Hid. split; [reflexivity|].
  rewrite Hid in Hdel.
  destruct (delete_database_records_cases user_id (plugin_id_of user_id) w1)
    as (_ & [(_ & Ep & Ec) | (Habs & _)]).
  2:{ rewrite Hdel in Habs. discriminate Habs. }
  fold w1. rewrite Ec, Ep.
  pose proof (without_module_rows_inv (plugin_id_of user_id) user_id (pending w) Hinv)
    as Hinv1.
  split; [|split; [|reflexivity]].
  - change (pending w1) with (pending w).
    rewrite (plugin_rows_without user_id user_id _ Hinv1), String.eqb_refl. reflexivity.
  - change (module_rows_of user_id
              (without_plugin_rows (plugin_id_of user_id) user_id
                 (without_module_rows (plugin_id_of user_id) user_id (pending w1))))
      with (module_rows_of user_id
              (without_module_rows (plugin_id_of user_id) user_id (pending w))).
    rewrite module_rows_without, String.eqb_refl. reflexivity.
Qed.

End RoundTrip.

Section Restore.
Context `{Host}.

Lemma plugin_rows_other_without (plugin_id user_id other : string) (t : tables) :
  other <> user_id ->
  plugin_rows_of other (without_plugin_rows plugin_id user_id t) = plugin_rows_of other t.
Proof.
  intros Hne. unfold plugin_rows_of, without_plugin_rows. cbn [plugin].
  apply filter_filter_keep. intros r _ Hm.
  apply andb_true_iff in Hm as [Hu _]. apply String.eqb_eq in Hu.
  unfold plugin_id_matches. rewrite Hu.
  destruct (String.eqb_spec other user_id); [congruence|].
  rewrite andb_false_r. reflexivity.
Qed.

Lemma module_rows_other_without (plugin_id user_id other : string) (t : tables) :
  other <> user_id ->
  module_rows_of other (without_module_rows plugin_id user_id t) = module_rows_of other t.
Proof.
  intros Hne. unfold module_rows_of, without_module_rows. cbn [module].
  apply filter_filter_keep. intros r _ Hm.
  apply andb_true_iff in Hm as [_ Hu]. apply String.eqb_eq in Hu.
  unfold module_matches. rewrite Hu.
  destruct (String.eqb_spec other user_id); [congruence|].
  rewrite andb_false_r. reflexivity.
Qed.

Lemma same_rows_of_refl (u : string) (t : tables) : same_rows_of u t t.
Proof. split; reflexivity. Qed.

Lemma same_rows_of_created (user_id other now : string) (t : tables) :
  other <> user_id ->
  same_rows_of other t (with_plugin_row user_id now t)
  /\ same_rows_of other t (with_module_rows user_id now (with_plugin_row user_id now t)).
Proof.
  intros Hne.
  assert (E : String.eqb user_id other = false)
    by (apply String.eqb_neq; congruence).
  assert (H1 : plugin_rows_of other (with_plugin_row user_id now t) = plugin_rows_of other t)
    by (rewrite plugin_rows_with_plugin_row, E, app_nil_r; reflexivity).
  assert (H2 : module_rows_of other
                 (with_module_rows user_id now (with_plugin_row user_id now t))
               = module_rows_of other t)
    by (rewrite module_rows_with_module_rows, E, app_nil_r; reflexivity).
  split; split; [exact H1 | reflexivity | exact H1 | exact H2].
Qed.

Lemma same_rows_of_deleted (plugin_id user_id other : string) (t : tables) :
  other <> user_id ->
  same_rows_of other t (without_module_rows plugin_id user_id t)
  /\ same_rows_of other t
       (without_plugin_rows plugin_id user_id (without_module_rows plugin_id user_id t)).
Proof.
  intros Hne.
  pose proof (module_rows_other_without plugin_id user_id other t Hne) as H1.
  pose proof (plugin_rows_other_without plugin_id user_id other
                (without_module_rows plugin_id user_id t) Hne) as H2.
  split; split; [reflexivity | exact H1 | exact H2 | exact H1].
Qed.

(** X12.  The rows of other users are not touched: whatever fails, an
    [install_plugin] or [delete_plugin] for one user leaves the plugin rows
    and module rows of every other user as they were, in the session and
    in what is committed, provided the session was clean when the operation
    started. *)
Theorem other_users_rows_untouched
    (self : Manager) (user_id other : string) (w : World) :
  other <> user_id ->
  pending w = committed w ->
  (let w' := snd (install_plugin self user_id w) in
   same_rows_of other (pending w) (pending w')
   /\ same_rows_of other (committed w) (committed w'))
  /\ (let w' := snd (delete_plugin self user_id w) in
      same_rows_of other (pending w) (pending w')
      /\ same_rows_of other (committed w) (committed w')).
Proof.
  intros Hne Hclean. split.
  - destruct (install_plugin_cases self user_id w)
      as [(_ & (Hp & Hc) & _) | (w2 & cr & w3 & _ & _ & ((Hp & Hc) & _) & Ew & _)].
    { cbv zeta. rewrite Hp, Hc. split; apply same_rows_of_refl. }
    cbv zeta. rewrite Ew.
    destruct (same_rows_of_created user_id other (clock w3) (pending w) Hne) as [H1 H2].
    destruct (create_database_records_cases user_id w3)
      as (_ & [(_ & _ & Ep & Ec) | (_ & Ec & Ep)]).
    + rewrite Ec, Ep, Hp, <- Hclean. split; exact H2.
    + rewrite Ec, Hc. split; [|apply same_rows_of_refl].
      destruct (db_raises w3 Rollback).
      * destruct Ep as [Ep | (_ & [Ep | Ep])]; rewrite Ep, Hp;
          [apply same_rows_of_refl | exact H1 | exact H2].
      * rewrite Ep, Hc, <- Hclean. apply same_rows_of_refl.
  - destruct (delete_plugin_cases self user_id w)
      as [(_ & (Hp & Hc) & _) | (row & w1 & ((Hp & Hc) & _) & _ & Ew & _)].
    { cbv zeta. rewrite Hp, Hc. split; apply same_rows_of_refl. }
    cbv zeta. rewrite Ew.
    destruct (same_rows_of_deleted (p_id row) user_id other (pending w) Hne) as [H1 H2].
    destruct (delete_database_records_cases user_id (p_id row) w1)
      as (_ & [(_ & Ep & Ec) | (_ & Ec & Ep)]).
    + rewrite Ec, Ep, Hp, <- Hclean. split; exact H2.
    + rewrite Ec, Hc. split; [|apply same_rows_of_refl].
      destruct (db_raises w1 Rollback).
      * destruct Ep as [Ep | [Ep | Ep]]; rewrite Ep, Hp;
          [apply same_rows_of_refl | exact H1 | exact H2].
      * rewrite Ep, Hc, <- Hclean. apply same_rows_of_refl.
Qed.

End Restore.

(** ** The further properties in the demo deployment *)

(** The demo world in which [alice] has the plugin is consistent. *)
Lemma demo_w1_inv : world_inv Demo.w1.
Proof.
  assert (Hinv : db_inv Demo.alice_tables).
  { apply (with_module_rows_inv (H := Demo.host)); [|reflexivity].
    apply never_installed_inv. split; intros u; reflexivity. }
  split; exact Hinv.
Qed.

Lemma copy_unlinks_only_stale_targets_witness :
  let target := shared_path Demo.manager in
  let run := _copy_plugin_files_impl (H := Demo.host) "alice" target true Demo.w1 in
  In (FsEv (Unlink (target ++ ["package.json"])%list)) (new_events Demo.w1 (snd run))
  /\ exists src, below Demo.plugin_dir src = true
                 /\ (target ++ ["package.json"])%list
                    = (target ++ relative_to Demo.plugin_dir src)%list.
Proof.
  intros target run.
  assert (Hin : In (FsEv (Unlink (target ++ ["package.json"])%list))
                   (new_events Demo.w1 (snd run))).
  { vm_compute. repeat first [left; reflexivity | right]. }
  split; [exact Hin|].
  pose proof (copy_unlinks_only_stale_targets (H := Demo.host) "alice" target true Demo.w1)
    as Hall.
  rewrite List.Forall_forall in Hall.
  exact (proj2 (Hall _ Hin _ eq_refl)).
Defined.

Lemma manager_tracks_active_users_witness :
  let self := activated Demo.manager "alice" "2024-01-01 00:00:00" in
  success_of (fst (delete_plugin self "alice" Demo.w1)) = true
  /\ "alice" ∈ active_users self.
Proof.
  intros self.
  assert (Hs : success_of (fst (delete_plugin self "alice" Demo.w1)) = true)
    by (vm_compute; reflexivity).
  split; [exact Hs|].
  destruct (manager_tracks_active_users (H := Demo.host) self "alice" Demo.w1)
    as [_ (res & self' & E & _ & Hin)].
  apply Hin. rewrite E in Hs. exact Hs.
Defined.

Lemma failed_operation_changes_no_row_witness :
  let w := with_env Demo.quiet_fs Demo.select_fails "2024-01-02 00:00:00" Demo.w0 in
  let run := install_plugin (H := Demo.host) Demo.manager "alice" w in
  success_of (fst run) = false
  /\ committed (snd run) = committed w
  /\ pending (snd run) = pending w.
Proof.
  intros w run.
  assert (Hfail : success_of (fst run) = false) by (vm_compute; reflexivity).
  destruct (failed_operation_changes_no_row (H := Demo.host) Demo.manager "alice" w)
    as [Hinstall _].
  destruct (Hinstall Hfail) as [Hc Hp].
  split; [exact Hfail|]. split; [exact Hc|]. apply Hp; reflexivity.
Defined.

Lemma install_by_active_manager_fails_witness :
  let self := activated Demo.manager "alice" "2024-01-01 00:00:00" in
  "alice" ∈ active_users self
  /\ exists error,
       fst (install_plugin (H := Demo.host) self "alice" Demo.w0) = inr (Failure error, self).
Proof.
  intros self.
  assert (Hact : "alice" ∈ active_users self) by (apply elem_of_union_r, elem_of_singleton_2; reflexivity).
  split; [exact Hact|].
  exact (proj1 (install_by_active_manager_fails (H := Demo.host) self "alice" Demo.w0 Hact)).
Defined.

Lemma delete_plugin_succeeds_witness :
  let self := activated Demo.manager "alice" "2024-01-01 00:00:00" in
  (db_quiet Demo.w1 /\ "alice" ∈ active_users self
   /\ plugin_rows_of "alice" (pending Demo.w1) <> [])
  /\ fst (delete_plugin self "alice" Demo.w1)
     = inr (UninstallOk "alice_CollectionViewer" 1,
            deactivated self "alice" "2024-01-01 00:00:00").
Proof.
  intros self.
  assert (Hq : db_quiet Demo.w1) by (intros c; reflexivity).
  assert (Hact : "alice" ∈ active_users self)
    by (apply elem_of_union_r, elem_of_singleton_2; reflexivity).
  assert (Hrow : plugin_rows_of "alice" (pending Demo.w1) <> [])
    by (vm_compute; discriminate).
  split; [auto|].
  exact (proj1 (delete_plugin_succeeds self "alice" Demo.w1
                  Hq (proj1 demo_w1_inv) Hact Hrow)).
Defined.

Lemma other_users_rows_untouched_witness :
  "alice" <> "bob"
  /\ pending Demo.w1 = committed Demo.w1
  /\ same_rows_of "alice" (pending Demo.w1)
       (pending (snd (install_plugin (H := Demo.host) Demo.manager "bob" Demo.w1))).
Proof.
  assert (Hne : "alice" <> "bob") by discriminate.
  assert (Hclean : pending Demo.w1 = committed Demo.w1) by (vm_compute; reflexivity).
  split; [exact Hne|]. split; [exact Hclean|].
  destruct (other_users_rows_untouched (H := Demo.host) Demo.manager "bob" "alice" Demo.w1
              Hne Hclean) as [[Hp _] _].
  exact Hp.
Defined.

(** ** What validation and the health check answer *)

Section Answers.
Context `{Host}.

(** The answer of validation, read off the plugin directory, when the
    filesystem answers. *)
Lemma validate_installation_table (user_id : string) (plugin_dir : path) (w : World) :
  fs_quiet w ->
  let v := fst (_validate_installation_impl user_id plugin_dir w) in
  match node_at (files w) (package_json_of plugin_dir),
        node_at (files w) (bundle_of plugin_dir) with
  | Some (File content), Some bundle =>
      match json_load content with
      | inl e => v = inr (invalid (package_json_error e))
      | inr package_data =>
          match json_in "name" package_data with
          | inl e => v = inr (invalid (package_json_error e))
          | inr false => v = inr (invalid "package.json missing required field: name")
          | inr true =>
              match json_in "version" package_data with
              | inl e => v = inr (invalid (package_json_error e))
              | inr false =>
                  v = inr (invalid "package.json missing required field: version")
              | inr true =>
                  v = inr (if (node_size bundle =? 0)%nat
                           then invalid "Bundle file is empty"
                           else {| valid := true; validation_error := None |})
              end
          end
      end
  | Some Dir, Some _ => exists error, v = inr (invalid error)
  | package_json, bundle =>
      v = inr (invalid ("Missing required files: " +:+
                        join_comma
                          (match package_json with Some _ => [] | None => ["package.json"] end
                           ++ match bundle with
                              | Some _ => []
                              | None => ["dist/remoteEntry.js"]
                              end)))
  end.
Proof.
  intros Hq v. subst v.
  destruct (missing_files_run plugin_dir w Hq) as (w1 & Erun & Hf & Hq1).
  unfold _validate_installation_impl, _validate_installation_impl_try, try_except.
  rewrite (bind_inr _ _ _ _ _ Erun).
  unfold package_json_of, bundle_of, exists_at.
  destruct (node_at (files w) (plugin_dir ++ ["package.json"])%list) as [pk|] eqn:Epkg;
    destruct (node_at (files w) (plugin_dir ++ ["dist"; "remoteEntry.js"])%list)
      as [bn|] eqn:Eb; cbn [app].
  2:{ destruct pk; reflexivity. }
  2:{ reflexivity. }
  2:{ reflexivity. }
  change (plugin_dir </> "package.json") with (plugin_dir ++ ["package.json"])%list.
  rewrite !path_div_bundle. unfold_M.
  unfold try_except_only, try_except, bind.
  rewrite (open_read_quiet _ w1 Hq1). unfold read_file. rewrite Hf, Epkg.
  set (w2 := log (FsEv (Open (plugin_dir ++ ["package.json"])%list)) w1).
  assert (Hstat : path_stat_size (plugin_dir ++ ["dist"; "remoteEntry.js"])%list w2
                  = (inr (node_size bn),
                     log (FsEv (Stat (plugin_dir ++ ["dist"; "remoteEntry.js"])%list)) w2)).
  { rewrite path_stat_size_quiet by (apply fs_quiet_log, Hq1).
    unfold stat_size. simpl files. rewrite Hf, Eb. destruct bn; reflexivity. }
  destruct pk as [c|]; cbn [fst].
  2:{ eexists. reflexivity. }
  unfold package_json_error.
  destruct (json_load c) as [e|data] eqn:Ej.
  { unfold raise. destruct (is_json_decode_error e || is_file_not_found e); reflexivity. }
  unfold required_fields. cbn [check_required_fields].
  destruct (json_in "name" data) as [e|[|]] eqn:En.
  { unfold raise. destruct (is_json_decode_error e || is_file_not_found e); reflexivity. }
  2:{ reflexivity. }
  destruct (json_in "version" data) as [e|[|]] eqn:Ev.
  { unfold raise. destruct (is_json_decode_error e || is_file_not_found e); reflexivity. }
  2:{ reflexivity. }
  unfold_M. unfold ret. rewrite Hstat.
  destruct (node_size bn =? 0)%nat; reflexivity.
Qed.

(** The answer of the health check, read off the plugin directory. *)
Lemma get_plugin_health_table (user_id : string) (plugin_dir : path) (w : World) :
  fs_quiet w ->
  let h := fst (_get_plugin_health_impl user_id plugin_dir w) in
  let bundle := node_at (files w) (bundle_of plugin_dir) in
  let be := match bundle with Some _ => true | None => false end in
  let size := match bundle with Some nd => node_size nd | None => 0%nat end in
  match node_at (files w) (package_json_of plugin_dir) with
  | None =>
      h = inr {| healthy := false;
                 details := HealthInfo {| bundle_exists := be; bundle_size := size;
                                          package_json_valid := false |} |}
  | Some Dir => exists error, h = inr {| healthy := false; details := HealthError error |}
  | Some (File content) =>
      match json_load content with
      | inr _ =>
          h = inr {| healthy := be && (0 <? size)%nat;
                     details := HealthInfo {| bundle_exists := be; bundle_size := size;
                                              package_json_valid := true |} |}
      | inl e =>
          h = inr (if is_json_decode_error e
                   then {| healthy := false;
                           details := HealthInfo {| bundle_exists := be;
                                                    bundle_size := size;
                                                    package_json_valid := false |} |}
                   else {| healthy := false; details := HealthError (str_exn e) |})
      end
  end.
Proof.
  intros Hq h bundle be size. subst h be size bundle.
  unfold _get_plugin_health_impl, _get_plugin_health_impl_try, try_except.
  rewrite !path_div_bundle.
  change (plugin_dir </> "package.json") with (plugin_dir ++ ["package.json"])%list.
  unfold package_json_of, bundle_of. unfold_M.
  set (bp := (plugin_dir ++ ["dist"; "remoteEntry.js"])%list).
  set (pp := (plugin_dir ++ ["package.json"])%list).
  rewrite (bind_inr _ _ _ _ _ (path_exists_quiet bp w Hq)).
  set (w1 := log (FsEv (Exists bp)) w).
  assert (Hq1 : fs_quiet w1) by (apply fs_quiet_log, Hq).
  unfold exists_at.
  assert (Hb : exists w2, fs_quiet w2 /\ files w2 = files w /\
            (if match node_at (files w) bp with Some _ => true | None => false end
             then bind (path_stat_size bp) (fun size => ret (true, size))
             else ret (false, 0%nat)) w1
            = (inr (match node_at (files w) bp with Some _ => true | None => false end,
                    match node_at (files w) bp with Some nd => node_size nd | None => 0%nat end),
               w2)).
  { destruct (node_at (files w) bp) as [nd|] eqn:Eb.
    - exists (log (FsEv (Stat bp)) w1). split; [apply fs_quiet_log, Hq1|].
      split; [reflexivity|]. unfold bind. rewrite (path_stat_size_quiet bp w1 Hq1).
      unfold stat_size. change (files w1) with (files w). rewrite Eb.
      destruct nd; reflexivity.
    - exists w1. auto. }
  destruct Hb as (w2 & Hq2 & Hf2 & Eb).
  rewrite (bind_inr _ _ _ _ _ Eb). clear Eb.
  rewrite (bind_inr _ _ _ _ _ (path_exists_quiet pp w2 Hq2)).
  set (w3 := log (FsEv (Exists pp)) w2).
  assert (Hq3 : fs_quiet w3) by (apply fs_quiet_log, Hq2).
  unfold exists_at. rewrite Hf2.
  destruct (node_at (files w) pp) as [pk|] eqn:Epk.
  2:{ unfold bind, ret. cbv zeta. cbn [fst snd]. rewrite ?andb_false_r. reflexivity. }
  unfold try_except_only, try_except, bind.
  rewrite (open_read_quiet pp w3 Hq3). unfold read_file.
  change (files w3) with (files w2). rewrite Hf2, Epk.
  destruct pk as [c|]; cbn [fst snd].
  2:{ eexists. reflexivity. }
  destruct (json_load c) as [e|data].
  - unfold raise. destruct (is_json_decode_error e); unfold ret; cbv zeta; cbn [fst snd];
      rewrite ?andb_false_r; reflexivity.
  - unfold ret. cbv zeta. cbn [fst snd]. rewrite ?andb_true_r. reflexivity.
Qed.

Lemma validate_installation_cases (user_id : string) (plugin_dir : path) (w : World) :
  fs_quiet w ->
  let v := fst (_validate_installation_impl user_id plugin_dir w) in
  (passes_validation plugin_dir (files w)
   /\ v = inr {| valid := true; validation_error := None |})
  \/ (~ passes_validation plugin_dir (files w) /\ exists error, v = inr (invalid error)).
Proof.
  intros Hq v. subst v.
  pose proof (validate_installation_table user_id plugin_dir w Hq) as T. cbv zeta in T.
  destruct (node_at (files w) (package_json_of plugin_dir)) as [[c|]|] eqn:Epk;
    destruct (node_at (files w) (bundle_of plugin_dir)) as [bn|] eqn:Eb.
  2-6: right; split;
       [ intros (c' & d' & nd' & H1 & _ & _ & _ & H5 & _); congruence
       | first [exact T | eexists; exact T] ].
  destruct (json_load c) as [e|data] eqn:Ej.
  { right. split; [|eexists; exact T].
    intros (c' & d' & nd' & H1 & H2 & _). congruence. }
  destruct (json_in "name" data) as [e|[|]] eqn:En.
  1,3: right; split; [|eexists; exact T];
       intros (c' & d' & nd' & H1 & H2 & H3 & _); congruence.
  destruct (json_in "version" data) as [e|[|]] eqn:Ev.
  1,3: right; split; [|eexists; exact T];
       intros (c' & d' & nd' & H1 & H2 & H3 & H4 & _); congruence.
  destruct (node_size bn =? 0)%nat eqn:Es.
  - right. split; [|eexists; exact T].
    intros (c' & d' & nd' & H1 & H2 & H3 & H4 & H5 & H6).
    apply Nat.eqb_eq in Es. congruence.
  - left. split; [|exact T]. apply Nat.eqb_neq in Es.
    exists c, data, bn. auto 10.
Qed.

Lemma get_plugin_health_cases (user_id : string) (plugin_dir : path) (w : World) :
  fs_quiet w ->
  let h := fst (_get_plugin_health_impl user_id plugin_dir w) in
  (exists bundle,
     looks_healthy plugin_dir (files w)
     /\ node_at (files w) (bundle_of plugin_dir) = Some bundle
     /\ h = inr {| healthy := true;
                   details := HealthInfo {| bundle_exists := true;
                                            bundle_size := node_size bundle;
                                            package_json_valid := true |} |})
  \/ (~ looks_healthy plugin_dir (files w)
      /\ exists d, h = inr {| healthy := false; details := d |}).
Proof.
  intros Hq h. subst h.
  pose proof (get_plugin_health_table user_id plugin_dir w Hq) as T. cbv zeta in T.
  destruct (node_at (files w) (package_json_of plugin_dir)) as [[c|]|] eqn:Epk.
  2,3: right; split;
       [ intros (c' & d' & nd' & H1 & _); congruence
       | first [eexists; exact T | destruct T as [error T]; eexists; exact T] ].
  destruct (json_load c) as [e|data] eqn:Ej.
  { right. split; [intros (c' & d' & nd' & H1 & H2 & _); congruence|].
    destruct (is_json_decode_error e); eexists; exact T. }
  destruct (node_at (files w) (bundle_of plugin_dir)) as [bn|] eqn:Eb.
  2:{ right. split; [intros (c' & d' & nd' & _ & _ & H3 & _); congruence|].
      eexists. exact T. }
  destruct (0 <? node_size bn)%nat eqn:Es.
  - left. exists bn. apply Nat.ltb_lt in Es.
    assert (Hs : node_size bn <> 0%nat) by lia.
    split; [exists c, data, bn; auto 10|]. split; [reflexivity | exact T].
  - right. apply Nat.ltb_ge in Es.
    split; [intros (c' & d' & nd' & _ & _ & H3 & H4); rewrite Eb in H3;
            injection H3 as E3; subst nd'; lia|].
    eexists. exact T.
Qed.

(** X13.  When the filesystem answers, validation passes exactly for a
    plugin directory in which [package.json] is a file that loads as JSON
    and has the fields [name] and [version], and in which
    [dist/remoteEntry.js] exists with a size other than zero; in every other
    case it answers [valid = False] with an error. *)
Theorem validation_passes_exactly_when
    (user_id : string) (plugin_dir : path) (w : World) :
  fs_quiet w ->
  let v := fst (_validate_installation_impl user_id plugin_dir w) in
  (v = inr {| valid := true; validation_error := None |}
   <-> passes_validation plugin_dir (files w))
  /\ (~ passes_validation plugin_dir (files w) -> exists error, v = inr (invalid error)).
Proof.
  intros Hq v. subst v.
  destruct (validate_installation_cases user_id plugin_dir w Hq)
    as [(Hp & E) | (Hn & error & E)]; rewrite E.
  - split; [tauto|]. intros Hn. contradiction.
  - split; [|eauto]. split; [discriminate | contradiction].
Qed.

(** X14.  Validation names the first problem it meets.  With both required
    files missing the error lists both, in the order [package.json],
    [dist/remoteEntry.js]; with both present and [package.json] a file: a
    [JSONDecodeError] of [json.load] gives ['Invalid package.json: '] followed
    by the text of the exception, any other exception but
    [FileNotFoundError] gives the bare text; a missing [name] is reported
    before a missing [version], and both before an empty bundle. *)
Theorem validation_names_the_first_problem
    (user_id : string) (plugin_dir : path) (w : World) :
  fs_quiet w ->
  let v := fst (_validate_installation_impl user_id plugin_dir w) in
  let package_json := node_at (files w) (package_json_of plugin_dir) in
  let bundle := node_at (files w) (bundle_of plugin_dir) in
  (package_json = None -> bundle = None ->
   v = inr (invalid "Missing required files: package.json, dist/remoteEntry.js"))
  /\ (forall content nd,
        package_json = Some (File content) -> bundle = Some nd ->
        (forall e, json_load content = inl e ->
           v = inr (invalid (if is_json_decode_error e || is_file_not_found e
                             then "Invalid package.json: " +:+ str_exn e
                             else str_exn e)))
        /\ (forall package_data, json_load content = inr package_data ->
              (json_in "name" package_data = inr false ->
               v = inr (invalid "package.json missing required field: name"))
              /\ (json_in "name" package_data = inr true ->
                  json_in "version" package_data = inr false ->
                  v = inr (invalid "package.json missing required field: version"))
              /\ (json_in "name" package_data = inr true ->
                  json_in "version" package_data = inr true ->
                  node_size nd = 0%nat ->
                  v = inr (invalid "Bundle file is empty")))).
Proof.
  intros Hq v package_json bundle. subst v package_json bundle.
  pose proof (validate_installation_table user_id plugin_dir w Hq) as T. cbv zeta in T.
  split.
  - intros Epk Eb. rewrite Epk, Eb in T. exact T.
  - intros content nd Epk Eb. rewrite Epk, Eb in T. split.
    + intros e Ej. rewrite Ej in T. exact T.
    + intros data Ej. rewrite Ej in T. split; [|split].
      * intros En. rewrite En in T. exact T.
      * intros En Ev. rewrite En, Ev in T. exact T.
      * intros En Ev Es. rewrite En, Ev, Es in T. exact T.
Qed.

(** X15.  When the filesystem answers, the health check reports
    [healthy = True] exactly for a plugin directory in which the bundle
    exists with a size other than zero and [package.json] is a file that
    loads as JSON; the details then give [bundle_exists], the size of the
    bundle and [package_json_valid]. *)
Theorem healthy_exactly_when (user_id : string) (plugin_dir : path) (w : World) :
  fs_quiet w ->
  let h := fst (_get_plugin_health_impl user_id plugin_dir w) in
  ((exists d, h = inr {| healthy := true; details := d |})
   <-> looks_healthy plugin_dir (files w))
  /\ (forall bundle,
        looks_healthy plugin_dir (files w) ->
        node_at (files w) (bundle_of plugin_dir) = Some bundle ->
        h = inr {| healthy := true;
                   details := HealthInfo {| bundle_exists := true;
                                            bundle_size := node_size bundle;
                                            package_json_valid := true |} |})
  /\ (~ looks_healthy plugin_dir (files w) ->
      exists d, h = inr {| healthy := false; details := d |}).
Proof.
  intros Hq h. subst h.
  destruct (get_plugin_health_cases user_id plugin_dir w Hq)
    as [(bn & Hl & Eb & E) | (Hn & d & E)]; rewrite E.
  - split; [split; eauto|]. split; [|intros Hn; contradiction].
    intros bundle _ Eb'. rewrite Eb in Eb'. injection Eb' as <-. reflexivity.
  - split; [|split; [intros bundle Hl; contradiction | eauto]].
    split; [intros (d' & Habs); discriminate Habs | contradiction].
Qed.

(** X16.  An installation that passes validation is healthy: when the
    filesystem answers and [_validate_installation_impl] reports
    [valid = True], a health check of the same directory made afterwards
    reports [healthy = True]. *)
Theorem valid_installation_is_healthy (user_id : string) (plugin_dir : path) (w : World) :
  fs_quiet w ->
  let run := _validate_installation_impl user_id plugin_dir w in
  (exists v, fst run = inr v /\ valid v = true) ->
  exists h, fst (_get_plugin_health_impl user_id plugin_dir (snd run)) = inr h
            /\ healthy h = true.
Proof.
  intros Hq run (v & Ev & Hv). subst run.
  destruct (validate_installation_cases user_id plugin_dir w Hq)
    as [(Hp & _) | (_ & error & E)].
  2:{ rewrite E in Ev. injection Ev as <-. discriminate Hv. }
  destruct (validate_installation_read_only user_id plugin_dir w)
    as (Hf & _ & (_ & Hfs & _)).
  assert (Hq' : fs_quiet (snd (_validate_installation_impl user_id plugin_dir w)))
    by (intros c; rewrite Hfs; apply Hq).
  destruct (get_plugin_health_cases user_id plugin_dir _ Hq')
    as [(bn & _ & _ & E) | (Hn & _)].
  - eexists. split; [exact E | reflexivity].
  - exfalso. apply Hn. rewrite Hf.
    destruct Hp as (c & d & nd & H1 & H2 & _ & _ & H5 & H6). exists c, d, nd. auto 10.
Qed.

End Answers.

Lemma demo_passes_validation :
  passes_validation (H := Demo.host) Demo.plugin_dir (files Demo.w0).
Proof.
  exists Demo.package_json,
         (JObj [("name", JStr "CollectionViewer"); ("version", JStr "1.0.0")]),
         (File "var CollectionViewer;").
  split; [vm_compute; reflexivity|]. split; [vm_compute; reflexivity|].
  split; [vm_compute; reflexivity|]. split; [vm_compute; reflexivity|].
  split; [vm_compute; reflexivity|]. vm_compute. discriminate.
Qed.

Lemma validation_passes_exactly_when_witness :
  fs_quiet Demo.w0
  /\ passes_validation (H := Demo.host) Demo.plugin_dir (files Demo.w0)
  /\ fst (_validate_installation_impl (H := Demo.host) "alice" Demo.plugin_dir Demo.w0)
     = inr {| valid := true; validation_error := None |}.
Proof.
  assert (Hq : fs_quiet Demo.w0) by (intros c; reflexivity).
  split; [exact Hq|]. split; [exact demo_passes_validation|].
  destruct (validation_passes_exactly_when (H := Demo.host) "alice" Demo.plugin_dir
              Demo.w0 Hq) as [[_ Hvalid] _].
  exact (Hvalid demo_passes_validation).
Defined.

Lemma validation_names_the_first_problem_witness :
  let w := set_files (<[(Demo.plugin_dir ++ ["package.json"])%list := File "oops"]> Demo.disk)
                     Demo.w0 in
  fs_quiet w
  /\ json_load (Host := Demo.host) "oops"
     = inl (Exn JSONDecodeError "Expecting value: line 1 column 1 (char 0)")
  /\ fst (_validate_installation_impl (H := Demo.host) "alice" Demo.plugin_dir w)
     = inr (invalid "Invalid package.json: Expecting value: line 1 column 1 (char 0)").
Proof.
  intros w.
  assert (Hq : fs_quiet w) by (intros c; reflexivity).
  split; [exact Hq|]. split; [reflexivity|].
  destruct (validation_names_the_first_problem (H := Demo.host) "alice" Demo.plugin_dir w Hq)
    as [_ Hrows].
  assert (Epk : node_at (files w) (package_json_of Demo.plugin_dir) = Some (File "oops"))
    by (vm_compute; reflexivity).
  assert (Eb : node_at (files w) (bundle_of Demo.plugin_dir)
               = Some (File "var CollectionViewer;"))
    by (vm_compute; reflexivity).
  destruct (Hrows "oops" (File "var CollectionViewer;") Epk Eb) as [Hload _].
  exact (Hload (Exn JSONDecodeError "Expecting value: line 1 column 1 (char 0)") eq_refl).
Defined.

Lemma demo_looks_healthy : looks_healthy (H := Demo.host) Demo.plugin_dir (files Demo.w0).
Proof.
  destruct demo_passes_validation as (c & d & nd & H1 & H2 & _ & _ & H5 & H6).
  exists c, d, nd. auto.
Qed.

Lemma healthy_exactly_when_witness :
  fs_quiet Demo.w0
  /\ looks_healthy (H := Demo.host) Demo.plugin_dir (files Demo.w0)
  /\ exists d, fst (_get_plugin_health_impl (H := Demo.host) "alice" Demo.plugin_dir Demo.w0)
               = inr {| healthy := true; details := d |}.
Proof.
  assert (Hq : fs_quiet Demo.w0) by (intros c; reflexivity).
  split; [exact Hq|]. split; [exact demo_looks_healthy|].
  destruct (healthy_exactly_when (H := Demo.host) "alice" Demo.plugin_dir Demo.w0 Hq)
    as [[_ Hhealthy] _].
  exact (Hhealthy demo_looks_healthy).
Defined.

Lemma valid_installation_is_healthy_witness :
  let run := _validate_installation_impl (H := Demo.host) "alice" Demo.plugin_dir Demo.w0 in
  (fs_quiet Demo.w0 /\ exists v, fst run = inr v /\ valid v = true)
  /\ exists h, fst (_get_plugin_health_impl (H := Demo.host) "alice" Demo.plugin_dir (snd run))
               = inr h /\ healthy h = true.
Proof.
  intros run.
  assert (Hq : fs_quiet Demo.w0) by (intros c; reflexivity).
  assert (Hv : exists v, fst run = inr v /\ valid v = true)
    by (eexists; split; vm_compute; reflexivity).
  split; [auto|].
  exact (valid_installation_is_healthy (H := Demo.host) "alice" Demo.plugin_dir Demo.w0 Hq Hv).
Defined.

(** ** The files an install copies *)

Lemma mkdir_target_spec (target : path) (f : gmap path node) :
  wf_fs f -> nothing_below target f -> no_file_on_the_way target f ->
  exists g, mkdir_parents target f = (inr tt, g)
    /\ f ⊆ g /\ wf_fs g /\ nothing_below target g /\ no_file_on_the_way target g.
Proof.
  intros Hwf Hfresh Hway.
  destruct (mkdir_parents_spec target f Hway) as (g & Emk & Hsub & Hnew & _).
  exists g. split; [exact Emk|]. split; [exact Hsub|]. split; [|split].
  - intros q c q' Hq Hb.
    destruct (Hnew q _ Hq) as [Hf | (Habs & _)]; [|discriminate Habs].
    destruct (g !! q') as [x|] eqn:Eq'; [exfalso|reflexivity].
    destruct (Hnew q' _ Eq') as [Hf' | (_ & _ & Hpre)].
    + exact (lookup_some_none _ _ _ Hf' (Hwf _ _ _ Hf Hb)).
    + apply (Hway q c); [|exact Hf]. etransitivity; [apply below_prefix, Hb | exact Hpre].
  - intros q Hb. destruct (g !! q) as [x|] eqn:Eq; [exfalso|reflexivity].
    destruct (Hnew q _ Eq) as [Hf | (_ & _ & Hpre)].
    + exact (lookup_some_none _ _ _ Hf (Hfresh _ Hb)).
    + apply below_iff in Hb as (r & Hr & ->). destruct Hpre as [k Ek].
      apply (f_equal length) in Ek. rewrite !length_app in Ek.
      destruct r; [congruence | simpl in Ek; lia].
  - intros q c Hpre Hq.
    destruct (Hnew q _ Hq) as [Hf | (Habs & _)]; [|discriminate Habs].
    exact (Hway q c Hpre Hf).
Qed.

Section CopiedFiles.
Context `{Host}.

Lemma copied_files_in_place (target_dir : path) (f0 g : gmap path node)
    (acc : list string) (code : string) :
  copy_inv file_dir target_dir f0 (rglob file_dir f0) acc g ->
  f0 !! (file_dir ++ ["lifecycle_manager.py"])%list = Some (File code) ->
  forall rel content, rel <> [] ->
    f0 !! (file_dir ++ rel)%list = Some (File content) ->
    should_copy rel = true ->
    <[(target_dir ++ ["lifecycle_manager.py"])%list := File code]> g
      !! (target_dir ++ rel)%list = Some (File content).
Proof.
  intros Hinv Hlm rel c Hrel Hsrc Esc.
  destruct (decide (rel = ["lifecycle_manager.py"])) as [->|Hne].
  - rewrite Hlm in Hsrc. injection Hsrc as <-. apply lookup_insert_eq.
  - assert (Hitem : In (file_dir ++ rel)%list (rglob file_dir f0)).
    { apply rglob_spec. split; [apply below_app, Hrel | rewrite Hsrc; discriminate]. }
    destruct (ci_copied _ _ _ _ _ _ Hinv _ c Hitem Hsrc) as [Hcp _].
    { rewrite relative_to_app. exact Esc. }
    { intros E. apply app_inv_head in E. exact (Hne E). }
    rewrite relative_to_app in Hcp.
    rewrite lookup_insert_ne by (intros E; apply app_inv_head in E; congruence).
    exact Hcp.
Qed.

End CopiedFiles.

(** ** Installing in place *)

Lemma mkdir_parents_subseteq (p : path) (f : gmap path node) :
  f ⊆ snd (mkdir_parents p f).
Proof.
  unfold mkdir_parents. destruct (is_file_at f p); [reflexivity|].
  destruct (existsb _ _); [reflexivity|].
  apply (mkdir_fold_spec (prefixes p) f).
Qed.

Lemma copy2_same_file (p : path) (f : gmap path node) : snd (copy2 p p f) = f.
Proof.
  unfold copy2, copy2_target, is_dir_at.
  destruct (node_at f p) as [[c|]|]; try reflexivity.
  rewrite bool_decide_eq_true_2 by reflexivity. reflexivity.
Qed.

Lemma files_grow_refl (w : World) : files w ⊆ files w.
Proof. reflexivity. Qed.

Lemma files_grow_trans (a b c : World) :
  files a ⊆ files b -> files b ⊆ files c -> files a ⊆ files c.
Proof. intros Hab Hbc. etransitivity; eassumption. Qed.

Lemma files_grow_fs_prim {A} (c : fs_call)
    (sem : gmap path node -> (exn + A) * gmap path node) :
  (forall f, f ⊆ snd (sem f)) ->
  preserves (fun w w' => files w ⊆ files w') (fs_prim c sem).
Proof.
  intros Hsem w. unfold fs_prim. destruct (fs_raises w c); [reflexivity|].
  specialize (Hsem (files w)). destruct (sem (files w)) as [r f]. exact Hsem.
Qed.

Lemma preserves_for_each_when {A S} (R : World -> World -> Prop) (Q : A -> Prop)
    (l : list A) (body : A -> S -> M S) (s : S) :
  (forall w, R w w) -> (forall a b c, R a b -> R b c -> R a c) ->
  Forall Q l -> (forall x s, Q x -> preserves R (body x s)) ->
  preserves R (for_each l body s).
Proof.
  intros Hrefl Htrans Hl Hb. revert s. induction Hl as [|x l Hx Hl IH]; intros s; simpl.
  - apply (preserves_ret _ Hrefl).
  - unfold_M. apply (preserves_bind _ Htrans); auto.
Qed.

Section InPlace.
Context `{Host}.

Lemma copy_item_in_place (item : path) (acc : list string) :
  below file_dir item = true ->
  preserves (fun w w' => files w ⊆ files w') (copy_item file_dir file_dir false item acc).
Proof.
  intros Hb. unfold copy_item.
  apply below_inv in Hb as [Eitem _]. rewrite <- Eitem. cbv iota.
  preserves_tac files_grow_refl files_grow_trans; apply files_grow_fs_prim; intros f;
    first [ reflexivity | apply mkdir_parents_subseteq
          | rewrite copy2_same_file; reflexivity ].
Qed.

(** Copying the source directory onto itself fails: [shutil] refuses to copy
    [lifecycle_manager.py] onto itself, if nothing failed before. *)
Lemma copy_in_place_fails (user_id : string) (w : World) (code : string) :
  files w !! (file_dir ++ ["lifecycle_manager.py"])%list = Some (File code) ->
  exists error, fst (_copy_plugin_files_impl user_id file_dir false w) = inr (Failure error).
Proof.
  intros Hlm.
  set (lm := (file_dir ++ ["lifecycle_manager.py"])%list) in *.
  assert (Hlm_ne : lm <> []) by apply snoc_not_nil.
  unfold _copy_plugin_files_impl, try_except.
  enough (Hbody : exists e, fst (_copy_plugin_files_impl_try user_id file_dir false w) = inl e).
  { destruct Hbody as [e He].
    destruct (_copy_plugin_files_impl_try user_id file_dir false w) as [r w'].
    simpl in He. subst r. eexists. reflexivity. }
  unfold _copy_plugin_files_impl_try. rewrite !path_div_lifecycle_manager. fold lm.
  unfold bind at 1. unfold path_rglob at 1, fs_prim at 1.
  destruct (fs_raises w (Rglob file_dir)) as [e|]; [eexists; reflexivity|].
  set (w1 := set_files (files w) (log (FsEv (Rglob file_dir)) w)).
  assert (Hloop : files w1 ⊆ files (snd (for_each (rglob file_dir (files w))
                                            (copy_item file_dir file_dir false) [] w1))).
  { apply (preserves_for_each_when (fun w w' => files w ⊆ files w')
             (fun q => below file_dir q = true));
      [apply files_grow_refl | apply files_grow_trans | |].
    - apply List.Forall_forall. intros q Hq. apply rglob_spec in Hq. tauto.
    - intros item acc Hitem. apply copy_item_in_place, Hitem. }
  unfold bind at 1.
  destruct (for_each (rglob file_dir (files w)) (copy_item file_dir file_dir false) [] w1)
    as [[e|acc] w2]; [eexists; reflexivity|].
  cbn [snd] in Hloop. change (files w1) with (files w) in Hloop.
  pose proof (lookup_weaken _ _ _ _ Hlm Hloop) as Hlm2.
  unfold bind at 1. unfold path_exists at 1, fs_prim at 1.
  destruct (fs_raises w2 (Exists lm)) as [e|]; [eexists; reflexivity|].
  unfold exists_at. rewrite (node_at_lookup _ lm Hlm_ne). cbn [files set_files log].
  rewrite Hlm2. unfold_M.
  unfold bind at 1. unfold bind at 1. unfold path_mkdir at 1, fs_prim at 1.
  cbn [fs_raises files set_files log].
  destruct (fs_raises w2 (Mkdir (parent lm))) as [e|]; [eexists; reflexivity|].
  pose proof (mkdir_parents_subseteq (parent lm) (files w2)) as Hmk.
  destruct (mkdir_parents (parent lm) (files w2)) as [[e|[]] g]; [eexists; reflexivity|].
  cbn [snd] in Hmk. pose proof (lookup_weaken _ _ _ _ Hlm2 Hmk) as Hlm3.
  unfold ret at 1. cbv beta iota. unfold bind at 1.
  unfold shutil_copy2 at 1, fs_prim at 1. cbn [fs_raises files set_files log].
  destruct (fs_raises w2 (Copy2 lm lm)) as [e|]; [eexists; reflexivity|].
  unfold copy2, copy2_target, is_dir_at. rewrite (node_at_lookup _ lm Hlm_ne), Hlm3.
  rewrite bool_decide_eq_true_2 by reflexivity. eexists. reflexivity.
Qed.

(** The three ways an install in place ends: at the duplicate check, at the
    [mkdir], or in the copy. *)
Lemma install_in_place_run (self : Manager) (user_id : string) (w : World) (code : string) :
  shared_path self = file_dir ->
  files w !! (file_dir ++ ["lifecycle_manager.py"])%list = Some (File code) ->
  exists error w2 w3,
    install_plugin self user_id w = (inr (Failure error, self), w3)
    /\ (w3 = log (DbEv (SelectPlugin user_id slug)) w
        \/ (trace w2 = (trace w ++ [DbEv (SelectPlugin user_id slug);
                                    FsEv (Mkdir file_dir)])%list
            /\ (w3 = w2
                \/ w3 = snd (_copy_plugin_files_impl user_id file_dir false w2))))
    /\ same_tables w w3.
Proof.
  intros Hshared Hlm.
  destruct (install_plugin self user_id w) as [r w'] eqn:E.
  unfold install_plugin, install_plugin_try, try_except in E. unfold_M.
  rewrite (bind_inr _ _ _ _ _ (check_existing_plugin_run user_id w)) in E.
  set (w1 := log _ w) in E.
  destruct (exists_ _).
  { injection E as <- <-. exists "Plugin already installed", w1, w1.
    split; [reflexivity|]. split; [left; reflexivity | repeat split]. }
  rewrite Hshared in E.
  pose proof (same_db_fs (Mkdir file_dir) (mkdir_parents file_dir) w1) as H2.
  pose proof (files_grow_fs_prim (Mkdir file_dir) (mkdir_parents file_dir)
                (mkdir_parents_subseteq file_dir) w1) as Hg2.
  pose proof (path_mkdir_trace file_dir w1) as Ht2.
  fold (path_mkdir file_dir) in H2, Hg2. unfold bind at 1 in E.
  destruct (path_mkdir file_dir w1) as [[e|[]] w2]; cbn [snd] in H2, Hg2, Ht2.
  { injection E as <- <-. exists (str_exn e), w2, w2. split; [reflexivity|].
    split; [right; split; [rewrite Ht2; unfold w1; simpl; rewrite <- app_assoc; reflexivity
                          | left; reflexivity]|].
    destruct H2 as [[Hp Hc] _]. split; [exact Hp | exact Hc]. }
  change (files w1) with (files w) in Hg2.
  pose proof (lookup_weaken _ _ _ _ Hlm Hg2) as Hlm2.
  destruct (copy_in_place_fails user_id w2 code Hlm2) as [error Ecopy].
  pose proof (copy_plugin_files_same_db user_id file_dir false w2) as H3.
  unfold bind at 1 in E.
  destruct (_copy_plugin_files_impl user_id file_dir false w2) as [cr w3] eqn:Ecp.
  cbn [fst snd] in Ecopy, H3. subst cr. cbn [success negb] in E.
  injection E as <- <-. exists error, w2, w3. split; [reflexivity|].
  split; [right; split; [rewrite Ht2; unfold w1; simpl; rewrite <- app_assoc; reflexivity
                        | right; rewrite Ecp; reflexivity]|].
  destruct H2 as [[Hp Hc] _]. destruct H3 as [[Hp3 Hc3] _].
  split; [rewrite Hp3; exact Hp | rewrite Hc3; exact Hc].
Qed.

(** X18.  A manager whose shared path is the plugin's own directory (the
    one built without [plugins_base_dir]) never installs anything: as long
    as [lifecycle_manager.py] is a file of that directory, the copy of the
    directory onto itself fails, whatever else fails or does not, so
    [install_plugin] returns a failure, the manager is unchanged and no
    row is written. *)
Theorem install_in_place_never_succeeds (self : Manager) (user_id : string) (w : World)
    (code : string) :
  shared_path self = file_dir ->
  files w !! (file_dir ++ ["lifecycle_manager.py"])%list = Some (File code) ->
  let run := install_plugin self user_id w in
  (exists error, fst run = inr (Failure error, self))
  /\ same_tables w (snd run)
  /\ Forall (fun ev => is_db_write ev = false) (new_events w (snd run)).
Proof.
  intros Hshared Hlm run. subst run.
  destruct (install_in_place_run self user_id w code Hshared Hlm)
    as (error & w2 & w3 & E & Hw3 & Htab). rewrite E. cbn [fst snd].
  split; [eauto|]. split; [exact Htab|].
  unfold new_events. destruct Hw3 as [-> | (Ht2 & [-> | ->])].
  - simpl. rewrite drop_app_length. repeat constructor.
  - rewrite Ht2, drop_app_length. repeat constructor.
  - destruct (copy_plugin_files_emits_when (fun ev => is_db_write ev = false)
                user_id file_dir false (fun c _ => eq_refl) w2) as (evs & Et & Hevs).
    rewrite Et, Ht2, <- app_assoc, drop_app_length.
    repeat constructor. exact Hevs.
Qed.

End InPlace.

(** ** The states that can be reached, and the exclusion filter *)

Section Invariant.
Context `{Host}.

(** X19.  The tables stay consistent whatever fails: in every state that
    calls of [install_plugin] and [delete_plugin] can reach from a database
    in which the plugin was never installed, failed calls and failed
    rollbacks included, the session and the committed tables hold at most
    one CollectionViewer plugin row and at most one module row per user, no
    module row without its plugin row, and every such plugin row has the
    identifier [<user_id>_CollectionViewer]. *)
Theorem reachable_tables_are_consistent (w : World) :
  reachable w ->
  forall t, t = pending w \/ t = committed w ->
  forall user_id,
    (length (plugin_rows_of user_id t) <= 1)%nat
    /\ (length (module_rows_of user_id t) <= 1)%nat
    /\ (module_rows_of user_id t <> [] -> plugin_rows_of user_id t <> [])
    /\ (forall row, In row (plugin_rows_of user_id t) ->
                    p_id row = user_id +:+ "_CollectionViewer").
Proof.
  intros Hreach t Ht user_id.
  destruct (reachable_when_inv _ w Hreach) as [Hp Hc].
  assert (Hinv : db_inv t) by (destruct Ht as [-> | ->]; assumption).
  split; [apply (inv_plugin_unique t Hinv)|].
  split; [apply (inv_module_unique t Hinv)|].
  split; [apply (inv_module_parent t Hinv)|].
  intros row Hrow. apply List.filter_In in Hrow as [Hin Hm].
  apply andb_true_iff in Hm as [Hu Hs]. apply String.eqb_eq in Hu, Hs.
  rewrite (inv_plugin_id t Hinv row Hin Hs), Hu. reflexivity.
Qed.

End Invariant.

Lemma wildcard_is_pyc (n : string) :
  existsb (fun pattern => has_star pattern && endswith n (remove_star pattern))
          exclude_patterns
  = endswith n ".pyc".
Proof.
  unfold exclude_patterns. cbn [existsb].
  change (has_star "node_modules") with false.
  change (has_star "package-lock.json") with false.
  change (has_star ".git") with false.
  change (has_star ".gitignore") with false.
  change (has_star "__pycache__") with false.
  change (has_star ".DS_Store") with false.
  change (has_star "*.pyc") with true.
  change (remove_star "*.pyc") with ".pyc".
  cbn [andb orb]. apply orb_false_r.
Qed.

(** X20.  The exclusion filter of the file copy, in full: a relative path
    is copied exactly when none of its components is one of
    [node_modules], [package-lock.json], [.git], [.gitignore],
    [__pycache__], [*.pyc], [.DS_Store], and its name does not end in
    [.pyc]; the only pattern that acts as a wildcard is [*.pyc]. *)
Theorem should_copy_exactly_when (p : path) :
  should_copy p = true
  <-> (forall part, In part p -> ~ In part exclude_patterns)
      /\ endswith (name p) ".pyc" = false.
Proof.
  unfold should_copy. rewrite wildcard_is_pyc.
  destruct (existsb (fun part => bool_decide (part ∈ exclude_patterns)) p) eqn:E.
  - split; [discriminate|]. intros [Hall _]. exfalso.
    apply List.existsb_exists in E as (part & Hin & Hd).
    apply bool_decide_eq_true_1 in Hd. apply (Hall part Hin).
    apply list_elem_of_In, Hd.
  - assert (Hall : forall part, In part p -> ~ In part exclude_patterns).
    { intros part Hin Hex. apply not_true_iff_false in E. apply E.
      apply List.existsb_exists. exists part. split; [exact Hin|].
      apply bool_decide_eq_true_2, list_elem_of_In, Hex. }
    destruct (endswith (name p) ".pyc").
    + split; [discriminate | intros [_ Habs]; discriminate Habs].
    + split; [auto | reflexivity].
Qed.

Lemma install_in_place_never_succeeds_witness :
  let self := __init__ (H := Demo.host) None Demo.w0 in
  shared_path self = Demo.plugin_dir
  /\ exists error,
       fst (install_plugin (H := Demo.host) self "alice" Demo.w0) = inr (Failure error, self).
Proof.
  intros self. split; [reflexivity|].
  refine (proj1 (install_in_place_never_succeeds (H := Demo.host) self "alice" Demo.w0
                   "class CollectionViewerLifecycleManager" eq_refl _)).
  vm_compute. reflexivity.
Defined.

Lemma reachable_tables_are_consistent_witness :
  reachable (H := Demo.host) Demo.w_copied
  /\ (length (plugin_rows_of "alice" (committed Demo.w_copied)) <= 1)%nat.
Proof.
  assert (Hreach : reachable (H := Demo.host) Demo.w_copied).
  { exact (reach_install (H := Demo.host) _ Demo.manager "alice" Demo.quiet_fs
             Demo.quiet_db "2024-01-01 00:00:00" Demo.w0 (reach_initial _ _ demo_initial) I). }
  split; [exact Hreach|].
  exact (proj1 (reachable_tables_are_consistent (H := Demo.host) Demo.w_copied Hreach
                  (committed Demo.w_copied) (or_intror eq_refl) "alice")).
Defined.

(** * The clock of the record creation *)

Section Clock.
Context `{Host}.

Lemma create_database_records_run (user_id : string) (w : World) :
  _create_database_records user_id w
  = match db_raises w Rollback with
    | Some e => (inl e, log (DbEv Rollback) w)
    | None => (inr (Failure (str_exn attribute_error)),
               set_pending (committed w) (log (DbEv Rollback) w))
    end.
Proof.
  unfold _create_database_records, try_except.
  rewrite create_database_records_try_raises. apply rollback_handler_run.
Qed.

Lemma create_database_records_fails (user_id : string) (w : World) :
  succeeded (fst (_create_database_records user_id w)) = false.
Proof. rewrite create_database_records_run. destruct (db_raises w Rollback); reflexivity. Qed.

Lemma create_database_records_emits (P : event -> Prop) (user_id : string) :
  P (DbEv Rollback) -> emits P (_create_database_records user_id).
Proof.
  intros HP w. exists [DbEv Rollback]. split; [|auto].
  rewrite create_database_records_run. destruct (db_raises w Rollback); reflexivity.
Qed.

Lemma install_for_user_no_insert (P : event -> Prop) (self : Manager) (user_id : string)
    (d : path) :
  P (DbEv Rollback) -> emits P (install_for_user self user_id d).
Proof.
  intros HP. unfold install_for_user, _perform_user_installation,
    _perform_user_installation_try.
  destruct (bool_decide _); [apply emits_ret|].
  apply emits_bind.
  - apply emits_try_except; [|intros e; apply emits_ret].
    apply emits_bind; [apply create_database_records_emits, HP|].
    intros r. destruct r; apply emits_ret.
  - intros r. destruct (success r); [|apply emits_ret].
    apply emits_bind; [apply emits_now | intros t; apply emits_ret].
Qed.

Lemma install_plugin_no_insert (P : event -> Prop) (self : Manager) (user_id : string) :
  (forall c, is_unlink (FsEv c) = false -> P (FsEv c)) ->
  P (DbEv (SelectPlugin user_id slug)) -> P (DbEv Rollback) ->
  emits P (install_plugin self user_id).
Proof.
  intros Hfs Hsel Hrb.
  unfold install_plugin, install_plugin_try.
  apply emits_try_except; [|intros e; apply emits_ret].
  apply emits_bind.
  { unfold _check_existing_plugin, _check_existing_plugin_try, db_select_plugin.
    emits_tac; exact Hsel. }
  intros chk. destruct (exists_ chk); [apply emits_ret|].
  unfold_M. apply emits_bind; [apply emits_fs_prim, Hfs; reflexivity|].
  intros _. apply emits_bind.
  { apply copy_plugin_files_emits_when. intros c Hc. apply Hfs.
    destruct (is_unlink (FsEv c)); [discriminate (Hc eq_refl) | reflexivity]. }
  intros r. destruct (negb (success r)); [apply emits_ret|].
  apply install_for_user_no_insert, Hrb.
Qed.

(** [install_plugin] ends in a failure, with the tables as they were or the
    uncommitted changes of the session dropped. *)
Lemma install_plugin_fails (self : Manager) (user_id : string) (w : World) :
  let run := install_plugin self user_id w in
  (exists error, fst run = inr (Failure error, self))
  /\ committed (snd run) = committed w
  /\ (pending (snd run) = pending w \/ pending (snd run) = committed w).
Proof.
  intros run. subst run.
  destruct (install_plugin_outcome self user_id w)
    as [(error & E & (Hp & Hc) & _) | (w3 & ((Hp & Hc) & _) & _ & Ew & Hcases)].
  { split; [eauto|]. split; [exact Hc | left; exact Hp]. }
  pose proof (create_database_records_fails user_id w3) as Hfail.
  destruct Hcases as [(Er & _) | (_ & error & E)].
  { rewrite Er in Hfail. discriminate Hfail. }
  split; [eauto|]. rewrite Ew, create_database_records_run.
  destruct (db_raises w3 Rollback); simpl.
  - split; [exact Hc | left; exact Hp].
  - split; [exact Hc | right; exact Hc].
Qed.

(** C4.  The successful install the claim speaks of does not occur: with
    the base class of the source, [_create_database_records] raises at its
    first statement, so every [install_plugin] returns a failure with the
    manager unchanged; no INSERT and no COMMIT is issued, the committed
    tables are as before, and the session sees what it saw before or, after
    the rollback, what was committed. *)
Theorem install_plugin_never_succeeds (self : Manager) (user_id : string) (w : World) :
  let run := install_plugin self user_id w in
  (exists error, fst run = inr (Failure error, self))
  /\ committed (snd run) = committed w
  /\ (pending (snd run) = pending w \/ pending (snd run) = committed w)
  /\ Forall (fun ev => is_insert ev = false /\ is_commit ev = false)
            (new_events w (snd run)).
Proof.
  intros run. subst run.
  destruct (install_plugin_fails self user_id w) as (Hres & Hc & Hp).
  split; [exact Hres|]. split; [exact Hc|]. split; [exact Hp|].
  apply emits_new_events, install_plugin_no_insert.
  - intros c _. split; reflexivity.
  - split; reflexivity.
  - split; reflexivity.
Qed.





End Clock.

(** * Without a base directory *)

Lemma mkdir_parents_only_dirs (p : path) (f : gmap path node) (q : path) (c : string) :
  snd (mkdir_parents p f) !! q = Some (File c) -> f !! q = Some (File c).
Proof.
  unfold mkdir_parents. destruct (is_file_at f p); [auto|].
  destruct (existsb _ _); [auto|]. simpl. intros Hq.
  destruct (mkdir_fold_spec (prefixes p) f) as (_ & Hnew & _).
  destruct (Hnew q _ Hq) as [Hf | [Habs _]]; [exact Hf | discriminate Habs].
Qed.

Lemma only_new_dirs_refl (w : World) : only_new_dirs w w.
Proof. split; [reflexivity | auto]. Qed.

Lemma only_new_dirs_trans (a b c : World) :
  only_new_dirs a b -> only_new_dirs b c -> only_new_dirs a c.
Proof.
  intros [Hab Hab'] [Hbc Hbc']. split; [etransitivity; eassumption | auto].
Qed.

Lemma only_new_dirs_fs_prim {A} (c : fs_call)
    (sem : gmap path node -> (exn + A) * gmap path node) :
  (forall f, f ⊆ snd (sem f)
             /\ forall q x, snd (sem f) !! q = Some (File x) -> f !! q = Some (File x)) ->
  preserves only_new_dirs (fs_prim c sem).
Proof.
  intros Hsem w. unfold fs_prim. destruct (fs_raises w c); [apply (only_new_dirs_refl w)|].
  specialize (Hsem (files w)). destruct (sem (files w)) as [r f]. exact Hsem.
Qed.

Lemma only_new_dirs_db {A} (c : db_call) (sem : tables -> (exn + A) * tables) :
  preserves only_new_dirs (db_prim c sem).
Proof. apply preserves_db_prim. intros w t. apply (only_new_dirs_refl w). Qed.

Lemma only_new_dirs_commit : preserves only_new_dirs db_commit.
Proof.
  intros w. unfold db_commit. destruct (db_raises w Commit); apply (only_new_dirs_refl w).
Qed.

Lemma only_new_dirs_rollback : preserves only_new_dirs db_rollback.
Proof.
  intros w. unfold db_rollback. destruct (db_raises w Rollback); apply (only_new_dirs_refl w).
Qed.

Ltac only_new_dirs_tac :=
  preserves_tac only_new_dirs_refl only_new_dirs_trans;
  try first
    [ apply only_new_dirs_db | apply only_new_dirs_commit | apply only_new_dirs_rollback
    | apply only_new_dirs_fs_prim; intros f;
      first [ split; [reflexivity | auto]
            | split; [apply mkdir_parents_subseteq | apply mkdir_parents_only_dirs]
            | rewrite copy2_same_file; split; [reflexivity | auto] ] ].

Section NoBaseDir.
Context `{Host}.

Lemma copy_item_writes_no_file (item : path) (acc : list string) :
  below file_dir item = true ->
  preserves only_new_dirs (copy_item file_dir file_dir false item acc).
Proof.
  intros Hb. unfold copy_item.
  apply below_inv in Hb as [Eitem _]. rewrite <- Eitem. cbv iota.
  only_new_dirs_tac.
Qed.

Lemma copy_in_place_writes_no_file (user_id : string) :
  preserves only_new_dirs (_copy_plugin_files_impl user_id file_dir false).
Proof.
  unfold _copy_plugin_files_impl, _copy_plugin_files_impl_try.
  apply (preserves_try_except _ only_new_dirs_trans);
    [|intros e; apply (preserves_ret _ only_new_dirs_refl)].
  intros w. unfold bind at 1, path_rglob at 1, fs_prim at 1.
  destruct (fs_raises w (Rglob file_dir)); [apply (only_new_dirs_refl w)|].
  set (w1 := set_files (files w) (log (FsEv (Rglob file_dir)) w)).
  apply (only_new_dirs_trans w w1); [apply (only_new_dirs_refl w)|].
  revert w1. apply (preserves_bind _ only_new_dirs_trans).
  - apply (preserves_for_each_when only_new_dirs (fun q => below file_dir q = true));
      [apply only_new_dirs_refl | apply only_new_dirs_trans | |].
    + apply List.Forall_forall. intros q Hq. apply rglob_spec in Hq. tauto.
    + intros item acc Hitem. apply copy_item_writes_no_file, Hitem.
  - intros copied. cbv iota. only_new_dirs_tac.
Qed.

Lemma install_in_place_writes_no_file (self : Manager) (user_id : string) :
  shared_path self = file_dir ->
  preserves only_new_dirs (install_plugin self user_id).
Proof.
  intros Hshared. unfold install_plugin, install_plugin_try. rewrite Hshared.
  apply (preserves_try_except _ only_new_dirs_trans);
    [|intros e; apply (preserves_ret _ only_new_dirs_refl)].
  apply (preserves_bind _ only_new_dirs_trans).
  { unfold _check_existing_plugin, _check_existing_plugin_try, db_select_plugin.
    only_new_dirs_tac. }
  intros chk. destruct (exists_ chk); [apply (preserves_ret _ only_new_dirs_refl)|].
  unfold_M. apply (preserves_bind _ only_new_dirs_trans).
  { apply only_new_dirs_fs_prim. intros f.
    split; [apply mkdir_parents_subseteq | apply mkdir_parents_only_dirs]. }
  intros _. apply (preserves_bind _ only_new_dirs_trans);
    [apply copy_in_place_writes_no_file|].
  intros r. destruct (negb (success r)); [apply (preserves_ret _ only_new_dirs_refl)|].
  unfold install_for_user, _perform_user_installation, _perform_user_installation_try,
    _create_database_records, _create_database_records_try, datetime_datetime_now,
    db_insert_plugin, db_insert_module.
  simpl for_each. only_new_dirs_tac.
Qed.

(** C10 (as amended).  Without [plugins_base_dir] the shared storage path is
    the plugin's own source directory, and every file copy [install_plugin]
    then issues has the file it reads as its destination.  [shutil] refuses
    such a copy: with [lifecycle_manager.py] in that directory the install
    ends in a failure, whatever else fails, and no file has been written:
    every file is one that was there, with its content. *)
Theorem shared_path_defaults_to_source_dir (w : World) (user_id : string) (code : string) :
  shared_path (__init__ None w) = file_dir
  /\ emits (fun ev => forall src dst, ev = FsEv (Copy2 src dst) ->
                        below file_dir src = true /\ dst = src)
           (install_plugin_standalone user_id None)
  /\ (files w !! (file_dir ++ ["lifecycle_manager.py"])%list = Some (File code) ->
      let run := install_plugin_standalone user_id None w in
      (exists error, fst run = inr (Failure error, __init__ None w))
      /\ only_new_dirs w (snd run)).
Proof.
  split; [reflexivity|]. split.
  - intros w'. unfold install_plugin_standalone.
    eapply emits_weaken; [|apply install_plugin_emits].
    intros ev Hev src dst E. destruct (Hev src dst E) as [Hb Hd]. split; [exact Hb|].
    rewrite Hd. simpl shared_path. symmetry. apply below_inv, Hb.
  - intros Hlm run. subst run. unfold install_plugin_standalone. split.
    + destruct (install_in_place_run (__init__ None w) user_id w code eq_refl Hlm)
        as (error & w2 & w3 & E & _). rewrite E. eauto.
    + apply install_in_place_writes_no_file. reflexivity.
Qed.

End NoBaseDir.

(** The claim C10 as it is stated fails: the install without a base
    directory copies no file into the source directory; the copy of
    [lifecycle_manager.py] onto itself is attempted and refused, the install
    fails, and every file there is afterwards is one that was there
    before. *)
Lemma in_place_install_copies_nothing :
  let self := __init__ (H := Demo.host) None Demo.w0 in
  let run := install_plugin_standalone (H := Demo.host) "alice" None Demo.w0 in
  shared_path self = Demo.plugin_dir
  /\ (exists error, fst run = inr (Failure error, self))
  /\ List.In (FsEv (Copy2 (Demo.plugin_dir ++ ["lifecycle_manager.py"])
                          (Demo.plugin_dir ++ ["lifecycle_manager.py"])))
             (trace (snd run))
  /\ (forall q content, files (snd run) !! q = Some (File content) ->
                        files Demo.w0 !! q = Some (File content))
  /\ ~ (exists copied_files,
          fst (_copy_plugin_files_impl (H := Demo.host) "alice" (shared_path self) false
                 Demo.w0) = inr (CopyOk copied_files)).
Proof.
  split; [reflexivity|]. split; [eexists; vm_compute; reflexivity|].
  split; [vm_compute; repeat (first [left; reflexivity | right])|].
  split.
  - exact (proj2 (install_in_place_writes_no_file (H := Demo.host)
                    (__init__ (H := Demo.host) None Demo.w0) "alice" eq_refl Demo.w0)).
  - intros [copied E]. vm_compute in E. discriminate E.
Qed.

Lemma shared_path_defaults_to_source_dir_witness :
  let run := install_plugin_standalone (H := Demo.host) "alice" None Demo.w0 in
  files Demo.w0 !! (Demo.plugin_dir ++ ["lifecycle_manager.py"])%list
    = Some (File "class CollectionViewerLifecycleManager")
  /\ (exists error, fst run = inr (Failure error, __init__ (H := Demo.host) None Demo.w0))
  /\ only_new_dirs Demo.w0 (snd run).
Proof.
  intros run.
  assert (Hlm : files Demo.w0 !! (Demo.plugin_dir ++ ["lifecycle_manager.py"])%list
                = Some (File "class CollectionViewerLifecycleManager"))
    by (vm_compute; reflexivity).
  split; [exact Hlm|].
  exact (proj2 (proj2 (shared_path_defaults_to_source_dir (H := Demo.host) Demo.w0 "alice"
                         "class CollectionViewerLifecycleManager")) Hlm).
Defined.

(** * An install as far as it gets *)

Section CopyStage.
Context `{Host}.

Lemma copy_plugin_files_fs_events (user_id : string) (target_dir : path) (w : World) :
  exists evs,
    trace (snd (_copy_plugin_files_impl user_id target_dir false w)) = (trace w ++ evs)%list
    /\ Forall (fun ev => is_fs_event ev = true) evs.
Proof.
  apply (copy_plugin_files_emits_when (fun ev => is_fs_event ev = true)).
  intros c _. reflexivity.
Qed.

(** An install that is not stopped by the duplicate check, on a filesystem
    that answers and with a fresh shared directory outside the source tree:
    the files are copied, then the record creation raises and is rolled
    back. *)
Lemma install_plugin_copy_stage (self : Manager) (user_id : string) (w : World)
    (chk : check_result) (code : string) :
  _check_existing_plugin user_id w = (inr chk, log (DbEv (SelectPlugin user_id slug)) w) ->
  exists_ chk = false ->
  fs_quiet w ->
  wf_fs (files w) ->
  nothing_below (shared_path self) (files w) ->
  no_file_on_the_way (shared_path self) (files w) ->
  files w !! (file_dir ++ ["lifecycle_manager.py"])%list = Some (File code) ->
  user_id ∉ active_users self ->
  let run := install_plugin self user_id w in
  fst run = inr (Failure (match db_raises w Rollback with
                          | Some e => str_exn e
                          | None => str_exn attribute_error
                          end), self)
  /\ (forall rel content, rel <> [] ->
        files w !! (file_dir ++ rel)%list = Some (File content) ->
        should_copy rel = true ->
        files (snd run) !! (shared_path self ++ rel)%list = Some (File content))
  /\ (exists evs,
        new_events w (snd run)
        = (DbEv (SelectPlugin user_id slug) :: FsEv (Mkdir (shared_path self)) :: evs
           ++ [DbEv Rollback])%list
        /\ Forall (fun ev => is_fs_event ev = true) evs)
  /\ committed (snd run) = committed w
  /\ pending (snd run) = match db_raises w Rollback with
                         | Some _ => pending w
                         | None => committed w
                         end.
Proof.
  intros Echk Hchk Hq Hwf Hfresh Hway Hlm Hact run. subst run.
  set (target := shared_path self) in *.
  set (w1 := log (DbEv (SelectPlugin user_id slug)) w) in *.
  destruct (mkdir_target_spec target (files w) Hwf Hfresh Hway)
    as (g & Emk & Hsub & Hwfg & Hfreshg & Hwayg).
  assert (Hq1 : fs_quiet w1) by (apply fs_quiet_log, Hq).
  pose proof (path_mkdir_quiet target w1 _ _ Hq1 Emk) as Emkdir.
  set (w2 := set_files g (log (FsEv (Mkdir target)) w1)) in Emkdir.
  assert (Hq2 : fs_quiet w2) by (apply fs_quiet_set_files, fs_quiet_log, Hq1).
  assert (Hlmg : files w2 !! (file_dir ++ ["lifecycle_manager.py"])%list = Some (File code))
    by (eapply lookup_weaken; [exact Hlm | exact Hsub]).
  destruct (copy_plugin_files_run user_id target w2 code Hq2 Hwfg Hfreshg Hwayg Hlmg)
    as (acc & g' & w3 & Ecopy & Efiles & Hinv & _).
  pose proof (install_plugin_proceeds self user_id w w2 w3 _ _ Echk Hchk Emkdir Ecopy)
    as Erun.
  cbn [success] in Erun.
  pose proof (copy_plugin_files_same_db user_id target false w2) as Hdb3.
  destruct (copy_plugin_files_fs_events user_id target w2) as (evs & Et3 & Hevs).
  rewrite Ecopy in Hdb3, Et3. cbn [snd] in Hdb3, Et3.
  destruct Hdb3 as ((Hp3 & Hc3) & (Hdr3 & _ & _)).
  change (pending w2) with (pending w) in Hp3.
  change (committed w2) with (committed w) in Hc3.
  change (db_raises w2) with (db_raises w) in Hdr3.
  change (trace w2) with ((trace w ++ [DbEv (SelectPlugin user_id slug)])
                          ++ [FsEv (Mkdir target)])%list in Et3.
  assert (Einstall : install_for_user self user_id target w3
            = (inr (Failure (match db_raises w Rollback with
                             | Some e => str_exn e
                             | None => str_exn attribute_error
                             end), self),
               snd (_create_database_records user_id w3))).
  { unfold install_for_user. rewrite bool_decide_eq_false_2 by exact Hact.
    unfold_M. rewrite (bind_inr _ _ _ _ _ (perform_user_installation_run _ _ w3)).
    rewrite create_database_records_run, Hdr3.
    destruct (db_raises w Rollback); reflexivity. }
  rewrite Erun. fold target. rewrite Einstall. cbn [fst snd].
  rewrite create_database_records_run, Hdr3.
  split; [reflexivity|]. split; [|split].
  - intros rel c Hrel Hsrc Esc.
    assert (Hgoal : files w3 !! (target ++ rel)%list = Some (File c)).
    { rewrite Efiles.
      apply (copied_files_in_place target (files w2) g' acc code Hinv Hlmg rel c Hrel);
        [|exact Esc].
      eapply lookup_weaken; [exact Hsrc | exact Hsub]. }
    destruct (db_raises w Rollback); exact Hgoal.
  - exists evs. split; [|exact Hevs]. unfold new_events.
    destruct (db_raises w Rollback); cbn [snd trace log set_pending];
      rewrite Et3, <- !app_assoc, drop_app_length; reflexivity.
  - destruct (db_raises w Rollback); cbn [snd committed pending log set_pending];
      (split; [exact Hc3 | first [exact Hp3 | exact Hc3]]).
Qed.

(** C9.  When the SELECT of the duplicate check raises, the check answers
    [exists = False] with the text of the exception, whether or not the
    user has a plugin row, and [install_plugin] goes on as for a user who
    has none: on a filesystem that answers and with a fresh shared directory
    it copies every file that passes the exclusion filter and then calls for
    the records to be created.  No row is inserted: the record creation
    raises at its first statement, the transaction is rolled back and the
    result is the failure of that exception, not the one of the check. *)
Theorem failed_check_counts_as_not_installed
    (self : Manager) (user_id : string) (w : World) (e : exn) (code : string) :
  db_raises w (SelectPlugin user_id slug) = Some e ->
  _check_existing_plugin user_id w
  = (inr (check_not_found (Some (str_exn e))), log (DbEv (SelectPlugin user_id slug)) w)
  /\ (fs_quiet w ->
      wf_fs (files w) ->
      ~ file_dir `prefix_of` shared_path self ->
      nothing_below (shared_path self) (files w) ->
      no_file_on_the_way (shared_path self) (files w) ->
      files w !! (file_dir ++ ["lifecycle_manager.py"])%list = Some (File code) ->
      user_id ∉ active_users self ->
      let run := install_plugin self user_id w in
      fst run = inr (Failure (match db_raises w Rollback with
                              | Some e' => str_exn e'
                              | None => "type object 'datetime.datetime' has no attribute 'datetime'"
                              end), self)
      /\ (forall rel content, rel <> [] ->
            files w !! (file_dir ++ rel)%list = Some (File content) ->
            should_copy rel = true ->
            files (snd run) !! (shared_path self ++ rel)%list = Some (File content))
      /\ (exists evs,
            new_events w (snd run)
            = (DbEv (SelectPlugin user_id slug) :: FsEv (Mkdir (shared_path self)) :: evs
               ++ [DbEv Rollback])%list
            /\ Forall (fun ev => is_fs_event ev = true) evs)
      /\ committed (snd run) = committed w
      /\ pending (snd run) = match db_raises w Rollback with
                             | Some _ => pending w
                             | None => committed w
                             end).
Proof.
  intros Hsel.
  pose proof (check_existing_plugin_run user_id w) as Echk. rewrite Hsel in Echk.
  split; [exact Echk|].
  intros Hq Hwf _ Hfresh Hway Hlm Hact.
  apply (install_plugin_copy_stage self user_id w _ code Echk); try assumption.
  reflexivity.
Qed.

(** X17.  An install as far as it gets.  For a user without a plugin row,
    when the SELECT answers, on a filesystem that answers and with a fresh
    shared directory outside the source tree, [install_plugin] copies every
    file that passes the exclusion filter to the shared directory; then the
    record creation raises before its first INSERT and is rolled back: the
    result is a failure, the calls are the SELECT, filesystem calls and the
    ROLLBACK, and the files stay in the shared directory without a row. *)
Theorem install_plugin_copies_then_fails
    (self : Manager) (user_id : string) (w : World) (code : string) :
  db_raises w (SelectPlugin user_id slug) = None ->
  plugin_rows_of user_id (pending w) = [] ->
  fs_quiet w ->
  wf_fs (files w) ->
  ~ file_dir `prefix_of` shared_path self ->
  nothing_below (shared_path self) (files w) ->
  no_file_on_the_way (shared_path self) (files w) ->
  files w !! (file_dir ++ ["lifecycle_manager.py"])%list = Some (File code) ->
  user_id ∉ active_users self ->
  let run := install_plugin self user_id w in
  fst run = inr (Failure (match db_raises w Rollback with
                          | Some e' => str_exn e'
                          | None => "type object 'datetime.datetime' has no attribute 'datetime'"
                          end), self)
  /\ (forall rel content, rel <> [] ->
        files w !! (file_dir ++ rel)%list = Some (File content) ->
        should_copy rel = true ->
        files (snd run) !! (shared_path self ++ rel)%list = Some (File content))
  /\ (exists evs,
        new_events w (snd run)
        = (DbEv (SelectPlugin user_id slug) :: FsEv (Mkdir (shared_path self)) :: evs
           ++ [DbEv Rollback])%list
        /\ Forall (fun ev => is_fs_event ev = true) evs)
  /\ plugin_rows_of user_id (committed (snd run)) = plugin_rows_of user_id (committed w)
  /\ plugin_rows_of user_id (pending (snd run))
     = match db_raises w Rollback with
       | Some _ => []
       | None => plugin_rows_of user_id (committed w)
       end.
Proof.
  intros Hsel Hrows Hq Hwf _ Hfresh Hway Hlm Hact run. subst run.
  pose proof (check_existing_plugin_run user_id w) as Echk.
  rewrite Hsel, Hrows in Echk. cbn [head] in Echk.
  destruct (install_plugin_copy_stage self user_id w _ code Echk)
    as (Hres & Hfiles & Hev & Hc & Hp); try assumption; [reflexivity|].
  split; [exact Hres|]. split; [exact Hfiles|]. split; [exact Hev|].
  rewrite Hc, Hp. split; [reflexivity|].
  destruct (db_raises w Rollback); [exact Hrows | reflexivity].
Qed.

End CopyStage.

Lemma demo_source_outside_target : ~ file_dir (Host := Demo.host) `prefix_of` shared_path Demo.manager.
Proof. intros [k E]. vm_compute in E. discriminate E. Qed.

Lemma failed_check_counts_as_not_installed_witness :
  let w := Demo.w_lost in
  let run := install_plugin (H := Demo.host) Demo.manager "alice" w in
  (plugin_rows_of "alice" (pending w) <> []
   /\ db_raises w (SelectPlugin "alice" slug) = Some (Exn OtherError "connection lost"))
  /\ _check_existing_plugin "alice" w
     = (inr (check_not_found (Some "connection lost")),
        log (DbEv (SelectPlugin "alice" slug)) w)
  /\ fst run = inr (Failure "type object 'datetime.datetime' has no attribute 'datetime'",
                    Demo.manager)
  /\ files (snd run) !! (shared_path Demo.manager ++ ["dist"; "remoteEntry.js"])%list
     = Some (File "var CollectionViewer;")
  /\ committed (snd run) = committed w.
Proof.
  intros w run.
  assert (Hsel : db_raises w (SelectPlugin "alice" slug) = Some (Exn OtherError "connection lost"))
    by reflexivity.
  split; [split; [discriminate | exact Hsel]|].
  destruct (failed_check_counts_as_not_installed (H := Demo.host) Demo.manager "alice" w
              (Exn OtherError "connection lost") "class CollectionViewerLifecycleManager" Hsel)
    as [Hchk Hinstall].
  split; [exact Hchk|].
  destruct Hinstall as (Hres & Hfiles & _ & Hc & _).
  - intros c. reflexivity.
  - apply wf_fs_check_sound. vm_compute. reflexivity.
  - exact demo_source_outside_target.
  - apply nothing_below_check_sound. vm_compute. reflexivity.
  - apply no_file_on_the_way_check_sound. vm_compute. reflexivity.
  - vm_compute. reflexivity.
  - apply not_elem_of_empty.
  - split; [exact Hres|]. split; [|exact Hc].
    apply Hfiles; [discriminate | vm_compute; reflexivity | vm_compute; reflexivity].
Defined.

Lemma install_plugin_copies_then_fails_witness :
  let w := Demo.w0 in
  let run := install_plugin (H := Demo.host) Demo.manager "alice" w in
  fst run = inr (Failure "type object 'datetime.datetime' has no attribute 'datetime'",
                 Demo.manager)
  /\ files (snd run) !! (shared_path Demo.manager ++ ["package.json"])%list
     = Some (File Demo.package_json)
  /\ plugin_rows_of "alice" (committed (snd run)) = [].
Proof.
  intros w run.
  destruct (install_plugin_copies_then_fails (H := Demo.host) Demo.manager "alice" w
              "class CollectionViewerLifecycleManager")
    as (Hres & Hfiles & _ & Hc & _).
  - reflexivity.
  - reflexivity.
  - intros c. reflexivity.
  - apply wf_fs_check_sound. vm_compute. reflexivity.
  - exact demo_source_outside_target.
  - apply nothing_below_check_sound. vm_compute. reflexivity.
  - apply no_file_on_the_way_check_sound. vm_compute. reflexivity.
  - vm_compute. reflexivity.
  - apply not_elem_of_empty.
  - split; [exact Hres|]. split; [|exact Hc].
    apply Hfiles; [discriminate | vm_compute; reflexivity | vm_compute; reflexivity].
Defined.


(** The install on a fresh database: the files are copied, and the calls to
    the database are the SELECT and the ROLLBACK. *)
Example install_on_a_fresh_database :
  let run := install_plugin (H := Demo.host) Demo.manager "alice" Demo.w0 in
  fst run = inr (Failure "type object 'datetime.datetime' has no attribute 'datetime'",
                 Demo.manager)
  /\ filter (fun ev => negb (is_fs_event ev)) (trace (snd run))
     = [DbEv (SelectPlugin "alice" slug); DbEv Rollback]
  /\ plugin_rows_of "alice" (pending (snd run)) = []
  /\ module_rows_of "alice" (pending (snd run)) = [].
Proof. vm_compute. auto. Qed.
